(** * create-digitaltwin: the project generator

    A shallow embedding of the generator of [src/generators/project.ts]
    (module [Project]) and of the later revision of the same file that the
    repository keeps as [src/unnamed/part_001] (module [Part001]), which adds
    the npm registry lookup and the [dt.js] wrapper.  A third copy,
    [src/unnamed/part_002], has the environment, container and guide
    templates of [project.ts] word for word.

    The generator turns a [ProjectAnswers] record into a set of files.  The
    file bodies are JavaScript template literals; they are embedded here as
    Rocq strings, character for character (a double quote is spliced in as
    [dq]), with every [${...}] hole replaced by the Rocq expression that
    computes it.  File-system and console calls are recorded as a trace of
    [Effect]s; the registry lookup reads from an explicit [World]. *)

From Stdlib Require Import String Ascii List Bool Arith Lia.
From stdpp Require Import base option list gmap strings.
Import ListNotations.
Open Scope string_scope.

(** ** JavaScript helpers *)

(** The double-quote character. *)
Definition dq : string := String (ascii_of_nat 34) EmptyString.

(** The line-feed character, as written by a line break inside a template
    literal. *)
Definition LF : ascii := ascii_of_nat 10.

(** [x || d] on an optional string: [undefined] and the empty string are
    falsy. *)
Definition js_or (x : option string) (d : string) : string :=
  match x with
  | Some EmptyString => d
  | Some s => s
  | None => d
  end.

(** [`${x}`] for a value that is a string or [undefined]. *)
Definition js_interp (x : option string) : string :=
  match x with
  | Some s => s
  | None => "undefined"
  end.

(** ** src/types/project-config.ts *)

(** [DatabaseType] and [StorageType] are unions of string literals: the
    compiler restricts them, but at run time a field holds whatever string
    the caller passed.  The fields are strings here and the legal range is
    the predicate [valid_answers] below. *)
Record ProjectAnswers : Type := {
  projectName : string;
  projectPath : string;
  database : string;
  storage : string;
  localStoragePath : option string;
  useRedis : bool;
  includeDocker : bool;
  includeExamples : bool
}.

(** [PackageJsonDependencies]: an object used as a map from package name to
    version range.  The order in which the keys were added, which decides
    the order of the lines of [package.json], is not kept. *)
Abbreviation PackageJsonDependencies := (gmap string string).

Record PackageJsonConfig : Type := {
  name : string;
  version : string;
  description : string;
  main : string;
  type : string;
  scripts : gmap string string;
  bin : gmap string string;
  dependencies : PackageJsonDependencies;
  devDependencies : PackageJsonDependencies
}.

(** *** The legal range of the fields *)

Definition is_lower (c : ascii) : bool :=
  let n := nat_of_ascii c in (97 <=? n)%nat && (n <=? 122)%nat.

Definition is_digit (c : ascii) : bool :=
  let n := nat_of_ascii c in (48 <=? n)%nat && (n <=? 57)%nat.

(** Lowercase letters, digits, hyphen and underscore. *)
Definition name_char (c : ascii) : bool :=
  is_lower c || is_digit c || Ascii.eqb c "-" || Ascii.eqb c "_".

Fixpoint string_forall (p : ascii -> bool) (s : string) : bool :=
  match s with
  | EmptyString => true
  | String c r => p c && string_forall p r
  end.

Definition valid_name (s : string) : bool :=
  negb (String.eqb s "") && string_forall name_char s.

(** A string that stays on one line. *)
Definition single_line (s : string) : bool :=
  string_forall (fun c => negb (Ascii.eqb c LF)) s.

Definition valid_database (d : string) : bool :=
  String.eqb d "sqlite" || String.eqb d "postgresql".

Definition valid_storage (s : string) : bool :=
  String.eqb s "local" || String.eqb s "ovh".

(** A valid Options Model: the name is in its character set, the two enums
    are in range, and the storage path, when given, is one line of text (it
    is read from one line of prompt input). *)
Definition valid_answers (a : ProjectAnswers) : bool :=
  valid_name (projectName a)
  && valid_database (database a)
  && valid_storage (storage a)
  && match localStoragePath a with
     | Some p => single_line p
     | None => true
     end.

(** ** Paths, effects and the generator monad *)

(** A path below the destination: the destination root and the segments
    below it.  The segments are the artifact's relative path. *)
Record Path : Type := { root : string; rel : list string }.

(** [path.join(projectPath, ...segs)]. *)
Definition path_join (projectPath : string) (segs : list string) : Path :=
  {| root := projectPath; rel := segs |}.

(** [path.join(dir, seg)] for a directory that is already a [Path]. *)

Definition join (p : Path) (seg : string) : Path :=
  {| root := root p; rel := (rel p ++ [seg])%list |}.

Inductive Effect : Type :=
| EnsureDir (p : Path)
| WriteFile (p : Path) (content : string)
| WriteJson (p : Path) (obj : PackageJsonConfig) (spaces : nat)
| ConsoleLog (msg : string)
| ConsoleWarn (msg : string).

(** The outcome of [fetch(url)] followed by [response.json()]: either the
    promise rejects, or it resolves to an object whose [version] field is a
    string or is missing. *)
Inductive FetchOutcome : Type :=
| Rejected
| Resolved (version_field : option string).

(** What the generator can observe outside its argument: the npm registry. *)
Record World : Type := { registry : string -> FetchOutcome }.

(** A computation reads the world and appends to the trace of effects.
    File-system calls are assumed to succeed. *)
Definition IO (A : Type) : Type := World -> list Effect -> A * list Effect.

#[global] Instance io_ret : MRet IO := fun A x _ tr => (x, tr).

#[global] Instance io_bind : MBind IO := fun A B k m w tr =>
  let (x, tr') := m w tr in k x w tr'.

Definition emit (e : Effect) : IO unit := fun _ tr => (tt, (tr ++ [e])%list).

Definition ensureDir (p : Path) : IO unit := emit (EnsureDir p).
Definition writeFile (p : Path) (c : string) : IO unit := emit (WriteFile p c).
Definition writeJson (p : Path) (o : PackageJsonConfig) (spaces : nat) : IO unit :=
  emit (WriteJson p o spaces).
Definition console_log (m : string) : IO unit := emit (ConsoleLog m).
Definition console_warn (m : string) : IO unit := emit (ConsoleWarn m).
Definition fetch_json (url : string) : IO FetchOutcome :=
  fun w tr => (registry w url, tr).

Definition when (b : bool) (m : IO unit) : IO unit :=
  if b then m else mret tt.

(** Running a generator from an empty trace. *)
Definition run (m : IO unit) (w : World) : list Effect := snd (m w []).

(** An artifact is a relative path with its content: text, or the object
    handed to [fs.writeJson] with its indentation. *)
Inductive Content : Type :=
| Text (s : string)
| JsonDoc (obj : PackageJsonConfig) (spaces : nat).

Definition artifact_of (e : Effect) : option (list string * Content) :=
  match e with
  | WriteFile p c => Some (rel p, Text c)
  | WriteJson p o n => Some (rel p, JsonDoc o n)
  | _ => None
  end.

Definition artifacts (tr : list Effect) : list (list string * Content) :=
  omap artifact_of tr.

Definition artifact_paths (tr : list Effect) : list (list string) :=
  map fst (artifacts tr).

(** ** [JSON.stringify(value, null, spaces)]

    Only the values the generator passes: strings, booleans, arrays and
    objects.  String escapes are not modelled; the one caller passes
    literals that need none. *)
#[local] Unset Elimination Schemes.
Inductive json : Type :=
| JString (s : string)
| JBool (b : bool)
| JArray (items : list json)
| JObject (fields : list (string * json)).
#[local] Set Elimination Schemes.

Definition nl : string := String LF EmptyString.

Fixpoint concat_sep (sep : string) (l : list string) : string :=
  match l with
  | [] => ""
  | [x] => x
  | x :: r => x +:+ sep +:+ concat_sep sep r
  end.

Fixpoint spaces_string (n : nat) : string :=
  match n with
  | O => ""
  | S k => " " +:+ spaces_string k
  end.

Fixpoint stringify_at (gap indent : string) (j : json) {struct j} : string :=
  match j with
  | JString s => dq +:+ s +:+ dq
  | JBool b => if b then "true" else "false"
  | JArray items =>
      match items with
      | [] => "[]"
      | _ =>
          let inner := indent +:+ gap in
          "[" +:+ nl +:+ inner
          +:+ concat_sep ("," +:+ nl +:+ inner) (map (stringify_at gap inner) items)
          +:+ nl +:+ indent +:+ "]"
      end
  | JObject fields =>
      match fields with
      | [] => "{}"
      | _ =>
          let inner := indent +:+ gap in
          "{" +:+ nl +:+ inner
          +:+ concat_sep ("," +:+ nl +:+ inner)
                (map (fun kv => let '(k, v) := kv in
                                dq +:+ k +:+ dq +:+ ": " +:+ stringify_at gap inner v)
                     fields)
          +:+ nl +:+ indent +:+ "}"
      end
  end.

Definition JSON_stringify (j : json) (spaces : nat) : string :=
  stringify_at (spaces_string spaces) "" j.

(** ** Templates shared by the revisions

    The functions of this section have the same text in
    [src/generators/project.ts], [src/unnamed/part_001] and
    [src/unnamed/part_002]. *)

(** [generateEnvFile]: the body of the [.env] template. *)
Definition generateEnvFile (a : ProjectAnswers) : string :=
  let envContent := "# " +:+ projectName a +:+ " Digital Twin Configuration
# This file contains environment variables for your Digital Twin application
# Copy this to .env and update the values as needed

# Application Configuration
PORT=3000

# Database Configuration
" in
  let envContent :=
    if String.eqb (database a) "postgresql"
    then envContent +:+ ("# PostgreSQL Database (Required for production)
DB_HOST=localhost
DB_PORT=5432
DB_USER=postgres
DB_PASSWORD=password
DB_NAME=" +:+ projectName a +:+ "
")
    else envContent +:+ ("# SQLite Database (Good for development)
DB_PATH=./data/" +:+ projectName a +:+ ".db
") in
  let envContent := envContent +:+ "
# Storage Configuration
" in
  let envContent :=
    if String.eqb (storage a) "local"
    then envContent +:+ ("# Local File Storage
STORAGE_PATH=" +:+ js_or (localStoragePath a) "./uploads" +:+ "
")
    else envContent +:+ ("# OVH Object Storage (S3-compatible)
OVH_ACCESS_KEY=your_ovh_access_key_here
OVH_SECRET_KEY=your_ovh_secret_key_here
OVH_ENDPOINT=https://s3.gra.io.cloud.ovh.net
OVH_REGION=gra
OVH_BUCKET=" +:+ projectName a +:+ "-storage
") in
  let envContent :=
    if useRedis a
    then envContent +:+ "
# Redis Configuration (Queue Management)
REDIS_HOST=localhost
REDIS_PORT=6379
"
    else envContent in
  let envContent := envContent +:+ "
# Development Configuration
NODE_ENV=development

# Logging
LOG_LEVEL=info
" in
  envContent.

(** The [.gitignore] body of [generateConfigFiles]. *)
Definition gitignoreContent : string := "node_modules/
dist/
.env
*.log
uploads/
data/
.DS_Store
".

(** [generateConfigFiles]: [.env] and [.gitignore]. *)
Definition generateConfigFiles (projectPath : string) (a : ProjectAnswers) : IO unit :=
  let envContent := generateEnvFile a in
  writeFile (path_join projectPath [".env"]) envContent;;
  writeFile (path_join projectPath [".gitignore"]) gitignoreContent.

(** [generateDockerFiles]: the two container files. *)
Definition dockerfileContent : string := "FROM node:18-alpine

WORKDIR /app

COPY package*.json ./
RUN npm ci --only=production

COPY dist/ ./dist/
COPY .env ./

EXPOSE 3000

CMD [" +:+ dq +:+ "npm" +:+ dq +:+ ", " +:+ dq +:+ "start" +:+ dq +:+ "]
".

Definition dockerComposeContent (a : ProjectAnswers) : string :=
  let dockerComposeContent := "version: '3.8'

services:
  app:
    build: .
    ports:
      - " +:+ dq +:+ "3000:3000" +:+ dq +:+ "
    environment:
      - NODE_ENV=production
    depends_on:" +:+ (if String.eqb (database a) "postgresql" then "
      - postgres" else "") +:+ (if useRedis a then "
      - redis" else "") +:+ "
    volumes:
      - ./data:/app/data
      - ./uploads:/app/uploads
" in
  let dockerComposeContent :=
    if String.eqb (database a) "postgresql"
    then dockerComposeContent +:+ ("
  postgres:
    image: postgres:15-alpine
    environment:
      POSTGRES_DB: " +:+ projectName a +:+ "
      POSTGRES_USER: postgres
      POSTGRES_PASSWORD: password
    ports:
      - " +:+ dq +:+ "5432:5432" +:+ dq +:+ "
    volumes:
      - postgres_data:/var/lib/postgresql/data
")
    else dockerComposeContent in
  let dockerComposeContent :=
    if useRedis a
    then dockerComposeContent +:+ ("
  redis:
    image: redis:7-alpine
    ports:
      - " +:+ dq +:+ "6379:6379" +:+ dq +:+ "
")
    else dockerComposeContent in
  let dockerComposeContent :=
    if String.eqb (database a) "postgresql"
    then dockerComposeContent +:+ "
volumes:
  postgres_data:
"
    else dockerComposeContent in
  dockerComposeContent.

Definition generateDockerFiles (projectPath : string) (a : ProjectAnswers) : IO unit :=
  writeFile (path_join projectPath ["Dockerfile"]) dockerfileContent;;
  writeFile (path_join projectPath ["docker-compose.yml"]) (dockerComposeContent a).

(** ** src/generators/project.ts *)

Module Project.

(** [generatePackageJson], lines 47-97: the manifest object. *)
Definition packageJsonOf (a : ProjectAnswers) : PackageJsonConfig :=
  let dependencies : PackageJsonDependencies :=
    <["commander" := "^12.0.0"]>
      (<["knex" := "^3.0.0"]>
        (<["digitaltwin-core" := "^0.1.0"]> ∅)) in
  let devDependencies : PackageJsonDependencies :=
    <["ts-node-dev" := "^2.0.0"]>
      (<["typescript" := "^5.0.0"]>
        (<["@types/node" := "^24.0.10"]> ∅)) in
  (* Add database-specific dependencies *)
  let '(dependencies, devDependencies) :=
    if String.eqb (database a) "postgresql"
    then (<["pg" := "^8.11.0"]> dependencies, <["@types/pg" := "^8.10.0"]> devDependencies)
    else (<["sqlite3" := "^5.1.7"]> dependencies, devDependencies) in
  (* Add Redis if requested *)
  let dependencies :=
    if useRedis a then <["ioredis" := "^5.6.1"]> dependencies else dependencies in
  (* Add AWS SDK if using OVH storage *)
  let dependencies :=
    if String.eqb (storage a) "ovh"
    then <["@aws-sdk/client-s3" := "^3.842.0"]> dependencies
    else dependencies in
  {| name := projectName a;
     version := "1.0.0";
     description := "Digital Twin application built with digitaltwin-core";
     main := "dist/index.js";
     type := "module";
     scripts :=
       <["dt:dev" := "ts-node --esm src/dt-cli.ts dev"]>
         (<["dt:test" := "ts-node --esm src/dt-cli.ts test"]>
           (<["start" := "node dist/index.js"]>
             (<["dev" := "ts-node-dev src/index.ts"]>
               (<["build" := "tsc"]> ∅))));
     bin := <["dt" := "./dist/dt-cli.js"]> ∅;
     dependencies := dependencies;
     devDependencies := devDependencies |}.

Definition generatePackageJson (projectPath : string) (a : ProjectAnswers) : IO unit :=
  writeJson (path_join projectPath ["package.json"]) (packageJsonOf a) 2.

Definition generateIndexFile (a : ProjectAnswers) : string :=
  let storageClass :=
    if String.eqb (storage a) "local" then "LocalStorageService" else "OvhS3StorageService" in
  let exampleImports :=
    if includeExamples a
    then "import { RandomDataCollector, DataProcessor } from './components/index.js'"
    else "" in
  let dbConfigSection :=
    if String.eqb (database a) "postgresql"
    then "
    // PostgreSQL configuration
    DB_HOST: Env.schema.string(),
    DB_PORT: Env.schema.number({ optional: true }),
    DB_USER: Env.schema.string(),
    DB_PASSWORD: Env.schema.string(),
    DB_NAME: Env.schema.string(),"
    else "
    // SQLite configuration
    DB_PATH: Env.schema.string({ optional: true })," in
  let storageConfigSection :=
    if String.eqb (storage a) "local"
    then "
    // Local storage configuration
    STORAGE_PATH: Env.schema.string({ optional: true }),"
    else "
    // OVH Object Storage configuration
    OVH_ACCESS_KEY: Env.schema.string(),
    OVH_SECRET_KEY: Env.schema.string(),
    OVH_ENDPOINT: Env.schema.string({ format: 'url' }),
    OVH_REGION: Env.schema.string({ optional: true }),
    OVH_BUCKET: Env.schema.string()," in
  let redisConfigSection :=
    if useRedis a then "
    // Redis configuration  
    REDIS_HOST: Env.schema.string({ optional: true }),
    REDIS_PORT: Env.schema.number({ optional: true })," else "" in
  let storageInit :=
    if String.eqb (storage a) "local"
    then "env.STORAGE_PATH || '" +:+ js_or (localStoragePath a) "./uploads" +:+ "'"
    else "{
    accessKey: env.OVH_ACCESS_KEY,
    secretKey: env.OVH_SECRET_KEY,
    endpoint: env.OVH_ENDPOINT,
    region: env.OVH_REGION || 'gra',
    bucket: env.OVH_BUCKET
  }" in
  let dbConfig :=
    if String.eqb (database a) "postgresql"
    then "{
    client: 'pg',
    connection: {
      host: env.DB_HOST,
      port: env.DB_PORT || 5432,
      user: env.DB_USER,
      password: env.DB_PASSWORD,
      database: env.DB_NAME
    }
  }"
    else "{
    client: 'sqlite3',
    connection: {
      filename: env.DB_PATH || './data/" +:+ projectName a +:+ ".db'
    },
    useNullAsDefault: true
  }" in
  let exampleComponents :=
    if includeExamples a
    then "collectors: [new RandomDataCollector()],
    handlers: [new DataProcessor()],"
    else "" in
  let storageDisplay :=
    if String.eqb (storage a) "local"
    then "Local filesystem (${env.STORAGE_PATH || '" +:+ js_or (localStoragePath a) "./uploads" +:+ "'})"
    else "OVH Object Storage" in
  let queueDisplay := if useRedis a then "Redis enabled" else "In-memory mode" in
  let dbDisplay := if String.eqb (database a) "postgresql" then "PostgreSQL" else "SQLite" in
  "import { DigitalTwinEngine, KnexDatabaseAdapter, Env } from 'digitaltwin-core'
import { " +:+ storageClass +:+ " } from 'digitaltwin-core'
" +:+ exampleImports +:+ "

async function main(): Promise<void> {
  console.log('🔷 Starting " +:+ projectName a +:+ " Digital Twin...')
  
  // Validate environment variables
  const env = Env.validate({
    PORT: Env.schema.number({ optional: true })," +:+ dbConfigSection +:+ storageConfigSection +:+ redisConfigSection +:+ "
  })
  
  console.log('✅ Environment variables validated')
  
  // Initialize storage service first
  const storage = new " +:+ storageClass +:+ "(" +:+ storageInit +:+ ")
  
  // Database configuration
  const dbConfig = " +:+ dbConfig +:+ "
  
  // Initialize database adapter
  const database = new KnexDatabaseAdapter(dbConfig, storage)
  
  // Create Digital Twin Engine
  const engine = new DigitalTwinEngine({
    database,
    storage,
    " +:+ exampleComponents +:+ "
  })
  
  console.log('🔧 Digital Twin Engine configured')
  
  // Start the engine
  await engine.start()
  const port = engine.getPort() || env.PORT || 3000
  console.log(`🚀 Digital Twin Engine started on port ${port}`)
  console.log(`📊 Database: " +:+ dbDisplay +:+ "`)
  console.log(`💾 Storage: " +:+ storageDisplay +:+ "`)
  console.log(`🔄 Queue: " +:+ queueDisplay +:+ "`)
  
  // Graceful shutdown
  process.on('SIGINT', async () => {
    console.log('\n🛑 Shutting down gracefully...')
    await engine.stop()
    process.exit(0)
  })
}

main().catch((error: Error) => {
  console.error('❌ Failed to start Digital Twin Engine:', error.message)
  process.exit(1)
})
".

Definition generateCliFile (a : ProjectAnswers) : string :=
  let storageClass :=
    if String.eqb (storage a) "local" then "LocalStorageService" else "OvhS3StorageService" in
  let storageInit :=
    if String.eqb (storage a) "local"
    then "process.env.STORAGE_PATH || '" +:+ js_or (localStoragePath a) "./uploads" +:+ "'"
    else "{
    accessKey: process.env.OVH_ACCESS_KEY || '',
    secretKey: process.env.OVH_SECRET_KEY || '',
    endpoint: process.env.OVH_ENDPOINT || '',
    region: process.env.OVH_REGION || 'gra',
    bucket: process.env.OVH_BUCKET || '" +:+ projectName a +:+ "-storage'
  }" in
  let dbConfig :=
    if String.eqb (database a) "postgresql"
    then "{
    client: 'pg',
    connection: {
      host: process.env.DB_HOST || 'localhost',
      port: parseInt(process.env.DB_PORT || '5432'),
      user: process.env.DB_USER || 'postgres',
      password: process.env.DB_PASSWORD || 'password',
      database: process.env.DB_NAME || '" +:+ projectName a +:+ "'
    }
  }"
    else "{
    client: 'sqlite3',
    connection: {
      filename: process.env.DB_PATH || './data/" +:+ projectName a +:+ ".db'
    },
    useNullAsDefault: true
  }" in
  "#!/usr/bin/env node

import { DigitalTwinEngine, KnexDatabaseAdapter } from 'digitaltwin-core'
import { " +:+ storageClass +:+ " } from 'digitaltwin-core'
import { program } from 'commander'
import { fileURLToPath } from 'url'
import path from 'path'
import fs from 'fs'

const __filename = fileURLToPath(import.meta.url)
const __dirname = path.dirname(__filename)

// Load environment variables
const envPath = path.join(__dirname, '../.env')
if (fs.existsSync(envPath)) {
  const envContent = fs.readFileSync(envPath, 'utf8')
  envContent.split('\n').forEach(line => {
    const [key, value] = line.split('=')
    if (key && value) {
      process.env[key.trim()] = value.trim()
    }
  })
}

async function createEngine(): Promise<DigitalTwinEngine> {
  // Initialize storage service first
  const storage = new " +:+ storageClass +:+ "(" +:+ storageInit +:+ ")
  
  // Database configuration
  const dbConfig = " +:+ dbConfig +:+ "
  
  // Initialize database adapter
  const database = new KnexDatabaseAdapter(dbConfig, storage)
  
  // Create Digital Twin Engine
  const engine = new DigitalTwinEngine({
    database,
    storage
  })
  
  return engine
}

program
  .version('1.0.0')
  .description('Digital Twin CLI commands')

program
  .command('test')
  .description('Run dry-run validation')
  .action(async () => {
    console.log('🧪 Running dry-run validation...')
    
    try {
      const engine = await createEngine()
      
      // Run validation
      const result = await engine.validateConfiguration()
      
      if (result.valid) {
        console.log('✅ Dry-run validation completed successfully')
        console.log(`📊 Components: ${result.summary.valid}/${result.summary.total} valid`)
      } else {
        console.log('❌ Validation failed')
        result.components.forEach(comp => {
          if (!comp.valid) {
            console.log(`  • ${comp.name} (${comp.type}): ${comp.errors.join(', ')}`)
          }
        })
        process.exit(1)
      }
    } catch (error: any) {
      console.error('❌ Validation failed:', error.message)
      process.exit(1)
    }
  })

program
  .command('dev')
  .description('Start development server')
  .action(async () => {
    console.log('🔥 Starting development server...')
    
    try {
      const engine = await createEngine()
      
      // Start the engine
      await engine.start()
      const port = engine.getPort()
      console.log(`🚀 Digital Twin Engine started on port ${port || '3000'}`)
      
      // Handle graceful shutdown
      process.on('SIGINT', async () => {
        console.log('\n🛑 Shutting down gracefully...')
        await engine.stop()
        process.exit(0)
      })
      
    } catch (error: any) {
      console.error('❌ Failed to start server:', error.message)
      process.exit(1)
    }
  })

program.parse()
".

Definition generateTsConfig : string :=
  let config :=
    JObject [
      ("compilerOptions", JObject [
        ("target", JString "ES2022");
        ("module", JString "ESNext");
        ("moduleResolution", JString "node");
        ("allowSyntheticDefaultImports", JBool true);
        ("esModuleInterop", JBool true);
        ("allowJs", JBool true);
        ("outDir", JString "./dist");
        ("rootDir", JString "./src");
        ("strict", JBool true);
        ("declaration", JBool true);
        ("skipLibCheck", JBool true);
        ("forceConsistentCasingInFileNames", JBool true)
      ]);
      ("include", JArray [JString "src/**/*"]);
      ("exclude", JArray [JString "node_modules"; JString "dist"])
    ] in
  JSON_stringify config 2.

Definition generateAppFiles (projectPath : string) (a : ProjectAnswers) : IO unit :=
  let srcDir := path_join projectPath ["src"] in
  ensureDir srcDir;;
  (* Generate main index.ts *)
  let indexContent := generateIndexFile a in
  writeFile (join srcDir "index.ts") indexContent;;
  (* Generate dt-cli.ts for commands *)
  let cliContent := generateCliFile a in
  writeFile (join srcDir "dt-cli.ts") cliContent;;
  (* Generate TypeScript config *)
  let tsconfigContent := generateTsConfig in
  writeFile (path_join projectPath ["tsconfig.json"]) tsconfigContent.

(** [generateExampleComponents]: three constant files. *)
Definition collectorContent : string := "import { Collector } from 'digitaltwin-core'

interface SensorData {
  timestamp: Date
  sensorId: string
  sensorType: string
  location: string
  value: number
  unit: string
  quality: 'good' | 'warning'
  metadata: {
    deviceId: string
    batteryLevel: number
    signalStrength: number
  }
}

/**
 * Random Data Collector - Generates realistic IoT sensor data
 * Simulates temperature, humidity, and pressure sensors
 */
export class RandomDataCollector extends Collector {
  private sensorTypes: string[] = ['temperature', 'humidity', 'pressure', 'vibration', 'light']
  private locations: string[] = ['room-a', 'room-b', 'warehouse', 'server-room', 'outdoor']
  
  getName(): string {
    return 'random-data-collector'
  }
  
  getDescription(): string {
    return 'Collects random IoT sensor data for testing and development'
  }
  
  async collect(): Promise<Buffer> {
    const dataPoints: SensorData[] = []
    const numSensors = Math.floor(Math.random() * 5) + 3 // 3-7 sensors
    
    for (let i = 0; i < numSensors; i++) {
      const sensorType = this.sensorTypes[Math.floor(Math.random() * this.sensorTypes.length)]
      const location = this.locations[Math.floor(Math.random() * this.locations.length)]
      
      let value: number, unit: string
      switch (sensorType) {
        case 'temperature':
          value = Math.round((Math.random() * 40 + 15) * 10) / 10 // 15-55°C
          unit = 'celsius'
          break
        case 'humidity':
          value = Math.round(Math.random() * 80 + 20) // 20-100%
          unit = 'percent'
          break
        case 'pressure':
          value = Math.round((Math.random() * 200 + 950) * 10) / 10 // 950-1150 hPa
          unit = 'hPa'
          break
        case 'vibration':
          value = Math.round(Math.random() * 10 * 100) / 100 // 0-10 m/s²
          unit = 'm/s²'
          break
        case 'light':
          value = Math.round(Math.random() * 1000) // 0-1000 lux
          unit = 'lux'
          break
        default:
          value = Math.random() * 100
          unit = 'generic'
      }
      
      dataPoints.push({
        timestamp: new Date(),
        sensorId: `${sensorType}-${location}-${String(i + 1).padStart(2, '0')}`,
        sensorType,
        location,
        value,
        unit,
        quality: Math.random() > 0.9 ? 'warning' : 'good', // 10% chance of warning
        metadata: {
          deviceId: `device-${Math.floor(Math.random() * 100)}`,
          batteryLevel: Math.round(Math.random() * 100),
          signalStrength: Math.round(Math.random() * 100)
        }
      })
    }
    
    console.log(`📊 Collected ${dataPoints.length} data points from random sensors`)
    return Buffer.from(JSON.stringify(dataPoints, null, 2))
  }
  
  getSchedule(): string {
    return '*/15 * * * * *' // Every 15 seconds
  }
}
".

Definition handlerContent : string := "import { Handler } from 'digitaltwin-core'

interface SensorData {
  sensorId: string
  sensorType: string
  value: number
  quality: 'good' | 'warning'
  metadata?: {
    batteryLevel?: number
    signalStrength?: number
  }
}

interface ProcessedData extends SensorData {
  processedAt: Date
  processed: boolean
  analysis: {
    trend: string
    category: string
    reliability: string
    [key: string]: any
  }
  alerts: string[]
}

/**
 * Data Processor - Processes and enriches collected sensor data
 * Adds analysis, alerts, and data quality checks
 */
export class DataProcessor extends Handler {
  getName(): string {
    return 'data-processor'
  }
  
  getDescription(): string {
    return 'Processes sensor data with analysis and alerting'
  }
  
  async handle(data: SensorData): Promise<ProcessedData> {
    console.log(`🔄 Processing data from sensor: ${data.sensorId}`)
    
    // Add processing metadata
    const processedData: ProcessedData = {
      ...data,
      processedAt: new Date(),
      processed: true,
      analysis: this.analyzeData(data),
      alerts: this.checkAlerts(data)
    }
    
    // Log alerts if any
    if (processedData.alerts.length > 0) {
      console.log(`⚠️  Alerts for ${data.sensorId}:`, processedData.alerts)
    }
    
    return processedData
  }
  
  private analyzeData(data: SensorData): any {
    const analysis: any = {
      trend: this.calculateTrend(data.value),
      category: this.categorizeValue(data.sensorType, data.value),
      reliability: (data.metadata?.batteryLevel ?? 0) > 20 ? 'high' : 'low'
    }
    
    // Add sensor-specific analysis
    switch (data.sensorType) {
      case 'temperature':
        analysis.heatIndex = data.value > 30 ? 'high' : data.value < 10 ? 'low' : 'normal'
        break
      case 'humidity':
        analysis.comfortLevel = data.value > 60 ? 'humid' : data.value < 30 ? 'dry' : 'comfortable'
        break
      case 'pressure':
        analysis.weatherTrend = data.value > 1020 ? 'rising' : data.value < 980 ? 'falling' : 'stable'
        break
    }
    
    return analysis
  }
  
  private checkAlerts(data: SensorData): string[] {
    const alerts: string[] = []
    
    // Quality-based alerts
    if (data.quality === 'warning') {
      alerts.push('Data quality warning detected')
    }
    
    // Battery alerts
    if ((data.metadata?.batteryLevel ?? 0) < 20) {
      alerts.push('Low battery level')
    }
    
    // Sensor-specific alerts
    switch (data.sensorType) {
      case 'temperature':
        if (data.value > 50) alerts.push('High temperature alert')
        if (data.value < 0) alerts.push('Freezing temperature alert')
        break
      case 'humidity':
        if (data.value > 80) alerts.push('High humidity alert')
        break
      case 'pressure':
        if (data.value < 960) alerts.push('Low pressure system detected')
        break
      case 'vibration':
        if (data.value > 8) alerts.push('High vibration detected')
        break
    }
    
    return alerts
  }
  
  private calculateTrend(value: number): string {
    // Simplified trend calculation (in real scenario, you'd compare with historical data)
    const randomTrend = Math.random()
    if (randomTrend > 0.6) return 'increasing'
    if (randomTrend < 0.4) return 'decreasing'
    return 'stable'
  }
  
  private categorizeValue(sensorType: string, value: number): string {
    switch (sensorType) {
      case 'temperature':
        if (value > 30) return 'hot'
        if (value < 15) return 'cold'
        return 'normal'
      case 'humidity':
        if (value > 70) return 'high'
        if (value < 30) return 'low'
        return 'normal'
      default:
        return 'normal'
    }
  }
}
".

Definition indexContent : string := "export { RandomDataCollector } from './random-data-collector.js'
export { DataProcessor } from './data-processor.js'
".

Definition generateExampleComponents (projectPath : string) (a : ProjectAnswers) : IO unit :=
  let componentsDir := path_join projectPath ["src"; "components"] in
  ensureDir componentsDir;;
  writeFile (join componentsDir "random-data-collector.ts") collectorContent;;
  writeFile (join componentsDir "data-processor.ts") handlerContent;;
  writeFile (join componentsDir "index.ts") indexContent.

Definition readmeContent (a : ProjectAnswers) : string :=
  let dbLabel :=
    if String.eqb (database a) "postgresql"
    then "PostgreSQL with production-ready configuration"
    else "SQLite for easy development" in
  let storageLabel :=
    if String.eqb (storage a) "local"
    then "Local file system storage (" +:+ js_or (localStoragePath a) "./uploads" +:+ ")"
    else "OVH Object Storage integration" in
  let queueLabel :=
    if useRedis a then "Redis-powered background jobs" else "In-memory job processing" in
  let exampleFeature :=
    if includeExamples a
    then "✅ **Example Components** - Random data collector and data processor included"
    else "" in
  let dbConfig := if String.eqb (database a) "postgresql" then "PostgreSQL" else "SQLite" in
  let storageConfig :=
    if String.eqb (storage a) "local"
    then "Local File System (" +:+ js_or (localStoragePath a) "./uploads" +:+ ")"
    else "OVH Object Storage" in
  let queueConfig := if useRedis a then "Redis (BullMQ)" else "In-memory" in
  let dockerConfig := if includeDocker a then "Included" else "Not included" in
  "# " +:+ projectName a +:+ "

Digital Twin application built with [digitaltwin-core](https://github.com/CePseudoBE/digital-twin-core).

## Features

✅ **Environment Validation** - Automatic validation of required configuration  
✅ **Database Support** - " +:+ dbLabel +:+ "  
✅ **Storage** - " +:+ storageLabel +:+ "  
✅ **Queue Management** - " +:+ queueLabel +:+ "  
" +:+ exampleFeature +:+ "

## Configuration

- **Database**: " +:+ dbConfig +:+ "
- **Storage**: " +:+ storageConfig +:+ "
- **Queue**: " +:+ queueConfig +:+ "
- **Docker**: " +:+ dockerConfig +:+ "

## Getting Started

1. **Install dependencies:**
   ```bash
   npm install
   ```

2. **Configure environment:**
   ```bash
   cp .env .env.local
   # Edit .env.local with your actual configuration
   ```

" +:+ (if String.eqb (database a) "postgresql" then ("3. **Set up PostgreSQL:**
   ```bash
   # Make sure PostgreSQL is running and create database
   createdb " +:+ projectName a +:+ "
   ```
") else "") +:+ (if useRedis a then ((if String.eqb (database a) "postgresql" then "4" else "3") +:+ ". **Set up Redis:**
   ```bash
   # Make sure Redis is running
   redis-server
   ```
") else "") +:+ "

" +:+ (if String.eqb (database a) "postgresql" || useRedis a then ((if String.eqb (database a) "postgresql" && useRedis a then "5" else "4") +:+ ". **Start development server:**") else "3. **Start development server:**") +:+ "
   ```bash
   npm run dev
   ```

## Available Scripts

- `npm run dev` - Start development server with hot reload
- `npm run build` - Build TypeScript to JavaScript
- `npm start` - Start production server
- `node dt test` - Run dry-run validation (no database changes)
- `node dt dev` - Start server via CLI

## Learn More

- [digitaltwin-core Documentation](https://github.com/CePseudoBE/digital-twin-core)
- [Digital Twin Concepts](https://en.wikipedia.org/wiki/Digital_twin)
- [Environment Configuration Best Practices](https://12factor.net/config)
".

Definition generateReadme (projectPath : string) (a : ProjectAnswers) : IO unit :=
  writeFile (path_join projectPath ["README.md"]) (readmeContent a).

Definition generateProject (a : ProjectAnswers) : IO unit :=
  let projectPath := projectPath a in
  console_log ("📁 Creating project at: " +:+ projectPath);;
  (* Create project directory *)
  ensureDir (path_join projectPath []);;
  (* Generate package.json *)
  generatePackageJson projectPath a;;
  (* Generate main app files *)
  generateAppFiles projectPath a;;
  (* Generate configuration files *)
  generateConfigFiles projectPath a;;
  (* Generate example components if requested *)
  when (includeExamples a) (generateExampleComponents projectPath a);;
  (* Generate Docker files if requested *)
  when (includeDocker a) (generateDockerFiles projectPath a);;
  (* Generate README *)
  generateReadme projectPath a.

End Project.

(** ** src/unnamed/part_001: the revision with the registry lookup and the
    [dt.js] wrapper *)

Module Part001.

(** [getLatestDigitalTwinCoreVersion]: the [catch] branch logs a warning and
    returns the fallback. *)
Definition getLatestDigitalTwinCoreVersion : IO (option string) :=
  r ← fetch_json "https://registry.npmjs.org/digitaltwin-core/latest";
  match r with
  | Resolved v => mret v
  | Rejected =>
      console_warn "Warning: Could not fetch digitaltwin-core version from npm, falling back to default";;
      mret (Some "0.3.3")
  end.

Definition getLatestDigitalTwinCliVersion : IO (option string) :=
  r ← fetch_json "https://registry.npmjs.org/digitaltwin-cli/latest";
  match r with
  | Resolved v => mret v
  | Rejected =>
      console_warn "Warning: Could not fetch digitaltwin-cli version from npm, falling back to default";;
      mret (Some "0.1.0")
  end.

(** [generatePackageJson], the manifest object built from the two versions. *)
Definition packageJsonOf (digitalTwinVersion digitalTwinCliVersion : option string)
    (a : ProjectAnswers) : PackageJsonConfig :=
  let dependencies : PackageJsonDependencies :=
    <["dotenv" := "^17.2.1"]>
      (<["commander" := "^12.0.0"]>
        (<["knex" := "^3.0.0"]>
          (<["digitaltwin-core" := "^" +:+ js_interp digitalTwinVersion]> ∅))) in
  let devDependencies : PackageJsonDependencies :=
    <["digitaltwin-cli" := "^" +:+ js_interp digitalTwinCliVersion]>
      (<["tsx" := "^4.19.2"]>
        (<["typescript" := "^5.0.0"]>
          (<["@types/node" := "^24.0.10"]> ∅))) in
  (* Add database-specific dependencies *)
  let '(dependencies, devDependencies) :=
    if String.eqb (database a) "postgresql"
    then (<["pg" := "^8.11.0"]> dependencies, <["@types/pg" := "^8.10.0"]> devDependencies)
    else (<["better-sqlite3" := "^12.2.0"]> dependencies, devDependencies) in
  (* Add Redis if requested *)
  let dependencies :=
    if useRedis a then <["ioredis" := "^5.6.1"]> dependencies else dependencies in
  (* Add AWS SDK if using OVH storage *)
  let dependencies :=
    if String.eqb (storage a) "ovh"
    then <["@aws-sdk/client-s3" := "^3.842.0"]> dependencies
    else dependencies in
  {| name := projectName a;
     version := "1.0.0";
     description := "Digital Twin application built with digitaltwin-core";
     main := "dist/index.js";
     type := "module";
     scripts :=
       <["start" := "node dist/index.js"]>
         (<["dev" := "tsx watch src/index.ts"]>
           (<["build" := "tsc"]> ∅));
     bin := ∅;
     dependencies := dependencies;
     devDependencies := devDependencies |}.

Definition generatePackageJson (projectPath : string) (a : ProjectAnswers) : IO unit :=
  digitalTwinVersion ← getLatestDigitalTwinCoreVersion;
  digitalTwinCliVersion ← getLatestDigitalTwinCliVersion;
  writeJson (path_join projectPath ["package.json"])
    (packageJsonOf digitalTwinVersion digitalTwinCliVersion a) 2.

Definition generateIndexFile (a : ProjectAnswers) : string :=
  let dotenvImport := "import 'dotenv/config'" in
  let storageClass :=
    if String.eqb (storage a) "local" then "LocalStorageService" else "OvhS3StorageService" in
  let exampleImports :=
    if includeExamples a
    then "import { JSONPlaceholderCollector } from './components/index.js'"
    else "" in
  let dbConfigSection :=
    if String.eqb (database a) "postgresql"
    then "
    // PostgreSQL configuration
    DB_HOST: Env.schema.string(),
    DB_PORT: Env.schema.number({ optional: true }),
    DB_USER: Env.schema.string(),
    DB_PASSWORD: Env.schema.string(),
    DB_NAME: Env.schema.string(),"
    else "
    // SQLite configuration
    DB_PATH: Env.schema.string({ optional: true })," in
  let storageConfigSection :=
    if String.eqb (storage a) "local"
    then "
    // Local storage configuration
    STORAGE_PATH: Env.schema.string({ optional: true }),"
    else "
    // OVH Object Storage configuration
    OVH_ACCESS_KEY: Env.schema.string(),
    OVH_SECRET_KEY: Env.schema.string(),
    OVH_ENDPOINT: Env.schema.string({ format: 'url' }),
    OVH_REGION: Env.schema.string({ optional: true }),
    OVH_BUCKET: Env.schema.string()," in
  let redisConfigSection :=
    if useRedis a then "
    // Redis configuration  
    REDIS_HOST: Env.schema.string({ optional: true }),
    REDIS_PORT: Env.schema.number({ optional: true })," else "" in
  let storageInit :=
    if String.eqb (storage a) "local"
    then "env.STORAGE_PATH || '" +:+ js_or (localStoragePath a) "./uploads" +:+ "'"
    else "{
    accessKey: env.OVH_ACCESS_KEY,
    secretKey: env.OVH_SECRET_KEY,
    endpoint: env.OVH_ENDPOINT,
    region: env.OVH_REGION || 'gra',
    bucket: env.OVH_BUCKET
  }" in
  let dbConfig :=
    if String.eqb (database a) "postgresql"
    then "{
    client: 'pg',
    connection: {
      host: env.DB_HOST,
      port: env.DB_PORT || 5432,
      user: env.DB_USER,
      password: env.DB_PASSWORD,
      database: env.DB_NAME
    }
  }"
    else "{
    client: 'better-sqlite3',
    connection: {
      filename: env.DB_PATH || './data/" +:+ projectName a +:+ ".db'
    },
    useNullAsDefault: true
  }" in
  let exampleComponents :=
    if includeExamples a
    then "collectors: [new JSONPlaceholderCollector()],"
    else "" in
  let storageDisplay :=
    if String.eqb (storage a) "local"
    then "Local filesystem (${env.STORAGE_PATH || '" +:+ js_or (localStoragePath a) "./uploads" +:+ "'})"
    else "OVH Object Storage" in
  let queueDisplay := if useRedis a then "Redis enabled" else "In-memory mode" in
  let dbDisplay := if String.eqb (database a) "postgresql" then "PostgreSQL" else "SQLite" in
  dotenvImport +:+ "
import { DigitalTwinEngine, KnexDatabaseAdapter, Env } from 'digitaltwin-core'
import { " +:+ storageClass +:+ " } from 'digitaltwin-core'
" +:+ exampleImports +:+ "

async function main(): Promise<void> {
  console.log('Starting " +:+ projectName a +:+ " Digital Twin...')
  
  // Validate environment variables
  const env = Env.validate({
    PORT: Env.schema.number({ optional: true })," +:+ dbConfigSection +:+ storageConfigSection +:+ redisConfigSection +:+ "
  })
  
  console.log('Environment variables validated')
  
  // Initialize storage service first
  const storage = new " +:+ storageClass +:+ "(" +:+ storageInit +:+ ")
  
  // Database configuration
  const dbConfig = " +:+ dbConfig +:+ "
  
  // Initialize database adapter
  const database = new KnexDatabaseAdapter(dbConfig, storage)
  
  // Create Digital Twin Engine
  const engine = new DigitalTwinEngine({
    database,
    storage,
    redis: {
      host: 'localhost',
      port: 6379
    },
    " +:+ exampleComponents +:+ "
  })
  
  console.log('Digital Twin Engine configured')
  
  // Start the engine
  await engine.start()
  const port = engine.getPort() || env.PORT || 3000
  console.log(`Digital Twin Engine started on port ${port}`)
  console.log(`Database: " +:+ dbDisplay +:+ "`)
  console.log(`Storage: " +:+ storageDisplay +:+ "`)
  console.log(`Queue: " +:+ queueDisplay +:+ "`)
  
  // Graceful shutdown
  process.on('SIGINT', async () => {
    console.log('\n🛑 Shutting down gracefully...')
    await engine.stop()
    process.exit(0)
  })
}

main().catch((error: Error) => {
  console.error('❌ Failed to start Digital Twin Engine:', error.message)
  process.exit(1)
})
".

Definition generateTsConfig : string :=
  let config :=
    JObject [
      ("compilerOptions", JObject [
        ("target", JString "ES2022");
        ("module", JString "ESNext");
        ("moduleResolution", JString "node");
        ("allowSyntheticDefaultImports", JBool true);
        ("esModuleInterop", JBool true);
        ("allowJs", JBool true);
        ("outDir", JString "./dist");
        ("rootDir", JString "./src");
        ("strict", JBool true);
        ("declaration", JBool true);
        ("skipLibCheck", JBool true);
        ("forceConsistentCasingInFileNames", JBool true);
        ("experimentalDecorators", JBool true);
        ("useDefineForClassFields", JBool false)
      ]);
      ("include", JArray [JString "src/**/*"]);
      ("exclude", JArray [JString "node_modules"; JString "dist"])
    ] in
  JSON_stringify config 2.

Definition generateAppFiles (projectPath : string) (a : ProjectAnswers) : IO unit :=
  let srcDir := path_join projectPath ["src"] in
  ensureDir srcDir;;
  (* Generate main index.ts *)
  let indexContent := generateIndexFile a in
  writeFile (join srcDir "index.ts") indexContent;;
  (* Generate TypeScript config *)
  let tsconfigContent := generateTsConfig in
  writeFile (path_join projectPath ["tsconfig.json"]) tsconfigContent.

(** [generateExampleComponents]: two constant files. *)
Definition collectorContent : string := "import { Collector } from 'digitaltwin-core'

interface Post {
  id: number
  userId: number
  title: string
  body: string
}

interface User {
  id: number
  name: string
  username: string
  email: string
  phone: string
  website: string
  address: {
    street: string
    suite: string
    city: string
    zipcode: string
    geo: {
      lat: string
      lng: string
    }
  }
  company: {
    name: string
    catchPhrase: string
    bs: string
  }
}

interface CollectedData {
  timestamp: Date
  source: 'jsonplaceholder'
  posts: Post[]
  users: User[]
  metadata: {
    postsCount: number
    usersCount: number
    collectionDuration: number
  }
}

/**
 * JSONPlaceholder Data Collector - Fetches real data from JSONPlaceholder API
 * Demonstrates collecting data from external REST APIs
 */
export class JSONPlaceholderCollector extends Collector {
  private readonly baseUrl = 'https://jsonplaceholder.typicode.com'
  
  getConfiguration() {
    return {
      name: 'jsonplaceholder-collector',
      description: 'Collects posts and users data from JSONPlaceholder API',
      contentType: 'application/json',
      endpoint: 'api/jsonplaceholder',
      tags: ['api', 'external', 'demo']
    }
  }
  
  async collect(): Promise<Buffer> {
    const startTime = Date.now()
    
    try {
      console.log('Fetching data from JSONPlaceholder API...')
      
      // Fetch posts and users concurrently
      const [postsResponse, usersResponse] = await Promise.all([
        fetch(`${this.baseUrl}/posts?_limit=10`),
        fetch(`${this.baseUrl}/users`)
      ])
      
      if (!postsResponse.ok) {
        throw new Error(`Posts API error: ${postsResponse.status}`)
      }
      
      if (!usersResponse.ok) {
        throw new Error(`Users API error: ${usersResponse.status}`)
      }
      
      const posts: Post[] = await postsResponse.json()
      const users: User[] = await usersResponse.json()
      
      const collectionDuration = Date.now() - startTime
      
      const data: CollectedData = {
        timestamp: new Date(),
        source: 'jsonplaceholder',
        posts,
        users,
        metadata: {
          postsCount: posts.length,
          usersCount: users.length,
          collectionDuration
        }
      }
      
      console.log(`Collected ${posts.length} posts and ${users.length} users from JSONPlaceholder (${collectionDuration}ms)`)
      return Buffer.from(JSON.stringify(data, null, 2))
      
    } catch (error) {
      console.error('Error collecting data from JSONPlaceholder:', error)
      
      // Return error information as data
      const errorData = {
        timestamp: new Date(),
        source: 'jsonplaceholder',
        error: true,
        message: error instanceof Error ? error.message : 'Unknown error',
        metadata: {
          collectionDuration: Date.now() - startTime
        }
      }
      
      return Buffer.from(JSON.stringify(errorData, null, 2))
    }
  }
  
  getSchedule(): string {
    return '*/15 * * * * *' // Every 15 seconds
  }
}
".

Definition indexContent : string := "export { JSONPlaceholderCollector } from './jsonplaceholder_collector.js'
".

Definition generateExampleComponents (projectPath : string) (a : ProjectAnswers) : IO unit :=
  let componentsDir := path_join projectPath ["src"; "components"] in
  ensureDir componentsDir;;
  writeFile (join componentsDir "jsonplaceholder_collector.ts") collectorContent;;
  writeFile (join componentsDir "index.ts") indexContent.

Definition readmeContent (a : ProjectAnswers) : string :=
  let dbLabel :=
    if String.eqb (database a) "postgresql"
    then "PostgreSQL with production-ready configuration"
    else "SQLite for easy development" in
  let storageLabel :=
    if String.eqb (storage a) "local"
    then "Local file system storage (" +:+ js_or (localStoragePath a) "./uploads" +:+ ")"
    else "OVH Object Storage integration" in
  let queueLabel :=
    if useRedis a then "Redis-powered background jobs" else "In-memory job processing" in
  let exampleFeature :=
    if includeExamples a
    then "- **Example Components** - Random data collector and data processor included"
    else "" in
  let dbConfig := if String.eqb (database a) "postgresql" then "PostgreSQL" else "SQLite" in
  let storageConfig :=
    if String.eqb (storage a) "local"
    then "Local File System (" +:+ js_or (localStoragePath a) "./uploads" +:+ ")"
    else "OVH Object Storage" in
  let queueConfig := if useRedis a then "Redis (BullMQ)" else "In-memory" in
  let dockerConfig := if includeDocker a then "Included" else "Not included" in
  "# " +:+ projectName a +:+ "

Digital Twin application built with [digitaltwin-core](https://github.com/CePseudoBE/digital-twin-core).

## Features

- **Environment Validation** - Automatic validation of required configuration  
- **Database Support** - " +:+ dbLabel +:+ "  
- **Storage** - " +:+ storageLabel +:+ "  
- **Queue Management** - " +:+ queueLabel +:+ "  
" +:+ exampleFeature +:+ "

## Configuration

- **Database**: " +:+ dbConfig +:+ "
- **Storage**: " +:+ storageConfig +:+ "
- **Queue**: " +:+ queueConfig +:+ "
- **Docker**: " +:+ dockerConfig +:+ "

## Getting Started

1. **Install dependencies:**
   ```bash
   npm install
   ```

2. **Configure environment:**
   ```bash
   cp .env .env.local
   # Edit .env.local with your actual configuration
   ```

" +:+ (if String.eqb (database a) "postgresql" then ("3. **Set up PostgreSQL:**
   ```bash
   # Make sure PostgreSQL is running and create database
   createdb " +:+ projectName a +:+ "
   ```
") else "") +:+ (if useRedis a then ((if String.eqb (database a) "postgresql" then "4" else "3") +:+ ". **Set up Redis:**
   ```bash
   # Make sure Redis is running
   redis-server
   ```
") else "") +:+ "

" +:+ (if String.eqb (database a) "postgresql" || useRedis a then ((if String.eqb (database a) "postgresql" && useRedis a then "5" else "4") +:+ ". **Start development server:**") else "3. **Start development server:**") +:+ "
   ```bash
   npm run dev
   ```

## Available Scripts

- `npm run dev` - Start development server with hot reload
- `npm run build` - Build TypeScript to JavaScript
- `npm start` - Start production server
- `node dt test` - Run dry-run validation (no database changes)
- `node dt dev` - Start server via CLI

## Learn More

- [digitaltwin-core Documentation](https://github.com/CePseudoBE/digital-twin-core)
- [Digital Twin Concepts](https://en.wikipedia.org/wiki/Digital_twin)
- [Environment Configuration Best Practices](https://12factor.net/config)
".

Definition generateReadme (projectPath : string) (a : ProjectAnswers) : IO unit :=
  writeFile (path_join projectPath ["README.md"]) (readmeContent a).

(** [generateDtCli]: the [dt.js] wrapper, a constant. *)
Definition dtCliContent : string := "#!/usr/bin/env node

import { spawn } from 'child_process'

// Call digitaltwin-cli with all arguments
const args = process.argv.slice(2)
const child = spawn('npx', ['digitaltwin-cli', ...args], { 
  stdio: 'inherit',
  cwd: process.cwd()
})

child.on('exit', (code) => {
  process.exit(code || 0)
})
".

Definition generateDtCli (projectPath : string) : IO unit :=
  writeFile (path_join projectPath ["dt.js"]) dtCliContent.

Definition generateProject (a : ProjectAnswers) : IO unit :=
  let projectPath := projectPath a in
  console_log ("Creating project at: " +:+ projectPath);;
  (* Create project directory *)
  ensureDir (path_join projectPath []);;
  (* Generate package.json *)
  generatePackageJson projectPath a;;
  (* Generate main app files *)
  generateAppFiles projectPath a;;
  (* Generate configuration files *)
  generateConfigFiles projectPath a;;
  (* Generate example components if requested *)
  when (includeExamples a) (generateExampleComponents projectPath a);;
  (* Generate Docker files if requested *)
  when (includeDocker a) (generateDockerFiles projectPath a);;
  (* Generate README *)
  generateReadme projectPath a;;
  (* Generate dt.js CLI wrapper *)
  generateDtCli projectPath.

End Part001.

(** ** Reading the generated text back

    The claims speak of what a generated file declares: the variables a
    [.env] file assigns, the entries of the validation schema, the services
    of a composition, the numbered steps of the guide.  Each reader below is
    a left-to-right scan of the file, one character at a time, that restarts
    at every line feed. *)

Fixpoint string_fold {S : Type} (f : S -> ascii -> S) (st : S) (s : string) : S :=
  match s with
  | EmptyString => st
  | String c r => string_fold f (f st c) r
  end.

Definition snoc (s : string) (c : ascii) : string := s +:+ String c EmptyString.

Definition is_upper (c : ascii) : bool :=
  let n := nat_of_ascii c in (65 <=? n)%nat && (n <=? 90)%nat.

(** Characters of an identifier: letters, digits and underscore. *)
Definition ident_char (c : ascii) : bool :=
  is_upper c || is_lower c || is_digit c || Ascii.eqb c "_".

(** *** The [.env] template: lines [KEY=value] *)

Inductive EnvMode : Type :=
| EnvLineStart
| EnvKey (k : string)
| EnvSkip.

(** A line assigns [KEY] when it is [KEY=...] with [KEY] a non-empty
    identifier starting in the first column; comment lines and all other
    lines assign nothing. *)
Definition env_step (st : EnvMode * list string) (c : ascii) : EnvMode * list string :=
  let '(m, out) := st in
  if Ascii.eqb c LF then (EnvLineStart, out)
  else match m with
       | EnvLineStart =>
           if ident_char c then (EnvKey (String c EmptyString), out) else (EnvSkip, out)
       | EnvKey k =>
           if Ascii.eqb c "=" then (EnvSkip, (out ++ [k])%list)
           else if ident_char c then (EnvKey (snoc k c), out)
           else (EnvSkip, out)
       | EnvSkip => (EnvSkip, out)
       end.

(** The variable names a template assigns, in file order. *)
Definition env_names (content : string) : list string :=
  snd (string_fold env_step (EnvLineStart, []) content).

(** *** The entry point: schema entries [NAME: Env.schema.<declaration>] *)

Inductive SchemaMode : Type :=
| SLineStart
| SIdent (k : string)
| SExpect (k : string) (rest : string)
| SDecl (k : string) (d : string)
| SSkip.

Definition schema_marker : string := " Env.schema.".

Definition schema_flush (st : SchemaMode * list (string * string))
    : list (string * string) :=
  match st with
  | (SDecl k d, out) => (out ++ [(k, d)])%list
  | (_, out) => out
  end.

(** An entry is a line that, after its indentation, reads
    [NAME: Env.schema.] followed by the declaration, which runs to the end
    of the line. *)
Definition schema_step (st : SchemaMode * list (string * string)) (c : ascii)
    : SchemaMode * list (string * string) :=
  if Ascii.eqb c LF then (SLineStart, schema_flush st)
  else
    let '(m, out) := st in
    match m with
    | SLineStart =>
        if Ascii.eqb c " " then (SLineStart, out)
        else if ident_char c then (SIdent (String c EmptyString), out)
        else (SSkip, out)
    | SIdent k =>
        if ident_char c then (SIdent (snoc k c), out)
        else if Ascii.eqb c ":" then (SExpect k schema_marker, out)
        else (SSkip, out)
    | SExpect k rest =>
        match rest with
        | String p EmptyString =>
            if Ascii.eqb c p then (SDecl k EmptyString, out) else (SSkip, out)
        | String p rest' =>
            if Ascii.eqb c p then (SExpect k rest', out) else (SSkip, out)
        | EmptyString => (SSkip, out)
        end
    | SDecl k d => (SDecl k (snoc d c), out)
    | SSkip => (SSkip, out)
    end.

(** The schema entries of an entry point: name and declaration text. *)
Definition schema_entries (content : string) : list (string * string) :=
  schema_flush (string_fold schema_step (SLineStart, []) content).

Definition schema_names (content : string) : list string :=
  map fst (schema_entries content).

(** [contains needle s]: [needle] occurs in [s]. *)
Fixpoint contains (needle s : string) : bool :=
  String.prefix needle s ||
  match s with
  | EmptyString => false
  | String _ r => contains needle r
  end.

(** An entry is optional when its declaration passes [optional: true]. *)
Definition schema_optional (content name : string) : bool :=
  existsb (fun e => String.eqb (fst e) name && contains "optional: true" (snd e))
          (schema_entries content).

(** *** The composition file: keys and list items by indentation *)

Inductive YamlLine : Type :=
| YKeyLine (indent : nat) (key : string)
| YItemLine (indent : nat) (item : string).

Inductive YamlMode : Type :=
| YIndent (n : nat)
| YKey (n : nat) (k : string)
| YDash (n : nat)
| YItem (n : nat) (t : string)
| YSkip.

Definition yaml_flush (st : YamlMode * list YamlLine) : list YamlLine :=
  match st with
  | (YItem n t, out) => (out ++ [YItemLine n t])%list
  | (_, out) => out
  end.

(** A line is [key: ...] or [- item] after its indentation; the value that
    follows a key is not read. *)
Definition yaml_step (st : YamlMode * list YamlLine) (c : ascii)
    : YamlMode * list YamlLine :=
  if Ascii.eqb c LF then (YIndent 0, yaml_flush st)
  else
    let '(m, out) := st in
    match m with
    | YIndent n =>
        if Ascii.eqb c " " then (YIndent (S n), out)
        else if Ascii.eqb c "-" then (YDash n, out)
        else if Ascii.eqb c "#" then (YSkip, out)
        else (YKey n (String c EmptyString), out)
    | YKey n k =>
        if Ascii.eqb c ":" then (YSkip, (out ++ [YKeyLine n k])%list)
        else (YKey n (snoc k c), out)
    | YDash n =>
        if Ascii.eqb c " " then (YItem n EmptyString, out) else (YSkip, out)
    | YItem n t => (YItem n (snoc t c), out)
    | YSkip => (YSkip, out)
    end.

Definition yaml_lines (content : string) : list YamlLine :=
  yaml_flush (string_fold yaml_step (YIndent 0, []) content).

(** What a composition declares: its services, its named volumes and the
    [depends_on] entries of each service. *)
Record Compose : Type := {
  services : list string;
  named_volumes : list string;
  dependency_edges : list (string * string)
}.

(** Where the walk over the lines stands: the top-level section, the
    service and the service-level key it is under. *)
Record ComposeCtx : Type := { top : string; svc : string; key : string }.

Definition compose_line (st : ComposeCtx * Compose) (l : YamlLine) : ComposeCtx * Compose :=
  let '(ctx, c) := st in
  match l with
  | YKeyLine 0 k => ({| top := k; svc := ""; key := "" |}, c)
  | YKeyLine 2 k =>
      if String.eqb (top ctx) "services"
      then ({| top := top ctx; svc := k; key := "" |},
            {| services := (services c ++ [k])%list;
               named_volumes := named_volumes c;
               dependency_edges := dependency_edges c |})
      else if String.eqb (top ctx) "volumes"
      then ({| top := top ctx; svc := k; key := "" |},
            {| services := services c;
               named_volumes := (named_volumes c ++ [k])%list;
               dependency_edges := dependency_edges c |})
      else (ctx, c)
  | YKeyLine 4 k => ({| top := top ctx; svc := svc ctx; key := k |}, c)
  | YKeyLine _ _ => (ctx, c)
  | YItemLine _ t =>
      if String.eqb (top ctx) "services" && String.eqb (key ctx) "depends_on"
      then (ctx, {| services := services c;
                    named_volumes := named_volumes c;
                    dependency_edges := (dependency_edges c ++ [(svc ctx, t)])%list |})
      else (ctx, c)
  end.

Definition compose_of (content : string) : Compose :=
  snd (fold_left compose_line (yaml_lines content)
         ({| top := ""; svc := ""; key := "" |},
          {| services := []; named_volumes := []; dependency_edges := [] |})).

(** *** The guide: numbered steps [N. title] *)

Inductive StepMode : Type :=
| RLineStart
| RNum (n : nat)
| RDot (n : nat)
| RTitle (n : nat) (t : string)
| RSkip.

Definition digit_value (c : ascii) : nat := nat_of_ascii c - 48.

Definition step_flush (st : StepMode * list (nat * string)) : list (nat * string) :=
  match st with
  | (RTitle n t, out) => (out ++ [(n, t)])%list
  | (_, out) => out
  end.

(** A step is a line that starts in the first column with a decimal
    number, a full stop and a space; the rest of the line is its title. *)
Definition step_step (st : StepMode * list (nat * string)) (c : ascii)
    : StepMode * list (nat * string) :=
  if Ascii.eqb c LF then (RLineStart, step_flush st)
  else
    let '(m, out) := st in
    match m with
    | RLineStart => if is_digit c then (RNum (digit_value c), out) else (RSkip, out)
    | RNum n =>
        if is_digit c then (RNum (10 * n + digit_value c), out)
        else if Ascii.eqb c "." then (RDot n, out)
        else (RSkip, out)
    | RDot n => if Ascii.eqb c " " then (RTitle n EmptyString, out) else (RSkip, out)
    | RTitle n t => (RTitle n (snoc t c), out)
    | RSkip => (RSkip, out)
    end.

(** The numbered steps of a guide, in file order. *)
Definition guide_steps (content : string) : list (nat * string) :=
  step_flush (string_fold step_step (RLineStart, []) content).

Definition step_numbers (content : string) : list nat := map fst (guide_steps content).

(** The number of the step with the given title, if there is one. *)
Definition step_number_of (title : string) (content : string) : option nat :=
  fst <$> List.find (fun s => String.eqb (snd s) title) (guide_steps content).

Definition start_server_title : string := "**Start development server:**".
Definition postgres_step_title : string := "**Set up PostgreSQL:**".
Definition redis_step_title : string := "**Set up Redis:**".

(** ** Artifacts by path *)

(** The content last written to a relative path. *)
Fixpoint artifact_content (arts : list (list string * Content)) (p : list string)
    : option Content :=
  match arts with
  | [] => None
  | (q, c) :: r =>
      match artifact_content r p with
      | Some c' => Some c'
      | None => if decide (p = q) then Some c else None
      end
  end.

(** A package is declared by a manifest when one of its two dependency maps
    has it as a key. *)
Definition declares (pkg : PackageJsonConfig) (package : string) : Prop :=
  package ∈ dom (dependencies pkg) ∪ dom (devDependencies pkg).

(** ** Options Models that differ in one field *)

Definition with_database (d : string) (a : ProjectAnswers) : ProjectAnswers :=
  {| projectName := projectName a; projectPath := projectPath a;
     database := d; storage := storage a;
     localStoragePath := localStoragePath a; useRedis := useRedis a;
     includeDocker := includeDocker a; includeExamples := includeExamples a |}.

Definition with_storage (s : string) (a : ProjectAnswers) : ProjectAnswers :=
  {| projectName := projectName a; projectPath := projectPath a;
     database := database a; storage := s;
     localStoragePath := localStoragePath a; useRedis := useRedis a;
     includeDocker := includeDocker a; includeExamples := includeExamples a |}.

(** The scenario of the specification. *)
Definition demo : ProjectAnswers :=
  {| projectName := "demo"; projectPath := "demo";
     database := "sqlite"; storage := "local"; localStoragePath := None;
     useRedis := false; includeDocker := false; includeExamples := false |}.

(** A world without network: every lookup is rejected. *)
Definition offline : World := {| registry := fun _ => Rejected |}.

(** ** Templates as trees

    A generated file is literal text with holes, joined by concatenation.
    A scan crosses a hole without reading it when it is in a state that
    only a line feed can leave. *)
Inductive Template : Type :=
| Lit (s : string)
| Hole (s : string)
| Cat (t1 t2 : Template).

Fixpoint denote (t : Template) : string :=
  match t with
  | Lit s => s
  | Hole s => s
  | Cat t1 t2 => denote t1 +:+ denote t2
  end.

Fixpoint holes_single_line (t : Template) : Prop :=
  match t with
  | Lit _ => True
  | Hole h => single_line h = true
  | Cat t1 t2 => holes_single_line t1 /\ holes_single_line t2
  end.

Fixpoint scan_template {S : Type} (f : S -> ascii -> S) (skipping : S -> bool)
    (st : S) (t : Template) : option S :=
  match t with
  | Lit s => Some (string_fold f st s)
  | Hole _ => if skipping st then Some st else None
  | Cat t1 t2 =>
      match scan_template f skipping st t1 with
      | Some st1 => scan_template f skipping st1 t2
      | None => None
      end
  end.

Definition env_skipping (st : EnvMode * list string) : bool :=
  match fst st with EnvSkip => true | _ => false end.

Definition schema_skipping (st : SchemaMode * list (string * string)) : bool :=
  match fst st with SSkip => true | _ => false end.


Definition step_skipping (st : StepMode * list (nat * string)) : bool :=
  match fst st with RSkip => true | _ => false end.

(** ** What the readers are expected to find *)

Definition env_names_expected (a : ProjectAnswers) : list string :=
  (["PORT"]
   ++ (if String.eqb (database a) "postgresql"
       then ["DB_HOST"; "DB_PORT"; "DB_USER"; "DB_PASSWORD"; "DB_NAME"]
       else ["DB_PATH"])
   ++ (if String.eqb (storage a) "local"
       then ["STORAGE_PATH"]
       else ["OVH_ACCESS_KEY"; "OVH_SECRET_KEY"; "OVH_ENDPOINT"; "OVH_REGION"; "OVH_BUCKET"])
   ++ (if useRedis a then ["REDIS_HOST"; "REDIS_PORT"] else []))%list.

Definition schema_expected (a : ProjectAnswers) : list (string * string) :=
  ([("PORT", "number({ optional: true }),")]
   ++ (if String.eqb (database a) "postgresql"
       then [("DB_HOST", "string(),");
             ("DB_PORT", "number({ optional: true }),");
             ("DB_USER", "string(),");
             ("DB_PASSWORD", "string(),");
             ("DB_NAME", "string(),")]
       else [("DB_PATH", "string({ optional: true }),")])
   ++ (if String.eqb (storage a) "local"
       then [("STORAGE_PATH", "string({ optional: true }),")]
       else [("OVH_ACCESS_KEY", "string(),");
             ("OVH_SECRET_KEY", "string(),");
             ("OVH_ENDPOINT", "string({ format: 'url' }),");
             ("OVH_REGION", "string({ optional: true }),");
             ("OVH_BUCKET", "string(),")])
   ++ (if useRedis a
       then [("REDIS_HOST", "string({ optional: true }),");
             ("REDIS_PORT", "number({ optional: true }),")]
       else []))%list.


(** The optional steps of the guide that the options switch on. *)
Definition optional_steps (a : ProjectAnswers) : nat :=
  (if String.eqb (database a) "postgresql" then 1 else 0)
  + (if useRedis a then 1 else 0).

Definition steps_expected (a : ProjectAnswers) : list (nat * string) :=
  let pg := String.eqb (database a) "postgresql" in
  ([(1, "**Install dependencies:**"); (2, "**Configure environment:**")]
   ++ (if pg then [(3, postgres_step_title)] else [])
   ++ (if useRedis a then [((if pg then 4 else 3), redis_step_title)] else [])
   ++ [((if pg || useRedis a then (if pg && useRedis a then 5 else 4) else 3),
        start_server_title)])%list.


(** ** The artifacts of a run *)

(** The manifest among the artifacts. *)
Definition manifest_of (arts : list (list string * Content)) : option PackageJsonConfig :=
  match artifact_content arts ["package.json"] with
  | Some (JsonDoc pkg _) => Some pkg
  | _ => None
  end.

(** The versions the registry lookups of [Part001] return in a world. *)
Definition core_version (w : World) : option string :=
  match registry w "https://registry.npmjs.org/digitaltwin-core/latest" with
  | Resolved v => v
  | Rejected => Some "0.3.3"
  end.

Definition cli_version (w : World) : option string :=
  match registry w "https://registry.npmjs.org/digitaltwin-cli/latest" with
  | Resolved v => v
  | Rejected => Some "0.1.0"
  end.

Definition project_example_paths : list (list string) :=
  [["src"; "components"; "random-data-collector.ts"];
   ["src"; "components"; "data-processor.ts"];
   ["src"; "components"; "index.ts"]].

Definition part001_example_paths : list (list string) :=
  [["src"; "components"; "jsonplaceholder_collector.ts"];
   ["src"; "components"; "index.ts"]].

Definition container_paths : list (list string) :=
  [["Dockerfile"]; ["docker-compose.yml"]].

Definition project_artifacts (a : ProjectAnswers) : list (list string * Content) :=
  ([(["package.json"], JsonDoc (Project.packageJsonOf a) 2);
    (["src"; "index.ts"], Text (Project.generateIndexFile a));
    (["src"; "dt-cli.ts"], Text (Project.generateCliFile a));
    (["tsconfig.json"], Text Project.generateTsConfig);
    ([".env"], Text (generateEnvFile a));
    ([".gitignore"], Text gitignoreContent)]
   ++ (if includeExamples a
       then [(["src"; "components"; "random-data-collector.ts"], Text Project.collectorContent);
             (["src"; "components"; "data-processor.ts"], Text Project.handlerContent);
             (["src"; "components"; "index.ts"], Text Project.indexContent)]
       else [])
   ++ (if includeDocker a
       then [(["Dockerfile"], Text dockerfileContent);
             (["docker-compose.yml"], Text (dockerComposeContent a))]
       else [])
   ++ [(["README.md"], Text (Project.readmeContent a))])%list.

Definition part001_artifacts (w : World) (a : ProjectAnswers) : list (list string * Content) :=
  ([(["package.json"], JsonDoc (Part001.packageJsonOf (core_version w) (cli_version w) a) 2);
    (["src"; "index.ts"], Text (Part001.generateIndexFile a));
    (["tsconfig.json"], Text Part001.generateTsConfig);
    ([".env"], Text (generateEnvFile a));
    ([".gitignore"], Text gitignoreContent)]
   ++ (if includeExamples a
       then [(["src"; "components"; "jsonplaceholder_collector.ts"], Text Part001.collectorContent);
             (["src"; "components"; "index.ts"], Text Part001.indexContent)]
       else [])
   ++ (if includeDocker a
       then [(["Dockerfile"], Text dockerfileContent);
             (["docker-compose.yml"], Text (dockerComposeContent a))]
       else [])
   ++ [(["README.md"], Text (Part001.readmeContent a));
       (["dt.js"], Text Part001.dtCliContent)])%list.

(** What the specification asks of a manifest, for a given embedded-database
    driver. *)
Definition manifest_spec (sqlite_driver : string) (a : ProjectAnswers)
    (pkg : PackageJsonConfig) : Prop :=
  declares pkg "digitaltwin-core"
  /\ declares pkg "knex"
  /\ declares pkg "commander"
  /\ (declares pkg "pg" <-> database a = "postgresql")
  /\ (declares pkg "@types/pg" <-> database a = "postgresql")
  /\ (declares pkg sqlite_driver <-> database a = "sqlite")
  /\ (declares pkg "@aws-sdk/client-s3" <-> storage a = "ovh")
  /\ (declares pkg "ioredis" <-> useRedis a = true).

(** The relative paths written, as a function of the two gates. *)
Definition project_paths (examples docker : bool) : list (list string) :=
  ([["package.json"]; ["src"; "index.ts"]; ["src"; "dt-cli.ts"]; ["tsconfig.json"];
    [".env"]; [".gitignore"]]
   ++ (if examples then project_example_paths else [])
   ++ (if docker then container_paths else [])
   ++ [["README.md"]])%list.

Definition part001_paths (examples docker : bool) : list (list string) :=
  ([["package.json"]; ["src"; "index.ts"]; ["tsconfig.json"]; [".env"]; [".gitignore"]]
   ++ (if examples then part001_example_paths else [])
   ++ (if docker then container_paths else [])
   ++ [["README.md"]; ["dt.js"]])%list.

(** The artifacts written whatever the gates. *)
Definition project_fixed_paths : list (list string) :=
  [["package.json"]; ["src"; "index.ts"]; ["src"; "dt-cli.ts"]; ["tsconfig.json"];
   [".env"]; [".gitignore"]; ["README.md"]].

Definition part001_fixed_paths : list (list string) :=
  [["package.json"]; ["src"; "index.ts"]; ["tsconfig.json"]; [".env"]; [".gitignore"];
   ["README.md"]; ["dt.js"]].

(** The written paths obey the gates: the fixed ones are always there, the
    example files exactly with [includeExamples], the container files
    exactly with [includeDocker]. *)
Definition gated (a : ProjectAnswers) (fixed examples : list (list string))
    (paths : list (list string)) : Prop :=
  (forall p, In p fixed -> In p paths)
  /\ (forall p, In p examples -> (In p paths <-> includeExamples a = true))
  /\ (forall p, In p container_paths -> (In p paths <-> includeDocker a = true)).

(** The six artifacts the scenario of the specification lists. *)
Definition scenario_six_paths : list (list string) :=
  [["package.json"]; ["src"; "index.ts"]; ["tsconfig.json"]; [".env"]; [".gitignore"];
   ["README.md"]].

(** The text last written to a path. *)
Definition text_of (arts : list (list string * Content)) (p : list string) : option string :=
  match artifact_content arts p with
  | Some (Text s) => Some s
  | _ => None
  end.

(** What the scenario asks of the manifest and of the environment template,
    for a given embedded-database driver. *)
Definition scenario_content (sqlite_driver : string) (arts : list (list string * Content))
    : Prop :=
  (exists pkg,
      manifest_of arts = Some pkg
      /\ sqlite_driver ∈ dom (dependencies pkg)
      /\ ~ declares pkg "pg")
  /\ (exists env index,
      text_of arts [".env"] = Some env
      /\ text_of arts ["src"; "index.ts"] = Some index
      /\ In "DB_PATH" (env_names env)
      /\ schema_optional index "DB_PATH" = true
      /\ ~ In "DB_HOST" (env_names env)
      /\ ~ In "DB_USER" (env_names env)
      /\ ~ In "DB_PASSWORD" (env_names env)).



(** The last lines of every [.env] template (project.ts, lines 488-494). *)
Definition env_tail : string := "
# Development Configuration
NODE_ENV=development

# Logging
LOG_LEVEL=info
".



(** The guide's steps are numbered 1, 2, ... without gap or repetition, and
    the start-server step is the last, [first_free + optional_steps a]. *)
Definition guide_numbering (first_free : nat) (a : ProjectAnswers) (guide : string) : Prop :=
  step_numbers guide = seq 1 (length (guide_steps guide))
  /\ step_number_of start_server_title guide = Some (first_free + optional_steps a)
  /\ length (guide_steps guide) = first_free + optional_steps a
  /\ (step_number_of postgres_step_title guide <> None <-> database a = "postgresql")
  /\ (step_number_of redis_step_title guide <> None <-> useRedis a = true).

(** A model with every option switched on. *)
Definition full_stack : ProjectAnswers :=
  {| projectName := "my-app"; projectPath := "my-app";
     database := "postgresql"; storage := "ovh"; localStoragePath := None;
     useRedis := true; includeDocker := true; includeExamples := true |}.

(** The text selectors of a revision agree on two Options Models. *)
Definition same_texts (a b : ProjectAnswers) : Prop :=
  generateEnvFile a = generateEnvFile b
  /\ Project.generateIndexFile a = Project.generateIndexFile b
  /\ Project.generateCliFile a = Project.generateCliFile b
  /\ Project.readmeContent a = Project.readmeContent b
  /\ Part001.generateIndexFile a = Part001.generateIndexFile b
  /\ Part001.readmeContent a = Part001.readmeContent b.

(** The manifests agree on two Options Models. *)
Definition same_manifests (a b : ProjectAnswers) : Prop :=
  Project.packageJsonOf a = Project.packageJsonOf b
  /\ forall v1 v2, Part001.packageJsonOf v1 v2 a = Part001.packageJsonOf v1 v2 b.

(** ** The program of [dt.js]

    The wrapper that [Part001.generateDtCli] writes is itself a program.
    Its three statements, read as functions of the argument vector of the
    process and of the exit code the child reports. *)
Module DtCli.




End DtCli.
(** ** src/unnamed/part_002: a third copy of the generator

    Its [generateTsConfig], [generateReadme], [generateConfigFiles] and
    [generateDockerFiles] have the text of [project.ts]; the manifest, the
    entry point, the command-line file and the example components differ. *)

Module Part002.

(** [generatePackageJson], lines 42-92: the manifest object. *)
Definition packageJsonOf (a : ProjectAnswers) : PackageJsonConfig :=
  let dependencies : PackageJsonDependencies :=
    <["commander" := "^12.0.0"]>
      (<["knex" := "^3.0.0"]>
        (<["digitaltwin-core" := "^0.1.0"]> ∅)) in
  let devDependencies : PackageJsonDependencies :=
    <["ts-node-dev" := "^2.0.0"]>
      (<["typescript" := "^5.0.0"]>
        (<["@types/node" := "^24.0.10"]> ∅)) in
  (* Add database-specific dependencies *)
  let '(dependencies, devDependencies) :=
    if String.eqb (database a) "postgresql"
    then (<["pg" := "^8.11.0"]> dependencies, <["@types/pg" := "^8.10.0"]> devDependencies)
    else (<["better-sqlite3" := "^12.2.0"]> dependencies, devDependencies) in
  (* Add Redis if requested *)
  let dependencies :=
    if useRedis a then <["ioredis" := "^5.6.1"]> dependencies else dependencies in
  (* Add AWS SDK if using OVH storage *)
  let dependencies :=
    if String.eqb (storage a) "ovh"
    then <["@aws-sdk/client-s3" := "^3.842.0"]> dependencies
    else dependencies in
  {| name := projectName a;
     version := "1.0.0";
     description := "Digital Twin application built with digitaltwin-core";
     main := "dist/index.js";
     type := "module";
     scripts :=
       <["dt:dev" := "ts-node --esm src/dt-cli.ts dev"]>
         (<["dt:test" := "ts-node --esm src/dt-cli.ts test"]>
           (<["start" := "node dist/index.js"]>
             (<["dev" := "ts-node-dev src/index.ts"]>
               (<["build" := "tsc"]> ∅))));
     bin := <["dt" := "./dist/dt-cli.js"]> ∅;
     dependencies := dependencies;
     devDependencies := devDependencies |}.

Definition generatePackageJson (projectPath : string) (a : ProjectAnswers) : IO unit :=
  writeJson (path_join projectPath ["package.json"]) (packageJsonOf a) 2.

Definition generateIndexFile (a : ProjectAnswers) : string :=
  let storageClass :=
    if String.eqb (storage a) "local" then "LocalStorageService" else "OvhS3StorageService" in
  let exampleImports :=
    if includeExamples a
    then "import { JSONPlaceholderCollector, DataProcessor } from './components/index.js'"
    else "" in
  let dbConfigSection :=
    if String.eqb (database a) "postgresql"
    then "
    // PostgreSQL configuration
    DB_HOST: Env.schema.string(),
    DB_PORT: Env.schema.number({ optional: true }),
    DB_USER: Env.schema.string(),
    DB_PASSWORD: Env.schema.string(),
    DB_NAME: Env.schema.string(),"
    else "
    // SQLite configuration
    DB_PATH: Env.schema.string({ optional: true })," in
  let storageConfigSection :=
    if String.eqb (storage a) "local"
    then "
    // Local storage configuration
    STORAGE_PATH: Env.schema.string({ optional: true }),"
    else "
    // OVH Object Storage configuration
    OVH_ACCESS_KEY: Env.schema.string(),
    OVH_SECRET_KEY: Env.schema.string(),
    OVH_ENDPOINT: Env.schema.string({ format: 'url' }),
    OVH_REGION: Env.schema.string({ optional: true }),
    OVH_BUCKET: Env.schema.string()," in
  let redisConfigSection :=
    if useRedis a then "
    // Redis configuration  
    REDIS_HOST: Env.schema.string({ optional: true }),
    REDIS_PORT: Env.schema.number({ optional: true })," else "" in
  let storageInit :=
    if String.eqb (storage a) "local"
    then "env.STORAGE_PATH || '" +:+ js_or (localStoragePath a) "./uploads" +:+ "'"
    else "{
    accessKey: env.OVH_ACCESS_KEY,
    secretKey: env.OVH_SECRET_KEY,
    endpoint: env.OVH_ENDPOINT,
    region: env.OVH_REGION || 'gra',
    bucket: env.OVH_BUCKET
  }" in
  let dbConfig :=
    if String.eqb (database a) "postgresql"
    then "{
    client: 'pg',
    connection: {
      host: env.DB_HOST,
      port: env.DB_PORT || 5432,
      user: env.DB_USER,
      password: env.DB_PASSWORD,
      database: env.DB_NAME
    }
  }"
    else "{
    client: 'better-sqlite3',
    connection: {
      filename: env.DB_PATH || './data/" +:+ projectName a +:+ ".db'
    },
    useNullAsDefault: true
  }" in
  let exampleComponents :=
    if includeExamples a
    then "collectors: [new JSONPlaceholderCollector()],
    handlers: [new DataProcessor()],"
    else "" in
  let storageDisplay :=
    if String.eqb (storage a) "local"
    then "Local filesystem (${env.STORAGE_PATH || '" +:+ js_or (localStoragePath a) "./uploads" +:+ "'})"
    else "OVH Object Storage" in
  let queueDisplay := if useRedis a then "Redis enabled" else "In-memory mode" in
  let dbDisplay := if String.eqb (database a) "postgresql" then "PostgreSQL" else "SQLite" in
  "import { DigitalTwinEngine, KnexDatabaseAdapter, Env } from 'digitaltwin-core'
import { " +:+ storageClass +:+ " } from 'digitaltwin-core'
" +:+ exampleImports +:+ "

async function main(): Promise<void> {
  console.log('🔷 Starting " +:+ projectName a +:+ " Digital Twin...')
  
  // Validate environment variables
  const env = Env.validate({
    PORT: Env.schema.number({ optional: true })," +:+ dbConfigSection +:+ storageConfigSection +:+ redisConfigSection +:+ "
  })
  
  console.log('✅ Environment variables validated')
  
  // Initialize storage service first
  const storage = new " +:+ storageClass +:+ "(" +:+ storageInit +:+ ")
  
  // Database configuration
  const dbConfig = " +:+ dbConfig +:+ "
  
  // Initialize database adapter
  const database = new KnexDatabaseAdapter(dbConfig, storage)
  
  // Create Digital Twin Engine
  const engine = new DigitalTwinEngine({
    database,
    storage,
    redis: {
      host: 'localhost',
      port: 6379
    },
    " +:+ exampleComponents +:+ "
  })
  
  console.log('🔧 Digital Twin Engine configured')
  
  // Start the engine
  await engine.start()
  const port = engine.getPort() || env.PORT || 3000
  console.log(`🚀 Digital Twin Engine started on port ${port}`)
  console.log(`📊 Database: " +:+ dbDisplay +:+ "`)
  console.log(`💾 Storage: " +:+ storageDisplay +:+ "`)
  console.log(`🔄 Queue: " +:+ queueDisplay +:+ "`)
  
  // Graceful shutdown
  process.on('SIGINT', async () => {
    console.log('\n🛑 Shutting down gracefully...')
    await engine.stop()
    process.exit(0)
  })
}

main().catch((error: Error) => {
  console.error('❌ Failed to start Digital Twin Engine:', error.message)
  process.exit(1)
})
".

Definition generateCliFile (a : ProjectAnswers) : string :=
  let storageClass :=
    if String.eqb (storage a) "local" then "LocalStorageService" else "OvhS3StorageService" in
  let storageInit :=
    if String.eqb (storage a) "local"
    then "process.env.STORAGE_PATH || '" +:+ js_or (localStoragePath a) "./uploads" +:+ "'"
    else "{
    accessKey: process.env.OVH_ACCESS_KEY || '',
    secretKey: process.env.OVH_SECRET_KEY || '',
    endpoint: process.env.OVH_ENDPOINT || '',
    region: process.env.OVH_REGION || 'gra',
    bucket: process.env.OVH_BUCKET || '" +:+ projectName a +:+ "-storage'
  }" in
  let dbConfig :=
    if String.eqb (database a) "postgresql"
    then "{
    client: 'pg',
    connection: {
      host: process.env.DB_HOST || 'localhost',
      port: parseInt(process.env.DB_PORT || '5432'),
      user: process.env.DB_USER || 'postgres',
      password: process.env.DB_PASSWORD || 'password',
      database: process.env.DB_NAME || '" +:+ projectName a +:+ "'
    }
  }"
    else "{
    client: 'better-sqlite3',
    connection: {
      filename: process.env.DB_PATH || './data/" +:+ projectName a +:+ ".db'
    },
    useNullAsDefault: true
  }" in
  "#!/usr/bin/env node

import { DigitalTwinEngine, KnexDatabaseAdapter } from 'digitaltwin-core'
import { " +:+ storageClass +:+ " } from 'digitaltwin-core'
import { program } from 'commander'
import { fileURLToPath } from 'url'
import path from 'path'
import fs from 'fs'

const __filename = fileURLToPath(import.meta.url)
const __dirname = path.dirname(__filename)

// Load environment variables
const envPath = path.join(__dirname, '../.env')
if (fs.existsSync(envPath)) {
  const envContent = fs.readFileSync(envPath, 'utf8')
  envContent.split('\n').forEach(line => {
    const [key, value] = line.split('=')
    if (key && value) {
      process.env[key.trim()] = value.trim()
    }
  })
}

async function createEngine(): Promise<DigitalTwinEngine> {
  // Initialize storage service first
  const storage = new " +:+ storageClass +:+ "(" +:+ storageInit +:+ ")
  
  // Database configuration
  const dbConfig = " +:+ dbConfig +:+ "
  
  // Initialize database adapter
  const database = new KnexDatabaseAdapter(dbConfig, storage)
  
  // Create Digital Twin Engine
  const engine = new DigitalTwinEngine({
    database,
    storage
  })
  
  return engine
}

program
  .version('1.0.0')
  .description('Digital Twin CLI commands')

program
  .command('test')
  .description('Run dry-run validation')
  .action(async () => {
    console.log('🧪 Running dry-run validation...')
    
    try {
      const engine = await createEngine()
      
      // Run validation
      const result = await engine.validateConfiguration()
      
      if (result.valid) {
        console.log('✅ Dry-run validation completed successfully')
        console.log(`📊 Components: ${result.summary.valid}/${result.summary.total} valid`)
      } else {
        console.log('❌ Validation failed')
        result.components.forEach(comp => {
          if (!comp.valid) {
            console.log(`  • ${comp.name} (${comp.type}): ${comp.errors.join(', ')}`)
          }
        })
        process.exit(1)
      }
    } catch (error: any) {
      console.error('❌ Validation failed:', error.message)
      process.exit(1)
    }
  })

program
  .command('dev')
  .description('Start development server')
  .action(async () => {
    console.log('🔥 Starting development server...')
    
    try {
      const engine = await createEngine()
      
      // Start the engine
      await engine.start()
      const port = engine.getPort()
      console.log(`🚀 Digital Twin Engine started on port ${port || '3000'}`)
      
      // Handle graceful shutdown
      process.on('SIGINT', async () => {
        console.log('\n🛑 Shutting down gracefully...')
        await engine.stop()
        process.exit(0)
      })
      
    } catch (error: any) {
      console.error('❌ Failed to start server:', error.message)
      process.exit(1)
    }
  })

program.parse()
".

(** [generateTsConfig]: the text of [project.ts]. *)
Definition generateTsConfig : string := Project.generateTsConfig.

Definition generateAppFiles (projectPath : string) (a : ProjectAnswers) : IO unit :=
  let srcDir := path_join projectPath ["src"] in
  ensureDir srcDir;;
  (* Generate main index.ts *)
  let indexContent := generateIndexFile a in
  writeFile (join srcDir "index.ts") indexContent;;
  (* Generate dt-cli.ts for commands *)
  let cliContent := generateCliFile a in
  writeFile (join srcDir "dt-cli.ts") cliContent;;
  (* Generate TypeScript config *)
  let tsconfigContent := generateTsConfig in
  writeFile (path_join projectPath ["tsconfig.json"]) tsconfigContent.

(** [generateExampleComponents]: two constant files. *)
Definition collectorContent : string := "import { Collector } from 'digitaltwin-core'

interface Post {
  number
  number
  string
  string
}

interface User {
  number
  string
  string
  string
  string
  string
  {
    string
    string
    string
  }
  {
    string
    string
    string
    string
    {
      string
      string
    }
  }
}

interface CollectedData {
  Date
  'jsonplaceholder'
  Post[]
  User[]
  {
    number
    number
    number
  }
}

/**
 * JSONPlaceholder Data Collector - Fetches real data from JSONPlaceholder API
 * Demonstrates collecting data from external REST APIs
 */
export class JSONPlaceholderCollector extends Collector {
  private readonly baseUrl = 'https://jsonplaceholder.typicode.com'
  
  getConfiguration() {
    return {
      name: 'jsonplaceholder-collector',
      description: 'Collects posts and users data from JSONPlaceholder API',
      contentType: 'application/json',
      endpoint: 'api/jsonplaceholder',
      tags: ['api', 'external', 'demo']
    }
  }
  
  async collect(): Promise<Buffer> {
    const startTime = Date.now()
    
    try {
      console.log('🌐 Fetching data from JSONPlaceholder API...')
      
      // Fetch posts and users concurrently
      const [postsResponse, usersResponse] = await Promise.all([
        fetch(`${this.baseUrl}/posts?_limit=10`),
        fetch(`${this.baseUrl}/users`)
      ])
      
      if (!postsResponse.ok) {
        throw new Error(`Posts API error: ${postsResponse.status}`)
      }
      
      if (!usersResponse.ok) {
        throw new Error(`Users API error: ${usersResponse.status}`)
      }
      
      const posts: Post[] = await postsResponse.json()
      const users: User[] = await usersResponse.json()
      
      const collectionDuration = Date.now() - startTime
      
      const data: CollectedData = {
        timestamp: new Date(),
        source: 'jsonplaceholder',
        posts,
        users,
        metadata: {
          postsCount: posts.length,
          usersCount: users.length,
          collectionDuration
        }
      }
      
      console.log(`📊 Collected ${posts.length} posts and ${users.length} users from JSONPlaceholder (${collectionDuration}ms)`)
      return Buffer.from(JSON.stringify(data, null, 2))
      
    } catch (error) {
      console.error('❌ Error collecting data from JSONPlaceholder:', error)
      
      // Return error information as data
      const errorData = {
        timestamp: new Date(),
        source: 'jsonplaceholder',
        error: true,
        message: error instanceof Error ? error.message : 'Unknown error',
        metadata: {
          collectionDuration: Date.now() - startTime
        }
      }
      
      return Buffer.from(JSON.stringify(errorData, null, 2))
    }
  }
  
  getSchedule(): string {
    return '*/15 * * * * *' // Every 15 seconds
  }
}
".

Definition indexContent : string := "export { JSONPlaceholderCollector } from './jsonplaceholder_collector.js'
".

Definition generateExampleComponents (projectPath : string) (a : ProjectAnswers) : IO unit :=
  let componentsDir := path_join projectPath ["src"; "components"] in
  ensureDir componentsDir;;
  writeFile (join componentsDir "jsonplaceholder_collector.ts") collectorContent;;
  writeFile (join componentsDir "index.ts") indexContent.

(** [generateReadme]: the text of [project.ts]. *)
Definition readmeContent (a : ProjectAnswers) : string := Project.readmeContent a.

Definition generateReadme (projectPath : string) (a : ProjectAnswers) : IO unit :=
  writeFile (path_join projectPath ["README.md"]) (readmeContent a).

Definition generateProject (a : ProjectAnswers) : IO unit :=
  let projectPath := projectPath a in
  console_log ("📁 Creating project at: " +:+ projectPath);;
  (* Create project directory *)
  ensureDir (path_join projectPath []);;
  (* Generate package.json *)
  generatePackageJson projectPath a;;
  (* Generate main app files *)
  generateAppFiles projectPath a;;
  (* Generate configuration files *)
  generateConfigFiles projectPath a;;
  (* Generate example components if requested *)
  when (includeExamples a) (generateExampleComponents projectPath a);;
  (* Generate Docker files if requested *)
  when (includeDocker a) (generateDockerFiles projectPath a);;
  (* Generate README *)
  generateReadme projectPath a.

End Part002.

(** ** Reading lines by their beginning

    [lines_after prefix content]: for every line of [content] that, after
    its indentation, begins with [prefix], the rest of that line. *)

Inductive LineMode : Type :=
| LIndent
| LMatch (rest : string)
| LCapture (acc : string)
| LSkip.

Definition line_flush (st : LineMode * list string) : list string :=
  match st with
  | (LCapture acc, out) => (out ++ [acc])%list
  | (_, out) => out
  end.

(** One more character of the prefix. *)
Definition line_match (rest : string) (c : ascii) : LineMode :=
  match rest with
  | EmptyString => LCapture (String c EmptyString)
  | String p EmptyString => if Ascii.eqb c p then LCapture EmptyString else LSkip
  | String p rest' => if Ascii.eqb c p then LMatch rest' else LSkip
  end.

Definition line_step (prefix : string) (st : LineMode * list string) (c : ascii)
    : LineMode * list string :=
  if Ascii.eqb c LF then (LIndent, line_flush st)
  else
    let '(m, out) := st in
    match m with
    | LIndent => if Ascii.eqb c " " then (LIndent, out) else (line_match prefix c, out)
    | LMatch rest => (line_match rest c, out)
    | LCapture acc => (LCapture (snoc acc c), out)
    | LSkip => (LSkip, out)
    end.

Definition lines_after (prefix content : string) : list string :=
  line_flush (string_fold (line_step prefix) (LIndent, []) content).

(** *** Pieces of a line *)

(** The text after the first [c], if [c] occurs. *)
Fixpoint after_char (c : ascii) (s : string) : option string :=
  match s with
  | EmptyString => None
  | String d r => if Ascii.eqb d c then Some r else after_char c r
  end.

(** The text before the first [c]; all of the text when [c] does not occur. *)
Fixpoint before_char (c : ascii) (s : string) : string :=
  match s with
  | EmptyString => EmptyString
  | String d r => if Ascii.eqb d c then EmptyString else String d (before_char c r)
  end.

(** The text between the first [open] and the next [close]. *)
Definition between (open close : ascii) (s : string) : option string :=
  match after_char open s with
  | Some r => match after_char close r with
              | Some _ => Some (before_char close r)
              | None => None
              end
  | None => None
  end.

(** The first single-quoted text of a line. *)
Definition quoted (s : string) : option string := between "'" "'" s.

(** [s.split(c)]. *)
Fixpoint split_on (c : ascii) (s : string) : list string :=
  match s with
  | EmptyString => [EmptyString]
  | String d r =>
      if Ascii.eqb d c then EmptyString :: split_on c r
      else match split_on c r with
           | x :: xs => String d x :: xs
           | [] => [String d EmptyString]
           end
  end.

Fixpoint drop_spaces (s : string) : string :=
  match s with
  | String " " r => drop_spaces r
  | _ => s
  end.

(** The names between the braces of an [import] or [export] line. *)
Definition braced_names (line : string) : list string :=
  match between "{" "}" line with
  | Some inner =>
      filter (fun n => negb (String.eqb n ""))
             (map (fun n => before_char " " (drop_spaces n)) (split_on "," inner))
  | None => []
  end.

(** ** Imports of the generated sources *)

(** The module specifiers a source text imports. *)
Definition imported_modules (content : string) : list string :=
  omap quoted (lines_after "import " content).

(** The names a source text imports from a given module. *)
Definition imported_names (module content : string) : list string :=
  flat_map braced_names
    (filter (fun l => bool_decide (quoted l = Some module)) (lines_after "import " content)).

(** The names a source text re-exports, each with the module it takes it
    from. *)
Definition reexports (content : string) : list (string * string) :=
  flat_map (fun l => match quoted l with
                     | Some m => map (fun n => (n, m)) (braced_names l)
                     | None => []
                     end)
           (lines_after "export " content).

(** The classes a source text defines and exports. *)
Definition exported_classes (content : string) : list string :=
  map (before_char " ") (lines_after "export class " content).

(** The modules of Node.js that the generated sources use. *)
Definition node_builtins : list string := ["url"; "path"; "fs"; "child_process"].

(** The package a bare specifier belongs to: [dotenv/config] is in [dotenv]. *)
Definition package_of (spec : string) : string := before_char "/" spec.

(** Replace a final [.js] by [.ts]: the compiler resolves the import of
    [./x.js] to the source [./x.ts]. *)
Fixpoint js_to_ts (s : string) : string :=
  match s with
  | ".js" => ".ts"
  | String c r => String c (js_to_ts r)
  | EmptyString => EmptyString
  end.

(** The relative path a specifier that starts with [./] names, seen from
    the directory [dir]. *)
Definition relative_target (dir : list string) (spec : string) : option (list string) :=
  match spec with
  | String "." (String "/" r) => Some (dir ++ split_on "/" (js_to_ts r))%list
  | _ => None
  end.

(** An import resolves when it names a file that was written, a module of
    Node.js, or a package the manifest declares. *)
Definition import_resolves (arts : list (list string * Content)) (dir : list string)
    (spec : string) : Prop :=
  match relative_target dir spec with
  | Some p => In p (map fst arts)
  | None =>
      In spec node_builtins
      \/ exists pkg n,
           artifact_content arts ["package.json"] = Some (JsonDoc pkg n)
           /\ declares pkg (package_of spec)
  end.

(** [s.endsWith(suffix)]. *)
Fixpoint ends_with (suffix s : string) : bool :=
  String.eqb suffix s
  || match s with
     | EmptyString => false
     | String _ r => ends_with suffix r
     end.

(** The artifacts that are program sources, by their file name. *)
Definition is_source (p : list string) : bool :=
  match last p with
  | Some f => ends_with ".ts" f || ends_with ".js" f
  | None => false
  end.

(** ** Reading lines of a text with holes and choices

    A generated text is literal text, holes (the project name, the storage
    path) and choices between two texts on a condition.  The reader below
    follows [line_step] over such a text: what it captures is kept as
    pieces, a hole by its number, and the states reached under the two
    sides of a choice are kept apart only as long as they differ. *)

Inductive Piece : Type :=
| PLit (s : string)
| PHole (i : nat).

Definition hole_text (holes : list string) (i : nat) : string := nth i holes "".

Definition piece_text (holes : list string) (p : Piece) : string :=
  match p with
  | PLit s => s
  | PHole i => hole_text holes i
  end.

(** The pieces of a capture are kept last first. *)
Fixpoint pieces_text (holes : list string) (ps : list Piece) : string :=
  match ps with
  | [] => ""
  | p :: r => pieces_text holes r +:+ piece_text holes p
  end.

Definition push_char (ps : list Piece) (c : ascii) : list Piece :=
  match ps with
  | PLit s :: r => PLit (snoc s c) :: r
  | _ => PLit (String c EmptyString) :: ps
  end.

Inductive SymMode : Type :=
| SymIndent
| SymMatch (rest : string)
| SymCapture (ps : list Piece)
| SymSkip.

Definition sym_flush (st : SymMode * list (list Piece)) : list (list Piece) :=
  match st with
  | (SymCapture ps, out) => (out ++ [ps])%list
  | (_, out) => out
  end.

Definition sym_match (rest : string) (c : ascii) : SymMode :=
  match rest with
  | EmptyString => SymCapture [PLit (String c EmptyString)]
  | String p EmptyString => if Ascii.eqb c p then SymCapture [] else SymSkip
  | String p rest' => if Ascii.eqb c p then SymMatch rest' else SymSkip
  end.

Definition sym_step (prefix : string) (st : SymMode * list (list Piece)) (c : ascii)
    : SymMode * list (list Piece) :=
  if Ascii.eqb c LF then (SymIndent, sym_flush st)
  else
    let '(m, out) := st in
    match m with
    | SymIndent => if Ascii.eqb c " " then (SymIndent, out) else (sym_match prefix c, out)
    | SymMatch rest => (sym_match rest c, out)
    | SymCapture ps => (SymCapture (push_char ps c), out)
    | SymSkip => (SymSkip, out)
    end.

(** A hole is taken into a capture, passed over in a skipped line, and
    cannot be read anywhere else. *)
Definition sym_hole (i : nat) (st : SymMode * list (list Piece))
    : option (SymMode * list (list Piece)) :=
  match st with
  | (SymCapture ps, out) => Some (SymCapture (PHole i :: ps), out)
  | (SymSkip, out) => Some (SymSkip, out)
  | _ => None
  end.

Definition concrete_mode (holes : list string) (m : SymMode) : LineMode :=
  match m with
  | SymIndent => LIndent
  | SymMatch rest => LMatch rest
  | SymCapture ps => LCapture (pieces_text holes ps)
  | SymSkip => LSkip
  end.

Definition concrete (holes : list string) (st : SymMode * list (list Piece))
    : LineMode * list string :=
  (concrete_mode holes (fst st), map (pieces_text holes) (snd st)).

(** Texts with holes and choices; holes and conditions by number. *)
Inductive Choice : Type :=
| CLit (s : string)
| CHole (i : nat)
| CCat (t1 t2 : Choice)
| CIf (b : nat) (t1 t2 : Choice).

Definition cond (conds : list bool) (b : nat) : bool := nth b conds false.

Fixpoint choice_text (conds : list bool) (holes : list string) (t : Choice) : string :=
  match t with
  | CLit s => s
  | CHole i => hole_text holes i
  | CCat t1 t2 => choice_text conds holes t1 +:+ choice_text conds holes t2
  | CIf b t1 t2 =>
      if cond conds b then choice_text conds holes t1 else choice_text conds holes t2
  end.

(** The states of the reader under the conditions. *)
Inductive Tree : Type :=
| Leaf (st : SymMode * list (list Piece))
| Node (b : nat) (l r : Tree).

Fixpoint tree_eval (conds : list bool) (t : Tree) : SymMode * list (list Piece) :=
  match t with
  | Leaf st => st
  | Node b l r => if cond conds b then tree_eval conds l else tree_eval conds r
  end.

#[global] Instance Piece_eq_dec : EqDecision Piece.
Proof. solve_decision. Defined.

#[global] Instance SymMode_eq_dec : EqDecision SymMode.
Proof. solve_decision. Defined.

#[global] Instance Tree_eq_dec : EqDecision Tree.
Proof. solve_decision. Defined.

(** A choice whose two sides reach the same states is no choice. *)
Definition node (b : nat) (l r : Tree) : Tree :=
  if bool_decide (l = r) then l else Node b l r.

(** The states that remain when condition [b] is known to be [v]. *)
Fixpoint restrict (b : nat) (v : bool) (t : Tree) : Tree :=
  match t with
  | Leaf st => Leaf st
  | Node b' l r =>
      if Nat.eqb b b'
      then (if v then restrict b v l else restrict b v r)
      else node b' (restrict b v l) (restrict b v r)
  end.

Fixpoint tree_map (g : SymMode * list (list Piece) -> option (SymMode * list (list Piece)))
    (t : Tree) : option Tree :=
  match t with
  | Leaf st => Leaf <$> g st
  | Node b l r =>
      match tree_map g l, tree_map g r with
      | Some l', Some r' => Some (node b l' r')
      | _, _ => None
      end
  end.

Fixpoint scan_choice (prefix : string) (tr : Tree) (t : Choice) : option Tree :=
  match t with
  | CLit s => tree_map (fun st => Some (string_fold (sym_step prefix) st s)) tr
  | CHole i => tree_map (sym_hole i) tr
  | CCat t1 t2 =>
      match scan_choice prefix tr t1 with
      | Some tr1 => scan_choice prefix tr1 t2
      | None => None
      end
  | CIf b t1 t2 =>
      match scan_choice prefix (restrict b true tr) t1,
            scan_choice prefix (restrict b false tr) t2 with
      | Some l, Some r => Some (node b (restrict b true l) (restrict b false r))
      | _, _ => None
      end
  end.

(** The lines read, under the conditions. *)
Fixpoint tree_lines (conds : list bool) (holes : list string) (t : Tree) : list string :=
  match t with
  | Leaf st => map (pieces_text holes) (sym_flush st)
  | Node b l r =>
      if cond conds b then tree_lines conds holes l else tree_lines conds holes r
  end.

(** ** What is checked of the generated project *)

(** The holes of the templates stay on one line. *)
Definition single_line_answers (a : ProjectAnswers) : bool :=
  single_line (projectName a) && single_line (js_or (localStoragePath a) "./uploads").

(** The artifacts that [Part002] writes. *)
Definition part002_artifacts (a : ProjectAnswers) : list (list string * Content) :=
  ([(["package.json"], JsonDoc (Part002.packageJsonOf a) 2);
    (["src"; "index.ts"], Text (Part002.generateIndexFile a));
    (["src"; "dt-cli.ts"], Text (Part002.generateCliFile a));
    (["tsconfig.json"], Text Part002.generateTsConfig);
    ([".env"], Text (generateEnvFile a));
    ([".gitignore"], Text gitignoreContent)]
   ++ (if includeExamples a
       then [(["src"; "components"; "jsonplaceholder_collector.ts"], Text Part002.collectorContent);
             (["src"; "components"; "index.ts"], Text Part002.indexContent)]
       else [])
   ++ (if includeDocker a
       then [(["Dockerfile"], Text dockerfileContent);
             (["docker-compose.yml"], Text (dockerComposeContent a))]
       else [])
   ++ [(["README.md"], Text (Part002.readmeContent a))])%list.

(** *** The order of the effects *)

(** [fs.ensureDir] creates a directory with the directories above it. *)
Definition dir_exists (ensured : list (list string)) (d : list string) : bool :=
  existsb (fun e => bool_decide (d `prefix_of` e)) ensured.

(** Every file is written into a directory that an earlier [ensureDir] of
    the same run created. *)
Fixpoint writes_into_ensured (ensured : list (list string)) (tr : list Effect) : bool :=
  match tr with
  | [] => true
  | EnsureDir p :: r => writes_into_ensured (rel p :: ensured) r
  | WriteFile p _ :: r =>
      dir_exists ensured (removelast (rel p)) && writes_into_ensured ensured r
  | WriteJson p _ _ :: r =>
      dir_exists ensured (removelast (rel p)) && writes_into_ensured ensured r
  | _ :: r => writes_into_ensured ensured r
  end.

Definition effect_path (e : Effect) : option Path :=
  match e with
  | EnsureDir p => Some p
  | WriteFile p _ => Some p
  | WriteJson p _ _ => Some p
  | _ => None
  end.

(** Every file-system call of a trace is below [dest]. *)
Definition below (dest : string) (tr : list Effect) : Prop :=
  Forall (fun e => match effect_path e with
                   | Some p => root p = dest
                   | None => True
                   end) tr.

(** The number of files a run writes. *)
Definition file_count (examples : nat) (a : ProjectAnswers) : nat :=
  7 + (if includeExamples a then examples else 0) + (if includeDocker a then 2 else 0).

(** *** Imports *)

(** Every import of every generated source resolves. *)
Definition imports_resolve (arts : list (list string * Content)) : Prop :=
  forall p s, In (p, Text s) arts -> is_source p = true ->
  forall m, In m (imported_modules s) -> import_resolves arts (removelast p) m.

(** The database clients a source text configures: the quoted text of its
    [client: '...'] lines. *)
Definition knex_clients (content : string) : list string :=
  omap quoted (lines_after "client: " content).

(** A source text configures one client, and the manifest has it among its
    dependencies. *)
Definition client_declared (pkg : PackageJsonConfig) (content : string) : Prop :=
  exists c, knex_clients content = [c] /\ c ∈ dom (dependencies pkg).

(** The entry point and the command-line file, where there is one, name a
    client that the manifest of the same run declares. *)
Definition clients_declared (arts : list (list string * Content)) : Prop :=
  exists pkg index,
    manifest_of arts = Some pkg
    /\ text_of arts ["src"; "index.ts"] = Some index
    /\ client_declared pkg index
    /\ forall cli, text_of arts ["src"; "dt-cli.ts"] = Some cli -> client_declared pkg cli.

(** Every name the entry point imports from the example components is
    re-exported by the components index from a module whose file is written
    and defines a class of that name. *)
Definition example_names_defined (arts : list (list string * Content)) : Prop :=
  forall index n,
    text_of arts ["src"; "index.ts"] = Some index ->
    In n (imported_names "./components/index.js" index) ->
    exists cindex m p content,
      text_of arts ["src"; "components"; "index.ts"] = Some cindex
      /\ In (n, m) (reexports cindex)
      /\ relative_target ["src"; "components"] m = Some p
      /\ text_of arts p = Some content
      /\ In n (exported_classes content).

(** A class name that the entry point imports from the example components,
    that the components index does not re-export and that no written source
    defines. *)
Definition dangling_example (arts : list (list string * Content)) (n : string) : Prop :=
  exists index,
    text_of arts ["src"; "index.ts"] = Some index
    /\ In n (imported_names "./components/index.js" index)
    /\ (forall cindex, text_of arts ["src"; "components"; "index.ts"] = Some cindex ->
        ~ In n (map fst (reexports cindex)))
    /\ (forall p content, In (p, Text content) arts -> is_source p = true ->
        ~ In n (exported_classes content)).

(** *** The registry lookups of [Part001] *)

Definition core_url : string := "https://registry.npmjs.org/digitaltwin-core/latest".
Definition cli_url : string := "https://registry.npmjs.org/digitaltwin-cli/latest".

(** The version range a manifest gets from the outcome of a lookup: the
    fallback when the lookup is rejected, the [version] field of the answer
    otherwise, also when the answer has none. *)
Definition version_range (fallback : string) (r : FetchOutcome) : string :=
  match r with
  | Rejected => "^" +:+ fallback
  | Resolved (Some v) => "^" +:+ v
  | Resolved None => "^undefined"
  end.

Definition is_rejected (r : FetchOutcome) : bool :=
  match r with
  | Rejected => true
  | Resolved _ => false
  end.

(** The messages a run hands to [console.warn], in order. *)
Definition warnings (tr : list Effect) : list string :=
  omap (fun e => match e with
                 | ConsoleWarn m => Some m
                 | _ => None
                 end) tr.

(** *** The queue connection of the entry point *)

(** The [redis] entry of the engine configuration, with the literal host and
    port lines of the entry point. *)
Definition engine_redis (index : string) : list string :=
  (lines_after "redis: " index ++ lines_after "host: '" index
   ++ lines_after "port: 6379" index)%list.

(** *** What [Part002] writes *)

Definition part002_paths (examples docker : bool) : list (list string) :=
  ([["package.json"]; ["src"; "index.ts"]; ["src"; "dt-cli.ts"]; ["tsconfig.json"];
    [".env"]; [".gitignore"]]
   ++ (if examples then part001_example_paths else [])
   ++ (if docker then container_paths else [])
   ++ [["README.md"]])%list.

(** The queue connection is passed whatever [useRedis] says: the entry
    point has the literal connection, and without [useRedis] neither the
    manifest nor the environment template knows of a queue. *)
Definition queue_unconditional (a : ProjectAnswers)
    (arts : list (list string * Content)) : Prop :=
  exists index pkg env,
    text_of arts ["src"; "index.ts"] = Some index
    /\ manifest_of arts = Some pkg
    /\ text_of arts [".env"] = Some env
    /\ engine_redis index = ["{"; "localhost',"; ""]
    /\ (if useRedis a
        then declares pkg "ioredis" /\ lines_after "REDIS_HOST=" env = ["localhost"]
        else ~ declares pkg "ioredis" /\ lines_after "REDIS_HOST=" env = []).

(** The entry point passes no queue connection, whatever [useRedis] says. *)
Definition queue_never (a : ProjectAnswers) (arts : list (list string * Content)) : Prop :=
  exists index pkg env,
    text_of arts ["src"; "index.ts"] = Some index
    /\ manifest_of arts = Some pkg
    /\ text_of arts [".env"] = Some env
    /\ engine_redis index = []
    /\ (if useRedis a
        then declares pkg "ioredis" /\ lines_after "REDIS_HOST=" env = ["localhost"]
        else ~ declares pkg "ioredis" /\ lines_after "REDIS_HOST=" env = []).

(** *** Values that several files repeat *)

(** The values a template assigns to a variable. *)
Definition assigned (name env : string) : list string :=
  lines_after (name +:+ "=") env.









(** *** The summary of the guide *)

(** The line of the configuration summary for [key]. *)
Definition summary (key readme : string) : list string :=
  lines_after ("- **" +:+ key +:+ "**: ") readme.

(** The summary says what the manifest, the template and the written files
    of the same run show. *)
Definition readme_agrees (arts : list (list string * Content)) : Prop :=
  exists readme pkg env,
    text_of arts ["README.md"] = Some readme
    /\ manifest_of arts = Some pkg
    /\ text_of arts [".env"] = Some env
    /\ (summary "Database" readme = ["PostgreSQL"] /\ declares pkg "pg"
        \/ summary "Database" readme = ["SQLite"] /\ ~ declares pkg "pg")
    /\ (summary "Queue" readme = ["Redis (BullMQ)"] /\ declares pkg "ioredis"
        \/ summary "Queue" readme = ["In-memory"] /\ ~ declares pkg "ioredis")
    /\ (summary "Storage" readme = ["OVH Object Storage"]
        /\ declares pkg "@aws-sdk/client-s3"
        \/ (exists p, summary "Storage" readme = ["Local File System (" +:+ p +:+ ")"]
                      /\ assigned "STORAGE_PATH" env = [p])
           /\ ~ declares pkg "@aws-sdk/client-s3")
    /\ (summary "Docker" readme = ["Included"]
        /\ (forall p, In p container_paths -> In p (map fst arts))
        \/ summary "Docker" readme = ["Not included"]
           /\ (forall p, In p container_paths -> ~ In p (map fst arts))).

(** *** The commands of the guide *)

(** The commands the guide lists under its scripts. *)
Definition documented_commands (readme : string) : list string :=
  map (before_char "`") (lines_after "- `" readme).

(** [npm run s] and [npm s] run the script [s] of the manifest. *)
Definition script_of (words : list string) : option string :=
  match words with
  | [tool; s] => if String.eqb tool "npm" then Some s else None
  | [tool; r; s] => if String.eqb tool "npm" && String.eqb r "run" then Some s else None
  | _ => None
  end.

(** [node f ...] runs the file [f]. *)
Definition program_of (words : list string) : option string :=
  match words with
  | tool :: f :: _ => if String.eqb tool "node" then Some f else None
  | _ => None
  end.

(** A command can run in the generated project: its script is in the
    manifest, or its file, with or without the extension [.js], is
    written. *)
Definition command_available (paths : list (list string)) (pkg : PackageJsonConfig)
    (cmd : string) : Prop :=
  let words := split_on " " cmd in
  match script_of words with
  | Some s => s ∈ dom (scripts pkg)
  | None =>
      match program_of words with
      | Some f => In [f] paths \/ In [f +:+ ".js"] paths
      | None => False
      end
  end.

(** The documented commands of a run, the manifest and the written paths. *)
Definition guide_commands (arts : list (list string * Content))
    (P : list (list string) -> PackageJsonConfig -> list string -> Prop) : Prop :=
  exists readme pkg,
    text_of arts ["README.md"] = Some readme
    /\ manifest_of arts = Some pkg
    /\ P (map fst arts) pkg (documented_commands readme).

(** What the guide of a revision without [dt.js] documents: the scripts of
    the manifest, and a file that is not written. *)
Definition without_dt (paths : list (list string)) (pkg : PackageJsonConfig)
    (cmds : list string) : Prop :=
  Forall (fun c => command_available paths pkg c
                   \/ program_of (split_on " " c) = Some "dt") cmds
  /\ In "node dt test" cmds
  /\ In "node dt dev" cmds
  /\ ~ command_available paths pkg "node dt test"
  /\ ~ command_available paths pkg "node dt dev".

(** What the guide of the revision with [dt.js] documents. *)
Definition with_dt (paths : list (list string)) (pkg : PackageJsonConfig)
    (cmds : list string) : Prop :=
  In "node dt test" cmds /\ Forall (command_available paths pkg) cmds.

(** *** What the manifest points at *)

(** The string value of a compiler option, read from the text that
    [JSON.stringify] made. *)
Definition compiler_option (key tsconfig : string) : list string :=
  omap (between (ascii_of_nat 34) (ascii_of_nat 34))
       (lines_after (dq +:+ key +:+ dq +:+ ": ") tsconfig).

Definition strip_dot_slash (s : string) : string :=
  match s with
  | String "." (String "/" r) => r
  | _ => s
  end.

(** The source that the compiler turns into the output file [out]: below
    [rootDir] where [out] is below [outDir], with [.ts] for [.js]. *)
Definition source_of_output (outDir rootDir out : string) : option (list string) :=
  let o := split_on "/" (strip_dot_slash outDir) in
  let r := split_on "/" (strip_dot_slash rootDir) in
  let p := split_on "/" (strip_dot_slash out) in
  if bool_decide (o `prefix_of` p)
  then Some (r ++ map js_to_ts (drop (length o) p))%list
  else None.

(** The source files a script names. *)
Definition script_sources (cmd : string) : list (list string) :=
  map (split_on "/") (filter (fun w => String.prefix "src/" w) (split_on " " cmd)).

(** The [main] and [bin] entries of the manifest are outputs of sources the
    run writes, and the scripts name sources the run writes. *)
Definition manifest_targets_exist (arts : list (list string * Content)) : Prop :=
  exists pkg tsconfig outDir rootDir,
    manifest_of arts = Some pkg
    /\ text_of arts ["tsconfig.json"] = Some tsconfig
    /\ compiler_option "outDir" tsconfig = [outDir]
    /\ compiler_option "rootDir" tsconfig = [rootDir]
    /\ (exists p, source_of_output outDir rootDir (main pkg) = Some p
                  /\ In p (map fst arts))
    /\ (forall n t, bin pkg !! n = Some t ->
          exists p, source_of_output outDir rootDir t = Some p /\ In p (map fst arts))
    /\ (forall n c, scripts pkg !! n = Some c ->
          forall p, In p (script_sources c) -> In p (map fst arts)).

(** * Proofs *)

(** ** The readers on two sample models *)

Example env_names_demo :
  env_names (generateEnvFile demo)
  = ["PORT"; "DB_PATH"; "STORAGE_PATH"; "NODE_ENV"; "LOG_LEVEL"].
Proof. vm_compute. reflexivity. Qed.

Example schema_names_demo :
  schema_names (Project.generateIndexFile demo) = ["PORT"; "DB_PATH"; "STORAGE_PATH"].
Proof. vm_compute. reflexivity. Qed.

Example schema_names_full_stack :
  schema_names (Part001.generateIndexFile full_stack)
  = ["PORT"; "DB_HOST"; "DB_PORT"; "DB_USER"; "DB_PASSWORD"; "DB_NAME";
     "OVH_ACCESS_KEY"; "OVH_SECRET_KEY"; "OVH_ENDPOINT"; "OVH_REGION"; "OVH_BUCKET";
     "REDIS_HOST"; "REDIS_PORT"].
Proof. vm_compute. reflexivity. Qed.

Example compose_full_stack :
  compose_of (dockerComposeContent full_stack)
  = {| services := ["app"; "postgres"; "redis"];
       named_volumes := ["postgres_data"];
       dependency_edges := [("app", "postgres"); ("app", "redis")] |}.
Proof. vm_compute. reflexivity. Qed.

Example compose_demo :
  compose_of (dockerComposeContent demo)
  = {| services := ["app"]; named_volumes := []; dependency_edges := [] |}.
Proof. vm_compute. reflexivity. Qed.

Example guide_steps_full_stack :
  guide_steps (Project.readmeContent full_stack)
  = [(1, "**Install dependencies:**"); (2, "**Configure environment:**");
     (3, "**Set up PostgreSQL:**"); (4, "**Set up Redis:**");
     (5, "**Start development server:**")].
Proof. vm_compute. reflexivity. Qed.

Example guide_steps_demo :
  guide_steps (Part001.readmeContent demo)
  = [(1, "**Install dependencies:**"); (2, "**Configure environment:**");
     (3, "**Start development server:**")].
Proof. vm_compute. reflexivity. Qed.

Example artifact_paths_full_stack :
  artifact_paths (run (Part001.generateProject full_stack) offline)
  = [["package.json"]; ["src"; "index.ts"]; ["tsconfig.json"]; [".env"]; [".gitignore"];
     ["src"; "components"; "jsonplaceholder_collector.ts"]; ["src"; "components"; "index.ts"];
     ["Dockerfile"]; ["docker-compose.yml"]; ["README.md"]; ["dt.js"]].
Proof. vm_compute. reflexivity. Qed.

(** ** Scanning text with holes *)

Section StringFold.
Context {S : Type} (f : S -> ascii -> S).

Lemma string_fold_app (st : S) (s1 s2 : string) :
  string_fold f st (s1 +:+ s2) = string_fold f (string_fold f st s1) s2.
Proof.
  revert st. induction s1 as [|c r IH]; intros st; simpl; [reflexivity|].
  apply IH.
Qed.

(** A state that only a line feed can leave is not changed by text that
    stays on one line. *)
Lemma string_fold_fixed (st : S) (h : string) :
  (forall c, Ascii.eqb c LF = false -> f st c = st) ->
  single_line h = true ->
  string_fold f st h = st.
Proof.
  intros Hst. induction h as [|c r IH]; simpl; [reflexivity|].
  unfold single_line; simpl. intros H.
  apply andb_true_iff in H as [Hc Hr].
  apply negb_true_iff in Hc.
  rewrite (Hst c Hc). apply IH, Hr.
Qed.
End StringFold.

Section ScanTemplate.
Context {S : Type} (f : S -> ascii -> S) (skipping : S -> bool).
Hypothesis skipping_stays :
  forall st c, skipping st = true -> Ascii.eqb c LF = false -> f st c = st.

(** Scanning the tree gives the state that scanning the text gives. *)
Lemma scan_template_sound (t : Template) :
  forall st st',
    holes_single_line t ->
    scan_template f skipping st t = Some st' ->
    string_fold f st (denote t) = st'.
Proof.
  induction t as [s|h|t1 IH1 t2 IH2]; intros st st' Hh Hrun; simpl in *.
  - congruence.
  - destruct (skipping st) eqn:Hs; [|discriminate].
    injection Hrun as <-.
    apply string_fold_fixed; [|exact Hh].
    intros c Hc. apply skipping_stays; assumption.
  - destruct Hh as [H1 H2].
    destruct (scan_template f skipping st t1) as [st1|] eqn:E1; [|discriminate].
    rewrite string_fold_app, (IH1 _ _ H1 E1). apply IH2; assumption.
Qed.
End ScanTemplate.

Lemma env_skipping_stays st c :
  env_skipping st = true -> Ascii.eqb c LF = false -> env_step st c = st.
Proof.
  destruct st as [[] out]; simpl; try discriminate.
  intros _ Hc. unfold env_step. rewrite Hc. reflexivity.
Qed.

Lemma schema_skipping_stays st c :
  schema_skipping st = true -> Ascii.eqb c LF = false -> schema_step st c = st.
Proof.
  destruct st as [[] out]; simpl; try discriminate.
  intros _ Hc. unfold schema_step. rewrite Hc. reflexivity.
Qed.


Lemma step_skipping_stays st c :
  step_skipping st = true -> Ascii.eqb c LF = false -> step_step st c = st.
Proof.
  destruct st as [[] out]; simpl; try discriminate.
  intros _ Hc. unfold step_step. rewrite Hc. reflexivity.
Qed.

(** [reify s] reads a string expression as a [Template]: literals are
    [Lit], concatenations are [Cat], anything else is a [Hole]. *)
Ltac reify s :=
  lazymatch s with
  | String.append ?s1 ?s2 =>
      let t1 := reify s1 in
      let t2 := reify s2 in
      constr:(Cat t1 t2)
  | String _ _ => constr:(Lit s)
  | EmptyString => constr:(Lit s)
  | _ => constr:(Hole s)
  end.

(** Replace the scan of the goal's text by its result. *)
Ltac scan_with stays :=
  cbv beta iota zeta delta [orb andb];
  match goal with
  | |- context [string_fold ?f ?st ?s] =>
      let t := reify s in
      change s with (denote t);
      erewrite (scan_template_sound f _ stays t st);
      [ | cbn [holes_single_line]; repeat split; assumption
        | vm_compute; reflexivity ]
  end.

Ltac answers_fields :=
  cbv beta iota zeta delta [projectName projectPath database storage localStoragePath
                              useRedis includeDocker includeExamples dq].

(** ** What each generated file declares *)

Lemma env_names_generateEnvFile (a : ProjectAnswers) :
  single_line (projectName a) = true ->
  single_line (js_or (localStoragePath a) "./uploads") = true ->
  env_names (generateEnvFile a) = (env_names_expected a ++ ["NODE_ENV"; "LOG_LEVEL"])%list.
Proof.
  destruct a as [n pp db st lsp redis docker ex].
  unfold env_names, env_names_expected, generateEnvFile. answers_fields.
  intros Hn Hp.
  destruct (String.eqb db "postgresql"), (String.eqb st "local"), redis;
    scan_with env_skipping_stays; reflexivity.
Qed.

Lemma schema_entries_Project (a : ProjectAnswers) :
  single_line (projectName a) = true ->
  single_line (js_or (localStoragePath a) "./uploads") = true ->
  schema_entries (Project.generateIndexFile a) = schema_expected a.
Proof.
  destruct a as [n pp db st lsp redis docker ex].
  unfold schema_entries, schema_expected, Project.generateIndexFile. answers_fields.
  intros Hn Hp.
  destruct (String.eqb db "postgresql"), (String.eqb st "local"), redis, ex;
    scan_with schema_skipping_stays; reflexivity.
Qed.

Lemma schema_entries_Part001 (a : ProjectAnswers) :
  single_line (projectName a) = true ->
  single_line (js_or (localStoragePath a) "./uploads") = true ->
  schema_entries (Part001.generateIndexFile a) = schema_expected a.
Proof.
  destruct a as [n pp db st lsp redis docker ex].
  unfold schema_entries, schema_expected, Part001.generateIndexFile. answers_fields.
  intros Hn Hp.
  destruct (String.eqb db "postgresql"), (String.eqb st "local"), redis, ex;
    scan_with schema_skipping_stays; reflexivity.
Qed.


Lemma guide_steps_Project (a : ProjectAnswers) :
  single_line (projectName a) = true ->
  single_line (js_or (localStoragePath a) "./uploads") = true ->
  guide_steps (Project.readmeContent a) = steps_expected a.
Proof.
  destruct a as [n pp db st lsp redis docker ex].
  unfold guide_steps, steps_expected, Project.readmeContent. answers_fields.
  intros Hn Hp.
  destruct (String.eqb db "postgresql"), (String.eqb st "local"), redis, docker, ex;
    scan_with step_skipping_stays; reflexivity.
Qed.

Lemma guide_steps_Part001 (a : ProjectAnswers) :
  single_line (projectName a) = true ->
  single_line (js_or (localStoragePath a) "./uploads") = true ->
  guide_steps (Part001.readmeContent a) = steps_expected a.
Proof.
  destruct a as [n pp db st lsp redis docker ex].
  unfold guide_steps, steps_expected, Part001.readmeContent. answers_fields.
  intros Hn Hp.
  destruct (String.eqb db "postgresql"), (String.eqb st "local"), redis, docker, ex;
    scan_with step_skipping_stays; reflexivity.
Qed.

(** ** Valid Options Models *)

Lemma name_char_not_LF (c : ascii) : name_char c = true -> Ascii.eqb c LF = false.
Proof.
  intros H. destruct (Ascii.eqb_spec c LF) as [->|]; [|reflexivity].
  vm_compute in H. discriminate.
Qed.

Lemma valid_name_single_line (s : string) : valid_name s = true -> single_line s = true.
Proof.
  unfold valid_name, single_line. intros H.
  apply andb_true_iff in H as [_ H].
  induction s as [|c r IH]; simpl in *; [reflexivity|].
  apply andb_true_iff in H as [Hc Hr].
  rewrite (name_char_not_LF c Hc). simpl. apply IH, Hr.
Qed.

Lemma valid_database_cases (d : string) :
  valid_database d = true -> d = "sqlite" \/ d = "postgresql".
Proof.
  unfold valid_database. intros H. apply orb_true_iff in H as [H|H];
    apply String.eqb_eq in H; auto.
Qed.

Lemma valid_storage_cases (s : string) :
  valid_storage s = true -> s = "local" \/ s = "ovh".
Proof.
  unfold valid_storage. intros H. apply orb_true_iff in H as [H|H];
    apply String.eqb_eq in H; auto.
Qed.

(** What a valid Options Model gives the proofs below. *)
Lemma valid_answers_inv (a : ProjectAnswers) :
  valid_answers a = true ->
  single_line (projectName a) = true
  /\ single_line (js_or (localStoragePath a) "./uploads") = true
  /\ (database a = "sqlite" \/ database a = "postgresql")
  /\ (storage a = "local" \/ storage a = "ovh").
Proof.
  unfold valid_answers. intros H.
  apply andb_true_iff in H as [H Hp].
  apply andb_true_iff in H as [H Hs].
  apply andb_true_iff in H as [Hn Hd].
  repeat split.
  - apply valid_name_single_line, Hn.
  - destruct (localStoragePath a) as [[|c r]|]; simpl; auto.
  - apply valid_database_cases, Hd.
  - apply valid_storage_cases, Hs.
Qed.

(** ** The artifacts of a run *)

Lemma Project_artifacts (a : ProjectAnswers) (w : World) :
  artifacts (run (Project.generateProject a) w) = project_artifacts a.
Proof.
  unfold project_artifacts.
  destruct (includeExamples a) eqn:Hex, (includeDocker a) eqn:Hd;
    unfold run, Project.generateProject; rewrite Hex, Hd; reflexivity.
Qed.

Lemma Part001_artifacts (a : ProjectAnswers) (w : World) :
  artifacts (run (Part001.generateProject a) w) = part001_artifacts w a.
Proof.
  unfold part001_artifacts, core_version, cli_version.
  unfold run, Part001.generateProject, Part001.generatePackageJson,
    Part001.getLatestDigitalTwinCoreVersion, Part001.getLatestDigitalTwinCliVersion,
    fetch_json, mbind, io_bind.
  destruct (includeExamples a), (includeDocker a),
    (registry w "https://registry.npmjs.org/digitaltwin-core/latest"),
    (registry w "https://registry.npmjs.org/digitaltwin-cli/latest"); reflexivity.
Qed.

(** ** The manifest *)

(** Membership in the key set of a concrete map is decided by evaluation. *)
Ltac declares_yes :=
  unfold declares; apply (bool_decide_unpack _); vm_compute; exact I.

Ltac declares_no H :=
  unfold declares in H;
  let H' := fresh in
  pose proof (bool_decide_pack _ H) as H'; vm_compute in H'; destruct H'.

Ltac manifest_cases :=
  repeat match goal with
  | |- _ /\ _ => split
  | |- _ <-> _ => split; intros ?H
  end;
  try reflexivity; try discriminate; try declares_yes;
  try match goal with H : declares _ _ |- _ => declares_no H end.

Lemma Project_manifest_spec (a : ProjectAnswers) :
  valid_answers a = true -> manifest_spec "sqlite3" a (Project.packageJsonOf a).
Proof.
  intros Hv. apply valid_answers_inv in Hv as (_ & _ & Hdb & Hst).
  destruct a as [n pp db st lsp redis docker ex]. simpl in Hdb, Hst.
  unfold manifest_spec. answers_fields.
  destruct Hdb as [-> | ->], Hst as [-> | ->], redis; manifest_cases.
Qed.

Lemma Part001_manifest_spec (v1 v2 : option string) (a : ProjectAnswers) :
  valid_answers a = true -> manifest_spec "better-sqlite3" a (Part001.packageJsonOf v1 v2 a).
Proof.
  intros Hv. apply valid_answers_inv in Hv as (_ & _ & Hdb & Hst).
  destruct a as [n pp db st lsp redis docker ex]. simpl in Hdb, Hst.
  unfold manifest_spec. answers_fields.
  destruct Hdb as [-> | ->], Hst as [-> | ->], redis; manifest_cases.
Qed.

(** C5: for every valid Options Model the manifest written by the generator
    declares the core framework, the query builder and the argument parser;
    it declares the PostgreSQL driver and its type declarations exactly when
    the database is postgresql, the embedded-database driver exactly when it
    is sqlite, the object-storage client exactly when the storage is ovh,
    and the queue client exactly when useRedis is set.  The embedded driver
    is [sqlite3] in project.ts and [better-sqlite3] in part_001. *)
Theorem C5_manifest_dependencies (a : ProjectAnswers) (w : World) :
  valid_answers a = true ->
  (exists pkg,
      manifest_of (artifacts (run (Project.generateProject a) w)) = Some pkg
      /\ manifest_spec "sqlite3" a pkg)
  /\ (exists pkg,
      manifest_of (artifacts (run (Part001.generateProject a) w)) = Some pkg
      /\ manifest_spec "better-sqlite3" a pkg).
Proof.
  intros Hv. split.
  - exists (Project.packageJsonOf a). split; [|apply Project_manifest_spec, Hv].
    rewrite Project_artifacts. unfold project_artifacts.
    destruct (includeExamples a), (includeDocker a); reflexivity.
  - exists (Part001.packageJsonOf (core_version w) (cli_version w) a).
    split; [|apply Part001_manifest_spec, Hv].
    rewrite Part001_artifacts. unfold part001_artifacts.
    destruct (includeExamples a), (includeDocker a); reflexivity.
Qed.

Lemma C5_manifest_dependencies_witness :
  valid_answers demo = true
  /\ (exists pkg,
      manifest_of (artifacts (run (Project.generateProject demo) offline)) = Some pkg
      /\ manifest_spec "sqlite3" demo pkg)
  /\ (exists pkg,
      manifest_of (artifacts (run (Part001.generateProject demo) offline)) = Some pkg
      /\ manifest_spec "better-sqlite3" demo pkg).
Proof.
  split; [reflexivity|].
  apply (C5_manifest_dependencies demo offline). reflexivity.
Defined.

(** ** Which files are written *)

Lemma Project_paths (a : ProjectAnswers) (w : World) :
  artifact_paths (run (Project.generateProject a) w)
  = project_paths (includeExamples a) (includeDocker a).
Proof.
  unfold artifact_paths. rewrite Project_artifacts. unfold project_artifacts.
  destruct (includeExamples a), (includeDocker a); reflexivity.
Qed.

Lemma Part001_paths (a : ProjectAnswers) (w : World) :
  artifact_paths (run (Part001.generateProject a) w)
  = part001_paths (includeExamples a) (includeDocker a).
Proof.
  unfold artifact_paths. rewrite Part001_artifacts. unfold part001_artifacts.
  destruct (includeExamples a), (includeDocker a); reflexivity.
Qed.

Ltac in_paths :=
  repeat match goal with
  | H : In _ (_ :: _) |- _ => destruct H as [<- | H]
  | H : In _ [] |- _ => destruct H
  end.

Ltac gated_cases :=
  unfold project_fixed_paths, part001_fixed_paths, project_example_paths,
    part001_example_paths, container_paths in *;
  repeat split; intros; in_paths;
  try reflexivity; try discriminate;
  try (vm_compute; tauto);
  try (exfalso;
       match goal with
       | H : In _ _ |- _ => vm_compute in H; intuition discriminate
       end).

Lemma project_paths_gated (a : ProjectAnswers) :
  gated a project_fixed_paths project_example_paths
        (project_paths (includeExamples a) (includeDocker a)).
Proof.
  unfold gated.
  destruct (includeExamples a), (includeDocker a); gated_cases.
Qed.

Lemma part001_paths_gated (a : ProjectAnswers) :
  gated a part001_fixed_paths part001_example_paths
        (part001_paths (includeExamples a) (includeDocker a)).
Proof.
  unfold gated.
  destruct (includeExamples a), (includeDocker a); gated_cases.
Qed.

(** C7: for every Options Model, valid or not, the relative paths written are a
    function of includeExamples and includeDocker alone: the example files
    are written exactly when includeExamples is set, the container files
    exactly when includeDocker is set, and every other artifact is written
    in any case.  Two models with the same gates get the same paths,
    whatever their database, storage and localStoragePath. *)
Theorem C7_paths_depend_on_gates_only (a b : ProjectAnswers) (w w' : World) :
  (artifact_paths (run (Project.generateProject a) w)
   = project_paths (includeExamples a) (includeDocker a)
   /\ gated a project_fixed_paths project_example_paths
            (artifact_paths (run (Project.generateProject a) w))
   /\ artifact_paths (run (Part001.generateProject a) w)
      = part001_paths (includeExamples a) (includeDocker a)
   /\ gated a part001_fixed_paths part001_example_paths
            (artifact_paths (run (Part001.generateProject a) w)))
  /\ (includeExamples a = includeExamples b ->
      includeDocker a = includeDocker b ->
      artifact_paths (run (Project.generateProject a) w)
      = artifact_paths (run (Project.generateProject b) w')
      /\ artifact_paths (run (Part001.generateProject a) w)
         = artifact_paths (run (Part001.generateProject b) w')).
Proof.
  rewrite !Project_paths, !Part001_paths.
  split.
  - auto using project_paths_gated, part001_paths_gated.
  - intros -> ->. split; reflexivity.
Qed.

Lemma C7_paths_depend_on_gates_only_witness :
  includeExamples demo = includeExamples (with_storage "ovh" (with_database "postgresql" demo))
  /\ includeDocker demo = includeDocker (with_storage "ovh" (with_database "postgresql" demo))
  /\ artifact_paths (run (Project.generateProject demo) offline)
     = artifact_paths
         (run (Project.generateProject (with_storage "ovh" (with_database "postgresql" demo)))
              offline).
Proof.
  split; [reflexivity|]. split; [reflexivity|].
  apply (C7_paths_depend_on_gates_only
           demo (with_storage "ovh" (with_database "postgresql" demo)) offline offline);
    reflexivity.
Defined.

(** ** The scenario of the specification *)

Ltac not_in_names :=
  let H := fresh in
  intros H; vm_compute in H; intuition discriminate.

Lemma scenario_content_Project (w : World) :
  scenario_content "sqlite3" (artifacts (run (Project.generateProject demo) w)).
Proof.
  rewrite Project_artifacts. split.
  - exists (Project.packageJsonOf demo). split; [reflexivity|]. split.
    + apply (bool_decide_unpack _). vm_compute. exact I.
    + intros H. declares_no H.
  - exists (generateEnvFile demo), (Project.generateIndexFile demo).
    split; [reflexivity|]. split; [reflexivity|].
    split; [vm_compute; tauto|]. split; [vm_compute; reflexivity|].
    repeat split; not_in_names.
Qed.

Lemma scenario_content_Part001 (w : World) :
  scenario_content "better-sqlite3" (artifacts (run (Part001.generateProject demo) w)).
Proof.
  rewrite Part001_artifacts. split.
  - exists (Part001.packageJsonOf (core_version w) (cli_version w) demo).
    split; [reflexivity|]. split.
    + apply (bool_decide_unpack _). vm_compute. exact I.
    + intros H. declares_no H.
  - exists (generateEnvFile demo), (Part001.generateIndexFile demo).
    split; [reflexivity|]. split; [reflexivity|].
    split; [vm_compute; tauto|]. split; [vm_compute; reflexivity|].
    repeat split; not_in_names.
Qed.

(** C4, as stated, fails: for the scenario's Options Model the generator
    writes seven artifacts, not six.  The seventh is the command-line file,
    [src/dt-cli.ts] in project.ts and [dt.js] in part_001. *)
Lemma C4_six_artifacts_counterexample :
  artifact_paths (run (Project.generateProject demo) offline) <> scenario_six_paths
  /\ length (artifact_paths (run (Project.generateProject demo) offline)) <> 6
  /\ artifact_paths (run (Part001.generateProject demo) offline) <> scenario_six_paths
  /\ length (artifact_paths (run (Part001.generateProject demo) offline)) <> 6.
Proof.
  rewrite Project_paths, Part001_paths.
  repeat split; vm_compute; discriminate.
Qed.

(** C4, amended: for the scenario's Options Model the generator writes
    exactly seven artifacts, the six the scenario lists and the command-line
    file ([src/dt-cli.ts] in project.ts, [dt.js] in part_001); the manifest's
    dependency map has the embedded-database driver and does not declare the
    PostgreSQL driver; the environment template assigns DB_PATH, which the
    entry point's schema declares optional, and assigns none of DB_HOST,
    DB_USER and DB_PASSWORD. *)
Theorem C4_demo_scenario (w : World) :
  artifact_paths (run (Project.generateProject demo) w)
  = [["package.json"]; ["src"; "index.ts"]; ["src"; "dt-cli.ts"]; ["tsconfig.json"];
     [".env"]; [".gitignore"]; ["README.md"]]
  /\ scenario_content "sqlite3" (artifacts (run (Project.generateProject demo) w))
  /\ artifact_paths (run (Part001.generateProject demo) w)
     = [["package.json"]; ["src"; "index.ts"]; ["tsconfig.json"]; [".env"]; [".gitignore"];
        ["README.md"]; ["dt.js"]]
  /\ scenario_content "better-sqlite3" (artifacts (run (Part001.generateProject demo) w)).
Proof.
  split; [rewrite Project_paths; reflexivity|].
  split; [apply scenario_content_Project|].
  split; [rewrite Part001_paths; reflexivity|].
  apply scenario_content_Part001.
Qed.

(** ** Determinism *)



(** ** Environment variables: template against schema *)

Lemma env_names_expected_schema (a : ProjectAnswers) :
  map fst (schema_expected a) = env_names_expected a.
Proof.
  unfold schema_expected, env_names_expected.
  destruct (String.eqb (database a) "postgresql"), (String.eqb (storage a) "local"),
    (useRedis a); reflexivity.
Qed.

Lemma env_names_expected_no_node_env (a : ProjectAnswers) :
  ~ In "NODE_ENV" (env_names_expected a) /\ ~ In "LOG_LEVEL" (env_names_expected a).
Proof.
  unfold env_names_expected.
  destruct (String.eqb (database a) "postgresql"), (String.eqb (storage a) "local"),
    (useRedis a); split; not_in_names.
Qed.

(** C1, as stated, fails: for the scenario's Options Model the template
    assigns NODE_ENV, which the entry point's schema does not declare, so
    the two sets of names differ. *)
Lemma C1_env_schema_counterexample :
  valid_answers demo = true
  /\ In "NODE_ENV" (env_names (generateEnvFile demo))
  /\ ~ In "NODE_ENV" (schema_names (Project.generateIndexFile demo))
  /\ (list_to_set (schema_names (Project.generateIndexFile demo)) : gset string)
     <> list_to_set (env_names (generateEnvFile demo)).
Proof.
  split; [reflexivity|].
  split; [vm_compute; tauto|].
  split; [not_in_names|].
  intros H.
  assert (Hin : "NODE_ENV" ∈ (list_to_set (env_names (generateEnvFile demo)) : gset string)).
  { apply (bool_decide_unpack _). vm_compute. exact I. }
  rewrite <- H in Hin.
  pose proof (bool_decide_pack _ Hin) as H'. vm_compute in H'. destruct H'.
Qed.

(** C1, amended: for every valid Options Model every name the entry point's
    schema declares is assigned in the environment template, and the
    template assigns exactly those names and, after them, NODE_ENV and
    LOG_LEVEL, which the schema does not declare.  The entry point of
    part_001 declares the same names as that of project.ts. *)
Theorem C1_env_schema_consistency (a : ProjectAnswers) :
  valid_answers a = true ->
  env_names (generateEnvFile a)
  = (schema_names (Project.generateIndexFile a) ++ ["NODE_ENV"; "LOG_LEVEL"])%list
  /\ (list_to_set (env_names (generateEnvFile a)) : gset string)
     = list_to_set (schema_names (Project.generateIndexFile a)) ∪ {["NODE_ENV"; "LOG_LEVEL"]}
  /\ (forall v, In v (schema_names (Project.generateIndexFile a)) ->
                In v (env_names (generateEnvFile a)))
  /\ ~ In "NODE_ENV" (schema_names (Project.generateIndexFile a))
  /\ ~ In "LOG_LEVEL" (schema_names (Project.generateIndexFile a))
  /\ schema_names (Part001.generateIndexFile a) = schema_names (Project.generateIndexFile a).
Proof.
  intros Hv. apply valid_answers_inv in Hv as (Hn & Hp & _ & _).
  unfold schema_names.
  rewrite (env_names_generateEnvFile a Hn Hp), (schema_entries_Project a Hn Hp),
    (schema_entries_Part001 a Hn Hp), env_names_expected_schema.
  split; [reflexivity|]. split.
  - rewrite list_to_set_app_L. apply (f_equal (union _)). vm_compute. reflexivity.
  - split; [intros v Hin; apply in_or_app; left; exact Hin|].
    pose proof (env_names_expected_no_node_env a) as [H1 H2]. auto.
Qed.

Lemma C1_env_schema_consistency_witness :
  valid_answers demo = true
  /\ env_names (generateEnvFile demo)
     = (schema_names (Project.generateIndexFile demo) ++ ["NODE_ENV"; "LOG_LEVEL"])%list.
Proof.
  split; [reflexivity|].
  destruct (C1_env_schema_consistency demo) as [H _]; [reflexivity|exact H].
Defined.

(** C10: the environment template of every Options Model ends with the
    fixed lines that assign NODE_ENV=development and LOG_LEVEL=info; and for
    every valid Options Model neither name is declared by the validation
    schema of the entry point, in project.ts and in part_001 alike. *)
Theorem C10_env_tail (a : ProjectAnswers) :
  (exists before, generateEnvFile a = before +:+ env_tail)
  /\ (valid_answers a = true ->
      (exists names, env_names (generateEnvFile a)
                     = (names ++ ["NODE_ENV"; "LOG_LEVEL"])%list)
      /\ ~ In "NODE_ENV" (schema_names (Project.generateIndexFile a))
      /\ ~ In "LOG_LEVEL" (schema_names (Project.generateIndexFile a))
      /\ ~ In "NODE_ENV" (schema_names (Part001.generateIndexFile a))
      /\ ~ In "LOG_LEVEL" (schema_names (Part001.generateIndexFile a))).
Proof.
  split.
  - unfold generateEnvFile. cbv zeta. eexists. reflexivity.
  - intros Hv. apply valid_answers_inv in Hv as (Hn & Hp & _ & _).
    unfold schema_names.
    rewrite (env_names_generateEnvFile a Hn Hp), (schema_entries_Project a Hn Hp),
      (schema_entries_Part001 a Hn Hp), env_names_expected_schema.
    pose proof (env_names_expected_no_node_env a) as [H1 H2].
    split; [eexists; reflexivity|]. auto.
Qed.

Lemma C10_env_tail_witness :
  valid_answers demo = true
  /\ ~ In "NODE_ENV" (schema_names (Project.generateIndexFile demo)).
Proof.
  split; [reflexivity|].
  destruct (C10_env_tail demo) as [_ H].
  destruct H as (_ & H & _); [reflexivity|exact H].
Defined.

(** ** The composition file *)






(** ** The guide *)

Lemma steps_expected_numbering (a : ProjectAnswers) (guide : string) :
  (database a = "sqlite" \/ database a = "postgresql") ->
  guide_steps guide = steps_expected a ->
  guide_numbering 3 a guide.
Proof.
  intros Hdb Hg. unfold guide_numbering, step_numbers, step_number_of.
  rewrite Hg. unfold steps_expected, optional_steps.
  destruct a as [n pp db st lsp redis docker ex]. simpl in Hdb. answers_fields.
  destruct Hdb as [-> | ->], redis;
    repeat split; intros; try reflexivity; try discriminate; try congruence;
    try (exfalso; match goal with H : _ <> _ |- _ => apply H; reflexivity end).
Qed.

(** C3, as stated, fails: with sqlite and without Redis no optional step is
    present and the start-server step is numbered 3, not 2. *)
Lemma C3_start_step_counterexample :
  valid_answers demo = true
  /\ optional_steps demo = 0
  /\ step_number_of start_server_title (Project.readmeContent demo) = Some 3
  /\ step_number_of start_server_title (Project.readmeContent demo)
     <> Some (2 + optional_steps demo)
  /\ step_number_of start_server_title (Part001.readmeContent demo)
     <> Some (2 + optional_steps demo).
Proof.
  repeat split; try (vm_compute; reflexivity); vm_compute; discriminate.
Qed.

(** C3, amended: for every valid Options Model, hence for the four
    combinations of database and useRedis, the numbered steps of the guide
    are 1, 2, ... without gap or repetition; the database step is present
    exactly for postgresql and the queue step exactly with useRedis; and the
    start-server step is the last one, numbered 3 plus the count of optional
    steps present.  The guide of part_002 has the text of project.ts. *)
Theorem C3_guide_step_numbering (a : ProjectAnswers) :
  valid_answers a = true ->
  guide_numbering 3 a (Project.readmeContent a)
  /\ guide_numbering 3 a (Part001.readmeContent a).
Proof.
  intros Hv. apply valid_answers_inv in Hv as (Hn & Hp & Hdb & _).
  split; apply steps_expected_numbering; auto using guide_steps_Project, guide_steps_Part001.
Qed.

Lemma C3_guide_step_numbering_witness :
  valid_answers demo = true
  /\ guide_numbering 3 demo (Project.readmeContent demo)
  /\ guide_numbering 3 demo (Part001.readmeContent demo).
Proof.
  split; [reflexivity|].
  apply (C3_guide_step_numbering demo). reflexivity.
Defined.

(** ** Values outside the enums *)

Lemma eqb_false_of_neq (s t : string) : s <> t -> String.eqb s t = false.
Proof. intros H. apply String.eqb_neq, H. Qed.

Ltac selector_eq H :=
  cbv beta iota zeta delta [with_database with_storage projectName projectPath database
                              storage localStoragePath useRedis includeDocker includeExamples];
  rewrite H; reflexivity.

(** Every selector tests the database with [=== 'postgresql'] only. *)
Lemma database_else_branch (d : string) (a : ProjectAnswers) :
  d <> "postgresql" ->
  same_texts (with_database d a) (with_database "sqlite" a)
  /\ same_manifests (with_database d a) (with_database "sqlite" a)
  /\ dockerComposeContent (with_database d a) = dockerComposeContent (with_database "sqlite" a).
Proof.
  intros H. apply eqb_false_of_neq in H.
  unfold same_texts, same_manifests.
  repeat split; intros;
    [ unfold generateEnvFile | unfold Project.generateIndexFile
    | unfold Project.generateCliFile | unfold Project.readmeContent
    | unfold Part001.generateIndexFile | unfold Part001.readmeContent
    | unfold Project.packageJsonOf | unfold Part001.packageJsonOf
    | unfold dockerComposeContent ];
    selector_eq H.
Qed.

(** The text selectors test the storage with [=== 'local'] only. *)
Lemma storage_else_branch (s : string) (a : ProjectAnswers) :
  s <> "local" -> same_texts (with_storage s a) (with_storage "ovh" a).
Proof.
  intros H. apply eqb_false_of_neq in H.
  unfold same_texts.
  repeat split;
    [ unfold generateEnvFile | unfold Project.generateIndexFile
    | unfold Project.generateCliFile | unfold Project.readmeContent
    | unfold Part001.generateIndexFile | unfold Part001.readmeContent ];
    selector_eq H.
Qed.

(** The manifest tests the storage with [=== 'ovh'] only. *)
Lemma storage_manifest_else_branch (s : string) (a : ProjectAnswers) :
  s <> "ovh" -> same_manifests (with_storage s a) (with_storage "local" a).
Proof.
  intros H. apply eqb_false_of_neq in H.
  unfold same_manifests.
  split; intros; [unfold Project.packageJsonOf | unfold Part001.packageJsonOf];
    selector_eq H.
Qed.

Lemma Project_artifacts_database (d : string) (a : ProjectAnswers) (w : World) :
  d <> "postgresql" ->
  artifacts (run (Project.generateProject (with_database d a)) w)
  = artifacts (run (Project.generateProject (with_database "sqlite" a)) w).
Proof.
  intros H.
  destruct (database_else_branch d a H) as ((He & Hi & Hc & Hr & _ & _) & (Hm & _) & Hd).
  rewrite !Project_artifacts. unfold project_artifacts.
  rewrite He, Hi, Hc, Hr, Hm, Hd. reflexivity.
Qed.

Lemma Part001_artifacts_database (d : string) (a : ProjectAnswers) (w : World) :
  d <> "postgresql" ->
  artifacts (run (Part001.generateProject (with_database d a)) w)
  = artifacts (run (Part001.generateProject (with_database "sqlite" a)) w).
Proof.
  intros H.
  destruct (database_else_branch d a H) as ((He & _ & _ & _ & Hi & Hr) & (_ & Hm) & Hd).
  rewrite !Part001_artifacts. unfold part001_artifacts.
  rewrite He, Hi, Hr, Hm, Hd. reflexivity.
Qed.

(** C6, as stated, fails: with database 'mysql', outside the enum, the
    generator raises nothing and writes every artifact, with the sqlite
    fragments; with storage 's3' it writes the object-storage fragments into
    the entry point and leaves the object-storage client out of the
    manifest. *)
Lemma C6_invalid_enum_counterexample :
  valid_answers (with_database "mysql" demo) = false
  /\ artifact_paths (run (Project.generateProject (with_database "mysql" demo)) offline)
     = project_paths false false
  /\ "sqlite3" ∈ dom (dependencies (Project.packageJsonOf (with_database "mysql" demo)))
  /\ In "DB_PATH" (env_names (generateEnvFile (with_database "mysql" demo)))
  /\ valid_answers (with_storage "s3" demo) = false
  /\ In "OVH_BUCKET" (schema_names (Project.generateIndexFile (with_storage "s3" demo)))
  /\ ~ declares (Project.packageJsonOf (with_storage "s3" demo)) "@aws-sdk/client-s3".
Proof.
  split; [reflexivity|].
  split; [rewrite Project_paths; reflexivity|].
  split; [apply (bool_decide_unpack _); vm_compute; exact I|].
  split; [vm_compute; tauto|].
  split; [reflexivity|].
  split; [vm_compute; tauto|].
  intros H. declares_no H.
Qed.

(** C6, amended: the generator does not validate the Options Model; the
    enum ranges are those of the [ProjectAnswers] type only, no selector
    raises an error, and every run, on a valid model or not, writes its
    manifest.  A database value other than 'postgresql' generates exactly
    what 'sqlite' generates, in every artifact.  A storage value other than
    'local' makes every text selector produce what 'ovh' produces, and a
    storage value other than 'ovh' makes the manifest what 'local' makes
    it. *)
Theorem C6_enum_else_branches (a : ProjectAnswers) (d s : string) (w : World) :
  manifest_of (artifacts (run (Project.generateProject a) w))
  = Some (Project.packageJsonOf a)
  /\ manifest_of (artifacts (run (Part001.generateProject a) w))
     = Some (Part001.packageJsonOf (core_version w) (cli_version w) a)
  /\ (d <> "postgresql" ->
      artifacts (run (Project.generateProject (with_database d a)) w)
      = artifacts (run (Project.generateProject (with_database "sqlite" a)) w)
      /\ artifacts (run (Part001.generateProject (with_database d a)) w)
         = artifacts (run (Part001.generateProject (with_database "sqlite" a)) w))
  /\ (s <> "local" -> same_texts (with_storage s a) (with_storage "ovh" a))
  /\ (s <> "ovh" -> same_manifests (with_storage s a) (with_storage "local" a)).
Proof.
  split; [|split; [|split; [|split]]].
  - rewrite Project_artifacts. unfold project_artifacts.
    destruct (includeExamples a), (includeDocker a); reflexivity.
  - rewrite Part001_artifacts. unfold part001_artifacts.
    destruct (includeExamples a), (includeDocker a); reflexivity.
  - intros H. split; [apply Project_artifacts_database | apply Part001_artifacts_database];
      exact H.
  - apply storage_else_branch.
  - apply storage_manifest_else_branch.
Qed.

Lemma C6_enum_else_branches_witness :
  "mysql" <> "postgresql"
  /\ "s3" <> "local"
  /\ "s3" <> "ovh"
  /\ artifacts (run (Project.generateProject (with_database "mysql" demo)) offline)
     = artifacts (run (Project.generateProject (with_database "sqlite" demo)) offline)
  /\ same_texts (with_storage "s3" demo) (with_storage "ovh" demo)
  /\ same_manifests (with_storage "s3" demo) (with_storage "local" demo).
Proof.
  assert (H1 : "mysql" <> "postgresql") by discriminate.
  assert (H2 : "s3" <> "local") by discriminate.
  assert (H3 : "s3" <> "ovh") by discriminate.
  destruct (C6_enum_else_branches demo "mysql" "s3" offline) as (_ & _ & Hd & Ht & Hm).
  split; [exact H1|]. split; [exact H2|]. split; [exact H3|].
  split; [exact (proj1 (Hd H1))|].
  split; [exact (Ht H2) | exact (Hm H3)].
Defined.

(** ** The command-line file *)




(** * Further properties of the generators *)

(** ** Lines with holes *)

Lemma snoc_append (s r : string) (c : ascii) : snoc s c +:+ r = s +:+ String c r.
Proof.
  induction s as [|d s IH]; [reflexivity|].
  change (String d (snoc s c +:+ r) = String d (s +:+ String c r)).
  f_equal. exact IH.
Qed.

Lemma append_empty_r (s : string) : s +:+ "" = s.
Proof.
  induction s as [|d s IH]; [reflexivity|].
  change (String d (s +:+ "") = String d s). f_equal. exact IH.
Qed.

Lemma line_capture_hole (prefix acc : string) (out : list string) (h : string) :
  single_line h = true ->
  string_fold (line_step prefix) (LCapture acc, out) h = (LCapture (acc +:+ h), out).
Proof.
  revert acc. induction h as [|c r IH]; intros acc H; simpl.
  - rewrite append_empty_r. reflexivity.
  - unfold single_line in H. simpl in H. apply andb_true_iff in H as [Hc Hr].
    apply negb_true_iff in Hc. unfold line_step at 2. rewrite Hc.
    rewrite (IH (snoc acc c) Hr), snoc_append. reflexivity.
Qed.

Lemma single_line_answers_inv (a : ProjectAnswers) :
  single_line_answers a = true ->
  single_line (projectName a) = true
  /\ single_line (js_or (localStoragePath a) "./uploads") = true.
Proof. unfold single_line_answers. intros H. apply andb_true_iff in H. exact H. Qed.

Lemma valid_single_line_answers (a : ProjectAnswers) :
  valid_answers a = true -> single_line_answers a = true.
Proof.
  intros H. apply valid_answers_inv in H as (Hn & Hp & _).
  unfold single_line_answers. rewrite Hn, Hp. reflexivity.
Qed.


(** ** Lines of a text with holes and choices *)

Lemma append_snoc (s1 s2 : string) (c : ascii) : s1 +:+ snoc s2 c = snoc (s1 +:+ s2) c.
Proof.
  induction s1 as [|d s1 IH]; [reflexivity|].
  change (String d (s1 +:+ snoc s2 c) = String d (snoc (s1 +:+ s2) c)).
  f_equal. exact IH.
Qed.

Lemma pieces_text_push_char (holes : list string) (ps : list Piece) (c : ascii) :
  pieces_text holes (push_char ps c) = snoc (pieces_text holes ps) c.
Proof.
  destruct ps as [|[s|i] r]; simpl; try reflexivity.
  apply append_snoc.
Qed.

Lemma concrete_sym_match (holes : list string) (rest : string) (c : ascii) :
  concrete_mode holes (sym_match rest c) = line_match rest c.
Proof.
  destruct rest as [|p [|q rest]]; simpl; try reflexivity;
    destruct (Ascii.eqb c p); reflexivity.
Qed.

Lemma concrete_sym_flush (holes : list string) (st : SymMode * list (list Piece)) :
  map (pieces_text holes) (sym_flush st) = line_flush (concrete holes st).
Proof.
  destruct st as [[| | |] out]; simpl; try reflexivity.
  rewrite map_app. reflexivity.
Qed.

Lemma concrete_sym_step (prefix : string) (holes : list string)
    (st : SymMode * list (list Piece)) (c : ascii) :
  concrete holes (sym_step prefix st c) = line_step prefix (concrete holes st) c.
Proof.
  unfold sym_step, line_step. destruct (Ascii.eqb c LF).
  - unfold concrete at 1. simpl. rewrite concrete_sym_flush. reflexivity.
  - destruct st as [[|rest|ps|] out]; simpl.
    + destruct (Ascii.eqb c " "); [reflexivity|].
      unfold concrete. simpl. rewrite concrete_sym_match. reflexivity.
    + unfold concrete. simpl. rewrite concrete_sym_match. reflexivity.
    + unfold concrete. simpl. rewrite pieces_text_push_char. reflexivity.
    + reflexivity.
Qed.

Lemma concrete_string_fold (prefix : string) (holes : list string) (s : string) :
  forall st,
    concrete holes (string_fold (sym_step prefix) st s)
    = string_fold (line_step prefix) (concrete holes st) s.
Proof.
  induction s as [|c r IH]; intros st; simpl; [reflexivity|].
  rewrite IH, concrete_sym_step. reflexivity.
Qed.

Lemma concrete_sym_hole (prefix : string) (holes : list string) (i : nat)
    (st st' : SymMode * list (list Piece)) :
  single_line (hole_text holes i) = true ->
  sym_hole i st = Some st' ->
  string_fold (line_step prefix) (concrete holes st) (hole_text holes i) = concrete holes st'.
Proof.
  intros Hh. destruct st as [[| |ps|] out]; simpl; try discriminate; intros [= <-].
  - unfold concrete. simpl. apply line_capture_hole, Hh.
  - apply string_fold_fixed; [|exact Hh].
    intros c Hc. unfold concrete, line_step. simpl. rewrite Hc. reflexivity.
Qed.

Lemma tree_eval_node (conds : list bool) (b : nat) (l r : Tree) :
  tree_eval conds (node b l r) = tree_eval conds (Node b l r).
Proof.
  unfold node. case_bool_decide as H; [|reflexivity].
  subst r. simpl. destruct (cond conds b); reflexivity.
Qed.

Lemma tree_eval_restrict (conds : list bool) (b : nat) (t : Tree) :
  tree_eval conds (restrict b (cond conds b) t) = tree_eval conds t.
Proof.
  induction t as [st|b' l IHl r IHr]; simpl; [reflexivity|].
  destruct (Nat.eqb_spec b b') as [<-|Hne].
  - destruct (cond conds b); assumption.
  - rewrite tree_eval_node. simpl. rewrite IHl, IHr. reflexivity.
Qed.

Lemma tree_map_eval (conds : list bool)
    (g : SymMode * list (list Piece) -> option (SymMode * list (list Piece)))
    (t t' : Tree) :
  tree_map g t = Some t' ->
  g (tree_eval conds t) = Some (tree_eval conds t').
Proof.
  revert t'. induction t as [st|b l IHl r IHr]; intros t'; simpl.
  - destruct (g st); simpl; [|discriminate]. intros [= <-]. reflexivity.
  - destruct (tree_map g l) as [l'|]; [|discriminate].
    destruct (tree_map g r) as [r'|]; [|discriminate].
    intros [= <-]. rewrite tree_eval_node. simpl.
    destruct (cond conds b); auto.
Qed.

Section ScanChoice.
Context (prefix : string) (conds : list bool) (holes : list string).
Hypothesis holes_single_line : Forall (fun h => single_line h = true) holes.

Lemma hole_text_single_line (i : nat) : single_line (hole_text holes i) = true.
Proof.
  unfold hole_text. destruct (nth_in_or_default i holes "") as [Hin | ->]; [|reflexivity].
  rewrite Forall_forall in holes_single_line. apply holes_single_line.
  apply list_elem_of_In, Hin.
Qed.

(** The reader over the tree gives the states that [line_step] reaches over
    the text. *)
Lemma scan_choice_sound (t : Choice) :
  forall tr tr',
    scan_choice prefix tr t = Some tr' ->
    string_fold (line_step prefix) (concrete holes (tree_eval conds tr))
      (choice_text conds holes t)
    = concrete holes (tree_eval conds tr').
Proof.
  induction t as [s|i|t1 IH1 t2 IH2|b t1 IH1 t2 IH2]; intros tr tr' Hrun; simpl in *.
  - apply (tree_map_eval conds) in Hrun. injection Hrun as <-.
    symmetry. apply concrete_string_fold.
  - apply (tree_map_eval conds) in Hrun.
    apply concrete_sym_hole; [apply hole_text_single_line | exact Hrun].
  - destruct (scan_choice prefix tr t1) as [tr1|] eqn:E1; [|discriminate].
    rewrite string_fold_app, (IH1 _ _ E1). apply IH2, Hrun.
  - destruct (scan_choice prefix (restrict b true tr) t1) as [l|] eqn:E1; [|discriminate].
    destruct (scan_choice prefix (restrict b false tr) t2) as [r|] eqn:E2; [|discriminate].
    injection Hrun as <-. rewrite tree_eval_node. simpl.
    destruct (cond conds b) eqn:Hb.
    + rewrite <- (tree_eval_restrict conds b tr), Hb, (IH1 _ _ E1).
      rewrite <- (tree_eval_restrict conds b l) at 1. rewrite Hb. reflexivity.
    + rewrite <- (tree_eval_restrict conds b tr), Hb, (IH2 _ _ E2).
      rewrite <- (tree_eval_restrict conds b r) at 1. rewrite Hb. reflexivity.
Qed.

Lemma tree_lines_eval (t : Tree) :
  tree_lines conds holes t = line_flush (concrete holes (tree_eval conds t)).
Proof.
  induction t as [st|b l IHl r IHr]; simpl.
  - apply concrete_sym_flush.
  - destruct (cond conds b); assumption.
Qed.

(** The lines of a text with holes and choices, read off the tree. *)
Lemma lines_after_choice (t : Choice) (tr : Tree) :
  scan_choice prefix (Leaf (SymIndent, [])) t = Some tr ->
  lines_after prefix (choice_text conds holes t) = tree_lines conds holes tr.
Proof.
  intros Hrun. unfold lines_after. rewrite tree_lines_eval.
  rewrite <- (scan_choice_sound t _ _ Hrun). reflexivity.
Qed.
End ScanChoice.

(** Reading a text expression as a [Choice]. *)
Ltac add_atom x l :=
  lazymatch l with
  | context [cons x _] => l
  | _ => constr:(cons x l)
  end.

Ltac index_of x l :=
  lazymatch l with
  | cons x _ => constr:(O)
  | cons _ ?r => let n := index_of x r in constr:(S n)
  end.

Ltac collect_conds s l :=
  lazymatch s with
  | String.append ?s1 ?s2 => let l1 := collect_conds s1 l in collect_conds s2 l1
  | (if ?c then ?x else ?y) =>
      let l0 := add_atom c l in
      let l1 := collect_conds x l0 in
      collect_conds y l1
  | _ => l
  end.

Ltac collect_holes s l :=
  lazymatch s with
  | String.append ?s1 ?s2 => let l1 := collect_holes s1 l in collect_holes s2 l1
  | (if ?c then ?x else ?y) => let l1 := collect_holes x l in collect_holes y l1
  | String _ _ => l
  | EmptyString => l
  | _ => add_atom s l
  end.

Ltac reify_choice conds holes s :=
  lazymatch s with
  | String.append ?s1 ?s2 =>
      let t1 := reify_choice conds holes s1 in
      let t2 := reify_choice conds holes s2 in
      constr:(CCat t1 t2)
  | (if ?c then ?x else ?y) =>
      let b := index_of c conds in
      let t1 := reify_choice conds holes x in
      let t2 := reify_choice conds holes y in
      constr:(CIf b t1 t2)
  | String _ _ => constr:(CLit s)
  | EmptyString => constr:(CLit s)
  | _ => let i := index_of s holes in constr:(CHole i)
  end.

(** Replace [lines_after prefix text] in the goal by the lines read. *)
Ltac read_lines_after :=
  match goal with
  | |- context [lines_after ?p (choice_text ?conds ?holes ?t)] =>
      erewrite (lines_after_choice p conds holes);
      [ | repeat constructor; assumption | vm_compute; reflexivity ];
      cbv beta iota delta [tree_lines cond nth map sym_flush app pieces_text piece_text
                             hole_text fst snd]
  | |- context [lines_after ?p ?s] =>
      let conds := collect_conds s (@nil bool) in
      let holes := collect_holes s (@nil string) in
      let t := reify_choice conds holes s in
      change s with (choice_text conds holes t);
      erewrite (lines_after_choice p conds holes);
      [ | repeat constructor; assumption | vm_compute; reflexivity ];
      cbv beta iota delta [tree_lines cond nth map sym_flush app pieces_text piece_text
                             hole_text fst snd]
  end.

Ltac unfold_text :=
  cbv beta zeta delta [generateEnvFile dockerComposeContent
                         Project.generateIndexFile Project.generateCliFile Project.readmeContent
                         Part001.generateIndexFile Part001.readmeContent
                         Part002.generateIndexFile Part002.generateCliFile Part002.readmeContent
                         dq].


(** ** The artifacts of [Part002] *)

Lemma Part002_artifacts (a : ProjectAnswers) (w : World) :
  artifacts (run (Part002.generateProject a) w) = part002_artifacts a.
Proof.
  unfold part002_artifacts.
  destruct (includeExamples a) eqn:Hex, (includeDocker a) eqn:Hd;
    unfold run, Part002.generateProject; rewrite Hex, Hd; reflexivity.
Qed.

(** ** The order of the effects *)

(** The trace of a run, with the contents left as they are. *)
Ltac trace_only :=
  cbv beta iota zeta delta
    [run when console_log console_warn ensureDir writeFile writeJson emit fetch_json
     mbind io_bind mret io_ret snd fst app path_join join rel root effect_path
     Project.generateProject Project.generatePackageJson Project.generateAppFiles
     Project.generateExampleComponents Project.generateReadme
     Part001.generateProject Part001.generatePackageJson Part001.generateAppFiles
     Part001.generateExampleComponents Part001.generateReadme Part001.generateDtCli
     Part002.generateProject Part002.generatePackageJson Part002.generateAppFiles
     Part002.generateExampleComponents Part002.generateReadme
     generateConfigFiles generateDockerFiles].

Ltac below_trace := trace_only; repeat constructor.

Lemma Project_effects (a : ProjectAnswers) (w : World) :
  writes_into_ensured [] (run (Project.generateProject a) w) = true
  /\ below (projectPath a) (run (Project.generateProject a) w).
Proof.
  unfold below.
  destruct (includeExamples a) eqn:Hex, (includeDocker a) eqn:Hd;
    unfold run, Project.generateProject; rewrite Hex, Hd;
    (split; [reflexivity | below_trace]).
Qed.

Lemma Part002_effects (a : ProjectAnswers) (w : World) :
  writes_into_ensured [] (run (Part002.generateProject a) w) = true
  /\ below (projectPath a) (run (Part002.generateProject a) w).
Proof.
  unfold below.
  destruct (includeExamples a) eqn:Hex, (includeDocker a) eqn:Hd;
    unfold run, Part002.generateProject; rewrite Hex, Hd;
    (split; [reflexivity | below_trace]).
Qed.

Lemma Part001_effects (a : ProjectAnswers) (w : World) :
  writes_into_ensured [] (run (Part001.generateProject a) w) = true
  /\ below (projectPath a) (run (Part001.generateProject a) w).
Proof.
  unfold below.
  unfold run, Part001.generateProject, Part001.generatePackageJson,
    Part001.getLatestDigitalTwinCoreVersion, Part001.getLatestDigitalTwinCliVersion,
    fetch_json, mbind, io_bind.
  destruct (includeExamples a), (includeDocker a),
    (registry w "https://registry.npmjs.org/digitaltwin-core/latest"),
    (registry w "https://registry.npmjs.org/digitaltwin-cli/latest");
    (split; [reflexivity | below_trace]).
Qed.

(** X1: in every run of the three revisions, for every Options Model and
    every answer of the registry, each file is written into a directory
    that an earlier [ensureDir] of the run created, and every directory and
    file is below [projectPath]. *)
Theorem X1_directories_before_files (a : ProjectAnswers) (w : World) :
  (writes_into_ensured [] (run (Project.generateProject a) w) = true
   /\ below (projectPath a) (run (Project.generateProject a) w))
  /\ (writes_into_ensured [] (run (Part001.generateProject a) w) = true
      /\ below (projectPath a) (run (Part001.generateProject a) w))
  /\ (writes_into_ensured [] (run (Part002.generateProject a) w) = true
      /\ below (projectPath a) (run (Part002.generateProject a) w)).
Proof.
  split; [apply Project_effects | split].
  - apply Part001_effects.
  - apply Part002_effects.
Qed.

(** ** Each file once *)

Lemma Part002_paths (a : ProjectAnswers) (w : World) :
  artifact_paths (run (Part002.generateProject a) w)
  = ([["package.json"]; ["src"; "index.ts"]; ["src"; "dt-cli.ts"]; ["tsconfig.json"];
      [".env"]; [".gitignore"]]
     ++ (if includeExamples a then part001_example_paths else [])
     ++ (if includeDocker a then container_paths else [])
     ++ [["README.md"]])%list.
Proof.
  unfold artifact_paths. rewrite Part002_artifacts. unfold part002_artifacts.
  destruct (includeExamples a), (includeDocker a); reflexivity.
Qed.

(** X2: no run writes a path twice, so the content of a path is the
    content of its one write; a run writes seven files, the example files
    when includeExamples is set (three in project.ts, two in part_001 and
    part_002) and two container files when includeDocker is set. *)
Theorem X2_each_path_written_once (a : ProjectAnswers) (w : World) :
  (NoDup (artifact_paths (run (Project.generateProject a) w))
   /\ length (artifacts (run (Project.generateProject a) w)) = file_count 3 a)
  /\ (NoDup (artifact_paths (run (Part001.generateProject a) w))
      /\ length (artifacts (run (Part001.generateProject a) w)) = file_count 2 a)
  /\ (NoDup (artifact_paths (run (Part002.generateProject a) w))
      /\ length (artifacts (run (Part002.generateProject a) w)) = file_count 2 a).
Proof.
  rewrite Project_paths, Part001_paths, Part002_paths,
    Project_artifacts, Part001_artifacts, Part002_artifacts.
  unfold project_artifacts, part001_artifacts, part002_artifacts, file_count.
  destruct (includeExamples a), (includeDocker a);
    repeat split; try reflexivity; apply (bool_decide_unpack _); vm_compute; exact I.
Qed.

(** ** What the generated sources import *)

Ltac by_cases :=
  repeat match goal with
  | |- context [if ?c then _ else _] => destruct c
  end;
  vm_compute; reflexivity.

Ltac one_line H :=
  apply single_line_answers_inv in H; destruct H as [?Hn ?Hp].

Lemma Project_index_import_lines (a : ProjectAnswers) :
  single_line_answers a = true ->
  lines_after "import " (Project.generateIndexFile a)
  = (["{ DigitalTwinEngine, KnexDatabaseAdapter, Env } from 'digitaltwin-core'";
      if String.eqb (storage a) "local"
      then "{ LocalStorageService } from 'digitaltwin-core'"
      else "{ OvhS3StorageService } from 'digitaltwin-core'"]
     ++ if includeExamples a
        then ["{ RandomDataCollector, DataProcessor } from './components/index.js'"]
        else [])%list.
Proof. intros H. one_line H. unfold_text. read_lines_after. by_cases. Qed.

Lemma Part001_index_import_lines (a : ProjectAnswers) :
  single_line_answers a = true ->
  lines_after "import " (Part001.generateIndexFile a)
  = (["'dotenv/config'";
      "{ DigitalTwinEngine, KnexDatabaseAdapter, Env } from 'digitaltwin-core'";
      if String.eqb (storage a) "local"
      then "{ LocalStorageService } from 'digitaltwin-core'"
      else "{ OvhS3StorageService } from 'digitaltwin-core'"]
     ++ if includeExamples a
        then ["{ JSONPlaceholderCollector } from './components/index.js'"]
        else [])%list.
Proof. intros H. one_line H. unfold_text. read_lines_after. by_cases. Qed.

Lemma Part002_index_import_lines (a : ProjectAnswers) :
  single_line_answers a = true ->
  lines_after "import " (Part002.generateIndexFile a)
  = (["{ DigitalTwinEngine, KnexDatabaseAdapter, Env } from 'digitaltwin-core'";
      if String.eqb (storage a) "local"
      then "{ LocalStorageService } from 'digitaltwin-core'"
      else "{ OvhS3StorageService } from 'digitaltwin-core'"]
     ++ if includeExamples a
        then ["{ JSONPlaceholderCollector, DataProcessor } from './components/index.js'"]
        else [])%list.
Proof. intros H. one_line H. unfold_text. read_lines_after. by_cases. Qed.

Lemma Project_cli_import_modules (a : ProjectAnswers) :
  single_line_answers a = true ->
  imported_modules (Project.generateCliFile a)
  = ["digitaltwin-core"; "digitaltwin-core"; "commander"; "url"; "path"; "fs"].
Proof.
  intros H. one_line H. unfold imported_modules. unfold_text. read_lines_after. by_cases.
Qed.

Lemma Part002_cli_import_modules (a : ProjectAnswers) :
  single_line_answers a = true ->
  imported_modules (Part002.generateCliFile a)
  = ["digitaltwin-core"; "digitaltwin-core"; "commander"; "url"; "path"; "fs"].
Proof.
  intros H. one_line H. unfold imported_modules. unfold_text. read_lines_after. by_cases.
Qed.

(** The packages the generated sources name are in every manifest. *)
Lemma Project_base_declared (a : ProjectAnswers) :
  declares (Project.packageJsonOf a) "digitaltwin-core"
  /\ declares (Project.packageJsonOf a) "commander".
Proof.
  unfold Project.packageJsonOf.
  destruct (String.eqb (database a) "postgresql"), (useRedis a),
    (String.eqb (storage a) "ovh"); split; declares_yes.
Qed.

Lemma Part002_base_declared (a : ProjectAnswers) :
  declares (Part002.packageJsonOf a) "digitaltwin-core"
  /\ declares (Part002.packageJsonOf a) "commander".
Proof.
  unfold Part002.packageJsonOf.
  destruct (String.eqb (database a) "postgresql"), (useRedis a),
    (String.eqb (storage a) "ovh"); split; declares_yes.
Qed.

Lemma Part001_base_declared (v1 v2 : option string) (a : ProjectAnswers) :
  declares (Part001.packageJsonOf v1 v2 a) "digitaltwin-core"
  /\ declares (Part001.packageJsonOf v1 v2 a) "dotenv".
Proof.
  unfold Part001.packageJsonOf.
  destruct (String.eqb (database a) "postgresql"), (useRedis a),
    (String.eqb (storage a) "ovh"); split; declares_yes.
Qed.

(** An import resolves when the paths and the manifest of the run say so. *)
Lemma import_resolves_by (arts : list (list string * Content)) (paths : list (list string))
    (pkg : PackageJsonConfig) (n : nat) (dir : list string) (spec : string) :
  map fst arts = paths ->
  artifact_content arts ["package.json"] = Some (JsonDoc pkg n) ->
  match relative_target dir spec with
  | Some p => In p paths
  | None => In spec node_builtins \/ declares pkg (package_of spec)
  end ->
  import_resolves arts dir spec.
Proof.
  intros <- Hpkg H. unfold import_resolves.
  destruct (relative_target dir spec); [exact H | ].
  destruct H as [H | H]; [left; exact H | right; exists pkg, n; split; assumption].
Qed.

Lemma Project_manifest_content (a : ProjectAnswers) (w : World) :
  artifact_content (artifacts (run (Project.generateProject a) w)) ["package.json"]
  = Some (JsonDoc (Project.packageJsonOf a) 2).
Proof.
  rewrite Project_artifacts. unfold project_artifacts.
  destruct (includeExamples a), (includeDocker a); reflexivity.
Qed.

Lemma Part001_manifest_content (a : ProjectAnswers) (w : World) :
  artifact_content (artifacts (run (Part001.generateProject a) w)) ["package.json"]
  = Some (JsonDoc (Part001.packageJsonOf (core_version w) (cli_version w) a) 2).
Proof.
  rewrite Part001_artifacts. unfold part001_artifacts.
  destruct (includeExamples a), (includeDocker a); reflexivity.
Qed.

Lemma Part002_manifest_content (a : ProjectAnswers) (w : World) :
  artifact_content (artifacts (run (Part002.generateProject a) w)) ["package.json"]
  = Some (JsonDoc (Part002.packageJsonOf a) 2).
Proof.
  rewrite Part002_artifacts. unfold part002_artifacts.
  destruct (includeExamples a), (includeDocker a); reflexivity.
Qed.

(** One artifact of the list at a time. *)
Ltac each_artifact H :=
  simpl in H;
  repeat match type of H with
  | _ \/ _ => destruct H as [H | H]
  end;
  try contradiction;
  try discriminate H;
  injection H as ? ?; subst.

Ltac each_module H :=
  vm_compute in H;
  repeat match type of H with
  | _ \/ _ => destruct H as [H | H]
  end;
  try contradiction;
  subst.

Ltac not_source :=
  match goal with
  | H : is_source _ = true |- _ => vm_compute in H; discriminate H
  end.

Ltac resolve_target :=
  match goal with
  | |- match relative_target ?d ?s with _ => _ end =>
      let r := eval vm_compute in (relative_target d s) in
      change (relative_target d s) with r; cbv beta iota
  end.

Ltac resolves :=
  resolve_target;
  lazymatch goal with
  | |- In ?s node_builtins \/ declares _ (package_of ?s) =>
      first
        [ left; vm_compute; tauto
        | right;
          let q := eval vm_compute in (package_of s) in
          change (package_of s) with q;
          match goal with
          | H : declares ?pkg q |- declares ?pkg q => exact H
          end ]
  | |- In _ _ => vm_compute; tauto
  end.

Lemma Project_imports_resolve (a : ProjectAnswers) (w : World) :
  single_line_answers a = true ->
  imports_resolve (artifacts (run (Project.generateProject a) w)).
Proof.
  intros Hs p s Hin Hsrc m Hm.
  apply (import_resolves_by _ _ (Project.packageJsonOf a) 2 _ _ (Project_paths a w));
    [apply Project_manifest_content | ].
  rewrite Project_artifacts in Hin.
  pose proof (Project_index_import_lines a Hs) as Hi.
  pose proof (Project_cli_import_modules a Hs) as Hc.
  pose proof (Project_base_declared a) as [Hcore Hcmd].
  unfold imported_modules in *.
  unfold project_artifacts in Hin.
  destruct (includeExamples a), (includeDocker a), (String.eqb (storage a) "local");
    each_artifact Hin; try not_source;
    first [rewrite Hi in Hm | rewrite Hc in Hm | idtac];
    each_module Hm; resolves.
Qed.

Lemma Part001_imports_resolve (a : ProjectAnswers) (w : World) :
  single_line_answers a = true ->
  imports_resolve (artifacts (run (Part001.generateProject a) w)).
Proof.
  intros Hs p s Hin Hsrc m Hm.
  apply (import_resolves_by _ _ (Part001.packageJsonOf (core_version w) (cli_version w) a) 2
           _ _ (Part001_paths a w));
    [apply Part001_manifest_content | ].
  rewrite Part001_artifacts in Hin.
  pose proof (Part001_index_import_lines a Hs) as Hi.
  pose proof (Part001_base_declared (core_version w) (cli_version w) a) as [Hcore Hdot].
  unfold imported_modules in *.
  unfold part001_artifacts in Hin.
  destruct (includeExamples a), (includeDocker a), (String.eqb (storage a) "local");
    each_artifact Hin; try not_source;
    first [rewrite Hi in Hm | idtac];
    each_module Hm; resolves.
Qed.

Lemma Part002_imports_resolve (a : ProjectAnswers) (w : World) :
  single_line_answers a = true ->
  imports_resolve (artifacts (run (Part002.generateProject a) w)).
Proof.
  intros Hs p s Hin Hsrc m Hm.
  apply (import_resolves_by _ _ (Part002.packageJsonOf a) 2 _ _ (Part002_paths a w));
    [apply Part002_manifest_content | ].
  rewrite Part002_artifacts in Hin.
  pose proof (Part002_index_import_lines a Hs) as Hi.
  pose proof (Part002_cli_import_modules a Hs) as Hc.
  pose proof (Part002_base_declared a) as [Hcore Hcmd].
  unfold imported_modules in *.
  unfold part002_artifacts in Hin.
  destruct (includeExamples a), (includeDocker a), (String.eqb (storage a) "local");
    each_artifact Hin; try not_source;
    first [rewrite Hi in Hm | rewrite Hc in Hm | idtac];
    each_module Hm; resolves.
Qed.

(** X3: every import of every generated TypeScript or JavaScript file names
    a file the same run writes, a module of Node.js, or a package the
    manifest of the same run declares, in all three revisions, provided the
    project name and the storage path hold no line feed. *)
Theorem X3_imports_resolve (a : ProjectAnswers) (w : World) :
  single_line_answers a = true ->
  imports_resolve (artifacts (run (Project.generateProject a) w))
  /\ imports_resolve (artifacts (run (Part001.generateProject a) w))
  /\ imports_resolve (artifacts (run (Part002.generateProject a) w)).
Proof.
  intros Hs. split; [ | split].
  - apply Project_imports_resolve, Hs.
  - apply Part001_imports_resolve, Hs.
  - apply Part002_imports_resolve, Hs.
Qed.

Lemma X3_imports_resolve_witness :
  single_line_answers full_stack = true
  /\ imports_resolve (artifacts (run (Project.generateProject full_stack) offline))
  /\ In "./components/index.js"
        (imported_modules (Project.generateIndexFile full_stack)).
Proof.
  split; [reflexivity | split].
  - destruct (X3_imports_resolve full_stack offline) as [H _]; [reflexivity | exact H].
  - vm_compute. tauto.
Defined.

(** ** The texts of a run *)

Lemma Project_texts (a : ProjectAnswers) (w : World) :
  let arts := artifacts (run (Project.generateProject a) w) in
  manifest_of arts = Some (Project.packageJsonOf a)
  /\ text_of arts ["src"; "index.ts"] = Some (Project.generateIndexFile a)
  /\ text_of arts ["src"; "dt-cli.ts"] = Some (Project.generateCliFile a)
  /\ text_of arts [".env"] = Some (generateEnvFile a)
  /\ text_of arts ["README.md"] = Some (Project.readmeContent a)
  /\ text_of arts ["docker-compose.yml"]
     = (if includeDocker a then Some (dockerComposeContent a) else None)
  /\ text_of arts ["src"; "components"; "index.ts"]
     = (if includeExamples a then Some Project.indexContent else None).
Proof.
  cbv zeta. rewrite Project_artifacts. unfold project_artifacts.
  destruct (includeExamples a), (includeDocker a); repeat split; reflexivity.
Qed.

Lemma Part001_texts (a : ProjectAnswers) (w : World) :
  let arts := artifacts (run (Part001.generateProject a) w) in
  manifest_of arts = Some (Part001.packageJsonOf (core_version w) (cli_version w) a)
  /\ text_of arts ["src"; "index.ts"] = Some (Part001.generateIndexFile a)
  /\ text_of arts ["src"; "dt-cli.ts"] = None
  /\ text_of arts [".env"] = Some (generateEnvFile a)
  /\ text_of arts ["README.md"] = Some (Part001.readmeContent a)
  /\ text_of arts ["docker-compose.yml"]
     = (if includeDocker a then Some (dockerComposeContent a) else None)
  /\ text_of arts ["src"; "components"; "index.ts"]
     = (if includeExamples a then Some Part001.indexContent else None).
Proof.
  cbv zeta. rewrite Part001_artifacts. unfold part001_artifacts.
  destruct (includeExamples a), (includeDocker a); repeat split; reflexivity.
Qed.

Lemma Part002_texts (a : ProjectAnswers) (w : World) :
  let arts := artifacts (run (Part002.generateProject a) w) in
  manifest_of arts = Some (Part002.packageJsonOf a)
  /\ text_of arts ["src"; "index.ts"] = Some (Part002.generateIndexFile a)
  /\ text_of arts ["src"; "dt-cli.ts"] = Some (Part002.generateCliFile a)
  /\ text_of arts [".env"] = Some (generateEnvFile a)
  /\ text_of arts ["README.md"] = Some (Part002.readmeContent a)
  /\ text_of arts ["docker-compose.yml"]
     = (if includeDocker a then Some (dockerComposeContent a) else None)
  /\ text_of arts ["src"; "components"; "index.ts"]
     = (if includeExamples a then Some Part002.indexContent else None).
Proof.
  cbv zeta. rewrite Part002_artifacts. unfold part002_artifacts.
  destruct (includeExamples a), (includeDocker a); repeat split; reflexivity.
Qed.

(** ** The database client *)

Lemma Project_clients (a : ProjectAnswers) :
  single_line_answers a = true ->
  knex_clients (Project.generateIndexFile a)
  = [if String.eqb (database a) "postgresql" then "pg" else "sqlite3"]
  /\ knex_clients (Project.generateCliFile a)
     = [if String.eqb (database a) "postgresql" then "pg" else "sqlite3"].
Proof.
  intros H. one_line H. unfold knex_clients.
  split; unfold_text; read_lines_after; by_cases.
Qed.

Lemma Part001_clients (a : ProjectAnswers) :
  single_line_answers a = true ->
  knex_clients (Part001.generateIndexFile a)
  = [if String.eqb (database a) "postgresql" then "pg" else "better-sqlite3"].
Proof.
  intros H. one_line H. unfold knex_clients.
  unfold_text; read_lines_after; by_cases.
Qed.

Lemma Part002_clients (a : ProjectAnswers) :
  single_line_answers a = true ->
  knex_clients (Part002.generateIndexFile a)
  = [if String.eqb (database a) "postgresql" then "pg" else "better-sqlite3"]
  /\ knex_clients (Part002.generateCliFile a)
     = [if String.eqb (database a) "postgresql" then "pg" else "better-sqlite3"].
Proof.
  intros H. one_line H. unfold knex_clients.
  split; unfold_text; read_lines_after; by_cases.
Qed.

Ltac in_dependencies :=
  apply (bool_decide_unpack _); vm_compute; exact I.

Lemma Project_client_dependency (a : ProjectAnswers) :
  (if String.eqb (database a) "postgresql" then "pg" else "sqlite3")
  ∈ dom (dependencies (Project.packageJsonOf a)).
Proof.
  unfold Project.packageJsonOf.
  destruct (String.eqb (database a) "postgresql"), (useRedis a),
    (String.eqb (storage a) "ovh"); in_dependencies.
Qed.

Lemma Part001_client_dependency (v1 v2 : option string) (a : ProjectAnswers) :
  (if String.eqb (database a) "postgresql" then "pg" else "better-sqlite3")
  ∈ dom (dependencies (Part001.packageJsonOf v1 v2 a)).
Proof.
  unfold Part001.packageJsonOf.
  destruct (String.eqb (database a) "postgresql"), (useRedis a),
    (String.eqb (storage a) "ovh"); in_dependencies.
Qed.

Lemma Part002_client_dependency (a : ProjectAnswers) :
  (if String.eqb (database a) "postgresql" then "pg" else "better-sqlite3")
  ∈ dom (dependencies (Part002.packageJsonOf a)).
Proof.
  unfold Part002.packageJsonOf.
  destruct (String.eqb (database a) "postgresql"), (useRedis a),
    (String.eqb (storage a) "ovh"); in_dependencies.
Qed.

(** X4: the database client that the generated entry point, and the
    generated command-line file where a revision writes one, hand to knex is
    a dependency of the manifest of the same run: pg for postgresql, and for
    every other database value sqlite3 in project.ts and better-sqlite3 in
    part_001 and part_002. *)
Theorem X4_client_is_a_dependency (a : ProjectAnswers) (w : World) :
  single_line_answers a = true ->
  clients_declared (artifacts (run (Project.generateProject a) w))
  /\ clients_declared (artifacts (run (Part001.generateProject a) w))
  /\ clients_declared (artifacts (run (Part002.generateProject a) w)).
Proof.
  intros Hs. unfold clients_declared.
  destruct (Project_texts a w) as (Hm & Hi & Hc & _).
  destruct (Part001_texts a w) as (Hm1 & Hi1 & Hc1 & _).
  destruct (Part002_texts a w) as (Hm2 & Hi2 & Hc2 & _).
  destruct (Project_clients a Hs) as [Ki Kc].
  pose proof (Part001_clients a Hs) as Ki1.
  destruct (Part002_clients a Hs) as [Ki2 Kc2].
  split; [ | split].
  - exists (Project.packageJsonOf a), (Project.generateIndexFile a).
    split; [exact Hm | split; [exact Hi | split]].
    + eexists; split; [exact Ki | apply Project_client_dependency].
    + intros cli Hcli. rewrite Hc in Hcli. injection Hcli as <-.
      eexists; split; [exact Kc | apply Project_client_dependency].
  - exists (Part001.packageJsonOf (core_version w) (cli_version w) a),
      (Part001.generateIndexFile a).
    split; [exact Hm1 | split; [exact Hi1 | split]].
    + eexists; split; [exact Ki1 | apply Part001_client_dependency].
    + intros cli Hcli. rewrite Hc1 in Hcli. discriminate Hcli.
  - exists (Part002.packageJsonOf a), (Part002.generateIndexFile a).
    split; [exact Hm2 | split; [exact Hi2 | split]].
    + eexists; split; [exact Ki2 | apply Part002_client_dependency].
    + intros cli Hcli. rewrite Hc2 in Hcli. injection Hcli as <-.
      eexists; split; [exact Kc2 | apply Part002_client_dependency].
Qed.

Lemma X4_client_is_a_dependency_witness :
  single_line_answers demo = true
  /\ clients_declared (artifacts (run (Part001.generateProject demo) offline)).
Proof.
  split; [reflexivity | ].
  destruct (X4_client_is_a_dependency demo offline) as (_ & H & _); [reflexivity | exact H].
Defined.

(** ** The example components *)

Lemma Project_index_names (a : ProjectAnswers) :
  single_line_answers a = true ->
  imported_names "./components/index.js" (Project.generateIndexFile a)
  = if includeExamples a then ["RandomDataCollector"; "DataProcessor"] else [].
Proof.
  intros Hs. unfold imported_names. rewrite (Project_index_import_lines a Hs). by_cases.
Qed.

Lemma Part001_index_names (a : ProjectAnswers) :
  single_line_answers a = true ->
  imported_names "./components/index.js" (Part001.generateIndexFile a)
  = if includeExamples a then ["JSONPlaceholderCollector"] else [].
Proof.
  intros Hs. unfold imported_names. rewrite (Part001_index_import_lines a Hs). by_cases.
Qed.

Lemma Part002_index_names (a : ProjectAnswers) :
  single_line_answers a = true ->
  imported_names "./components/index.js" (Part002.generateIndexFile a)
  = if includeExamples a then ["JSONPlaceholderCollector"; "DataProcessor"] else [].
Proof.
  intros Hs. unfold imported_names. rewrite (Part002_index_import_lines a Hs). by_cases.
Qed.

(** X5: in project.ts and part_001 every class the generated entry point
    imports from the example components is re-exported by the generated
    components index, from a module whose file the run writes and which
    defines a class of that name; the entry point imports such names exactly
    when includeExamples is set. *)
Theorem X5_example_names_defined (a : ProjectAnswers) (w : World) :
  single_line_answers a = true ->
  (example_names_defined (artifacts (run (Project.generateProject a) w))
   /\ example_names_defined (artifacts (run (Part001.generateProject a) w)))
  /\ (imported_names "./components/index.js" (Project.generateIndexFile a) <> []
      <-> includeExamples a = true)
  /\ (imported_names "./components/index.js" (Part001.generateIndexFile a) <> []
      <-> includeExamples a = true).
Proof.
  intros Hs.
  pose proof (Project_index_names a Hs) as Hn.
  pose proof (Part001_index_names a Hs) as Hn1.
  split; [split | ].
  - intros index n Hidx Hin.
    destruct (Project_texts a w) as (_ & Hi & _). rewrite Hi in Hidx.
    injection Hidx as <-. rewrite Hn in Hin.
    rewrite Project_artifacts. unfold project_artifacts.
    destruct (includeExamples a); [ | destruct Hin].
    destruct Hin as [<- | [<- | []]].
    + exists Project.indexContent, "./random-data-collector.js",
        ["src"; "components"; "random-data-collector.ts"], Project.collectorContent.
      destruct (includeDocker a);
        (split; [reflexivity | split; [vm_compute; tauto | split; [reflexivity | split;
           [reflexivity | vm_compute; tauto]]]]).
    + exists Project.indexContent, "./data-processor.js",
        ["src"; "components"; "data-processor.ts"], Project.handlerContent.
      destruct (includeDocker a);
        (split; [reflexivity | split; [vm_compute; tauto | split; [reflexivity | split;
           [reflexivity | vm_compute; tauto]]]]).
  - intros index n Hidx Hin.
    destruct (Part001_texts a w) as (_ & Hi & _). rewrite Hi in Hidx.
    injection Hidx as <-. rewrite Hn1 in Hin.
    rewrite Part001_artifacts. unfold part001_artifacts.
    destruct (includeExamples a); [ | destruct Hin].
    destruct Hin as [<- | []].
    exists Part001.indexContent, "./jsonplaceholder_collector.js",
      ["src"; "components"; "jsonplaceholder_collector.ts"], Part001.collectorContent.
    destruct (includeDocker a);
      (split; [reflexivity | split; [vm_compute; tauto | split; [reflexivity | split;
         [reflexivity | vm_compute; tauto]]]]).
  - rewrite Hn, Hn1. destruct (includeExamples a); intuition congruence.
Qed.

Lemma X5_example_names_defined_witness :
  single_line_answers full_stack = true
  /\ example_names_defined (artifacts (run (Project.generateProject full_stack) offline)).
Proof.
  split; [reflexivity | ].
  destruct (X5_example_names_defined full_stack offline) as [[H _] _]; [reflexivity | exact H].
Defined.

Lemma Part002_classes (a : ProjectAnswers) :
  single_line_answers a = true ->
  exported_classes (Part002.generateIndexFile a) = []
  /\ exported_classes (Part002.generateCliFile a) = [].
Proof.
  intros H. one_line H. unfold exported_classes.
  split; unfold_text; read_lines_after; by_cases.
Qed.

(** X6: part_002 with includeExamples set writes an entry point that
    imports DataProcessor from the example components, although the
    components index of the same run does not re-export that name and no
    source file of the run defines a class of that name. *)
Theorem X6_part002_dangling_import (a : ProjectAnswers) (w : World) :
  single_line_answers a = true ->
  includeExamples a = true ->
  dangling_example (artifacts (run (Part002.generateProject a) w)) "DataProcessor".
Proof.
  intros Hs Hex.
  pose proof (Part002_index_names a Hs) as Hn. rewrite Hex in Hn.
  destruct (Part002_texts a w) as (_ & Hi & _ & _ & _ & _ & Hc). rewrite Hex in Hc.
  exists (Part002.generateIndexFile a).
  split; [exact Hi | split; [rewrite Hn; right; left; reflexivity | split]].
  - intros cindex Hcx. rewrite Hc in Hcx. injection Hcx as <-.
    vm_compute. intuition discriminate.
  - intros p content Hp Hsrc.
    rewrite Part002_artifacts in Hp. unfold part002_artifacts in Hp. rewrite Hex in Hp.
    destruct (Part002_classes a Hs) as [Ei Ec].
    destruct (includeDocker a); each_artifact Hp; try not_source;
      first [rewrite Ei | rewrite Ec | idtac]; vm_compute; intuition discriminate.
Qed.

Lemma X6_part002_dangling_import_witness :
  single_line_answers full_stack = true
  /\ includeExamples full_stack = true
  /\ dangling_example (artifacts (run (Part002.generateProject full_stack) offline))
       "DataProcessor".
Proof.
  split; [reflexivity | split; [reflexivity | ]].
  apply (X6_part002_dangling_import full_stack offline); reflexivity.
Defined.

(** ** The registry lookups *)

Lemma Part001_versions (a : ProjectAnswers) (w : World) :
  dependencies (Part001.packageJsonOf (core_version w) (cli_version w) a) !! "digitaltwin-core"
  = Some (version_range "0.3.3" (registry w core_url))
  /\ devDependencies (Part001.packageJsonOf (core_version w) (cli_version w) a)
       !! "digitaltwin-cli"
     = Some (version_range "0.1.0" (registry w cli_url)).
Proof.
  unfold Part001.packageJsonOf, core_version, cli_version, core_url, cli_url.
  destruct (registry w "https://registry.npmjs.org/digitaltwin-core/latest") as [ | [v1 | ]],
    (registry w "https://registry.npmjs.org/digitaltwin-cli/latest") as [ | [v2 | ]],
    (String.eqb (database a) "postgresql"), (useRedis a), (String.eqb (storage a) "ovh");
    split; vm_compute; reflexivity.
Qed.

Lemma Part001_warnings (a : ProjectAnswers) (w : World) :
  warnings (run (Part001.generateProject a) w)
  = ((if is_rejected (registry w core_url)
      then ["Warning: Could not fetch digitaltwin-core version from npm, falling back to default"]
      else [])
     ++ (if is_rejected (registry w cli_url)
         then ["Warning: Could not fetch digitaltwin-cli version from npm, falling back to default"]
         else []))%list.
Proof.
  unfold run, Part001.generateProject, Part001.generatePackageJson,
    Part001.getLatestDigitalTwinCoreVersion, Part001.getLatestDigitalTwinCliVersion,
    fetch_json, mbind, io_bind, core_url, cli_url.
  destruct (includeExamples a), (includeDocker a),
    (registry w "https://registry.npmjs.org/digitaltwin-core/latest"),
    (registry w "https://registry.npmjs.org/digitaltwin-cli/latest"); reflexivity.
Qed.

Lemma no_lookup_no_warning (a : ProjectAnswers) (w : World) :
  warnings (run (Project.generateProject a) w) = []
  /\ warnings (run (Part002.generateProject a) w) = [].
Proof.
  destruct (includeExamples a) eqn:Hex, (includeDocker a) eqn:Hd;
    unfold run, Project.generateProject, Part002.generateProject; rewrite Hex, Hd;
    split; reflexivity.
Qed.

(** X7: part_001 writes into the manifest, for digitaltwin-core and for
    digitaltwin-cli, the caret range of what its registry lookup gave: the
    fallback (0.3.3, 0.1.0) when the lookup is rejected, the version of the
    answer when it has one, and the text "^undefined" when the registry
    answers without a version field.  It warns on the console once for each
    rejected lookup, core first, and not otherwise; project.ts and part_002
    never warn. *)
Theorem X7_registry_lookups (a : ProjectAnswers) (w : World) :
  (exists pkg,
      manifest_of (artifacts (run (Part001.generateProject a) w)) = Some pkg
      /\ dependencies pkg !! "digitaltwin-core"
         = Some (version_range "0.3.3" (registry w core_url))
      /\ devDependencies pkg !! "digitaltwin-cli"
         = Some (version_range "0.1.0" (registry w cli_url)))
  /\ warnings (run (Part001.generateProject a) w)
     = ((if is_rejected (registry w core_url)
         then ["Warning: Could not fetch digitaltwin-core version from npm, falling back to default"]
         else [])
        ++ (if is_rejected (registry w cli_url)
            then ["Warning: Could not fetch digitaltwin-cli version from npm, falling back to default"]
            else []))%list
  /\ warnings (run (Project.generateProject a) w) = []
  /\ warnings (run (Part002.generateProject a) w) = [].
Proof.
  split; [ | split; [apply Part001_warnings | apply no_lookup_no_warning]].
  exists (Part001.packageJsonOf (core_version w) (cli_version w) a).
  destruct (Part001_texts a w) as (Hm & _).
  split; [exact Hm | apply Part001_versions].
Qed.

(** ** The queue connection of the entry point *)

Lemma engine_redis_texts (a : ProjectAnswers) :
  single_line_answers a = true ->
  engine_redis (Project.generateIndexFile a) = []
  /\ engine_redis (Part001.generateIndexFile a) = ["{"; "localhost',"; ""]
  /\ engine_redis (Part002.generateIndexFile a) = ["{"; "localhost',"; ""].
Proof.
  intros H. one_line H. unfold engine_redis.
  repeat split; unfold_text; do 3 read_lines_after; by_cases.
Qed.

Lemma env_queue_lines (a : ProjectAnswers) :
  single_line_answers a = true ->
  lines_after "REDIS_HOST=" (generateEnvFile a)
  = if useRedis a then ["localhost"] else [].
Proof. intros H. one_line H. unfold_text. read_lines_after. by_cases. Qed.

(** X11: in part_001 and part_002 the generated entry point passes the
    literal queue connection (host localhost, port 6379) to the engine for
    every Options Model, also without useRedis, when the manifest of the
    same run has no ioredis and the environment template no REDIS_HOST; in
    project.ts the entry point never passes a queue connection, also with
    useRedis, when the manifest has ioredis and the template REDIS_HOST. *)
Theorem X11_queue_connection (a : ProjectAnswers) (w : World) :
  single_line_answers a = true ->
  queue_never a (artifacts (run (Project.generateProject a) w))
  /\ queue_unconditional a (artifacts (run (Part001.generateProject a) w))
  /\ queue_unconditional a (artifacts (run (Part002.generateProject a) w)).
Proof.
  intros Hs.
  destruct (engine_redis_texts a Hs) as (E & E1 & E2).
  pose proof (env_queue_lines a Hs) as Hq.
  destruct (Project_texts a w) as (Hm & Hi & _ & He & _).
  destruct (Part001_texts a w) as (Hm1 & Hi1 & _ & He1 & _).
  destruct (Part002_texts a w) as (Hm2 & Hi2 & _ & He2 & _).
  assert (Hpkg : if useRedis a
                 then declares (Project.packageJsonOf a) "ioredis"
                      /\ declares (Part001.packageJsonOf (core_version w) (cli_version w) a)
                           "ioredis"
                      /\ declares (Part002.packageJsonOf a) "ioredis"
                 else ~ declares (Project.packageJsonOf a) "ioredis"
                      /\ ~ declares (Part001.packageJsonOf (core_version w) (cli_version w) a)
                             "ioredis"
                      /\ ~ declares (Part002.packageJsonOf a) "ioredis").
  { unfold Project.packageJsonOf, Part001.packageJsonOf, Part002.packageJsonOf.
    destruct (useRedis a), (String.eqb (database a) "postgresql"),
      (String.eqb (storage a) "ovh");
      repeat split; try declares_yes; intros H; declares_no H. }
  split; [ | split].
  - exists (Project.generateIndexFile a), (Project.packageJsonOf a), (generateEnvFile a).
    rewrite Hq. destruct (useRedis a); tauto.
  - exists (Part001.generateIndexFile a),
      (Part001.packageJsonOf (core_version w) (cli_version w) a), (generateEnvFile a).
    rewrite Hq. destruct (useRedis a); tauto.
  - exists (Part002.generateIndexFile a), (Part002.packageJsonOf a), (generateEnvFile a).
    rewrite Hq. destruct (useRedis a); tauto.
Qed.

Lemma X11_queue_connection_witness :
  single_line_answers demo = true
  /\ queue_unconditional demo (artifacts (run (Part002.generateProject demo) offline)).
Proof.
  split; [reflexivity | ].
  destruct (X11_queue_connection demo offline) as (_ & _ & H); [reflexivity | exact H].
Defined.

(** ** Values that several files repeat *)

Lemma append_assoc (x y z : string) : (x +:+ y) +:+ z = x +:+ (y +:+ z).
Proof.
  induction x as [ | c x IH]; [reflexivity | ].
  change (String c ((x +:+ y) +:+ z) = String c (x +:+ (y +:+ z))). f_equal. exact IH.
Qed.

Ltac same_lines :=
  repeat match goal with
  | |- context [if ?c then _ else _] => destruct c
  end;
  cbv beta iota delta [map];
  rewrite ?append_assoc, ?append_empty_r; reflexivity.







Lemma schema_entries_Part002 (a : ProjectAnswers) :
  single_line (projectName a) = true ->
  single_line (js_or (localStoragePath a) "./uploads") = true ->
  schema_entries (Part002.generateIndexFile a) = schema_expected a.
Proof.
  destruct a as [n pp db st lsp redis docker ex].
  unfold schema_entries, schema_expected, Part002.generateIndexFile. answers_fields.
  intros Hn Hp.
  destruct (String.eqb db "postgresql"), (String.eqb st "local"), redis, ex;
    scan_with schema_skipping_stays; reflexivity.
Qed.






(** ** The summary of the guide *)

Lemma readme_summary_lines (a : ProjectAnswers) :
  single_line_answers a = true ->
  forall readme,
    readme = Project.readmeContent a \/ readme = Part001.readmeContent a ->
    summary "Database" readme
    = [if String.eqb (database a) "postgresql" then "PostgreSQL" else "SQLite"]
    /\ summary "Queue" readme = [if useRedis a then "Redis (BullMQ)" else "In-memory"]
    /\ summary "Storage" readme
       = [if String.eqb (storage a) "local"
          then "Local File System (" +:+ js_or (localStoragePath a) "./uploads" +:+ ")"
          else "OVH Object Storage"]
    /\ summary "Docker" readme = [if includeDocker a then "Included" else "Not included"].
Proof.
  intros H readme Hr. one_line H. unfold summary.
  destruct Hr as [-> | ->]; repeat split; unfold_text; read_lines_after; same_lines.
Qed.

Lemma env_storage_path (a : ProjectAnswers) :
  single_line_answers a = true ->
  assigned "STORAGE_PATH" (generateEnvFile a)
  = if String.eqb (storage a) "local" then [js_or (localStoragePath a) "./uploads"] else [].
Proof.
  intros H. one_line H. unfold assigned. unfold_text. read_lines_after. same_lines.
Qed.

Lemma Part002_manifest_spec (a : ProjectAnswers) :
  valid_answers a = true -> manifest_spec "better-sqlite3" a (Part002.packageJsonOf a).
Proof.
  intros Hv. apply valid_answers_inv in Hv as (_ & _ & Hdb & Hst).
  destruct a as [n pp db st lsp redis docker ex]. simpl in Hdb, Hst.
  unfold manifest_spec. answers_fields.
  destruct Hdb as [-> | ->], Hst as [-> | ->], redis; manifest_cases.
Qed.

Lemma part002_paths_gated (a : ProjectAnswers) :
  gated a project_fixed_paths part001_example_paths
        (part002_paths (includeExamples a) (includeDocker a)).
Proof.
  unfold gated, part002_paths.
  destruct (includeExamples a), (includeDocker a); gated_cases.
Qed.

Lemma Part002_written_paths (a : ProjectAnswers) (w : World) :
  artifact_paths (run (Part002.generateProject a) w)
  = part002_paths (includeExamples a) (includeDocker a).
Proof. apply Part002_paths. Qed.

(** The summary agrees with a run whose texts, manifest and paths are as
    the generators make them. *)
Lemma readme_agrees_of (a : ProjectAnswers) (arts : list (list string * Content))
    (readme sqlite : string) (pkg : PackageJsonConfig)
    (fixed examples : list (list string)) :
  valid_answers a = true ->
  readme = Project.readmeContent a \/ readme = Part001.readmeContent a ->
  text_of arts ["README.md"] = Some readme ->
  manifest_of arts = Some pkg ->
  text_of arts [".env"] = Some (generateEnvFile a) ->
  manifest_spec sqlite a pkg ->
  gated a fixed examples (map fst arts) ->
  readme_agrees arts.
Proof.
  intros Hv Hr Ht Hm He (_ & _ & _ & Hpg & _ & _ & Haws & Hred) (_ & _ & Hdk).
  pose proof (valid_single_line_answers a Hv) as Hs.
  apply valid_answers_inv in Hv as (_ & _ & _ & Hst).
  destruct (readme_summary_lines a Hs readme Hr) as (Sd & Sq & Ss & Sk).
  pose proof (env_storage_path a Hs) as Hp.
  exists readme, pkg, (generateEnvFile a).
  rewrite Sd, Sq, Ss, Sk, Hp.
  split; [exact Ht | split; [exact Hm | split; [exact He | ]]].
  split; [ | split; [ | split]].
  - destruct (String.eqb_spec (database a) "postgresql") as [E | E].
    + left. split; [reflexivity | apply Hpg, E].
    + right. split; [reflexivity | intros D; apply E, Hpg, D].
  - destruct (useRedis a).
    + left. split; [reflexivity | apply Hred; reflexivity].
    + right. split; [reflexivity | intros D; apply Hred in D; discriminate D].
  - destruct (String.eqb_spec (storage a) "local") as [E | E].
    + right. split.
      * exists (js_or (localStoragePath a) "./uploads"). split; reflexivity.
      * intros D. apply Haws in D. rewrite E in D. discriminate D.
    + left. split; [reflexivity | ]. apply Haws. destruct Hst as [Hst | Hst]; [ | exact Hst].
      destruct (E Hst).
  - destruct (includeDocker a).
    + left. split; [reflexivity | ]. intros p Hin. apply (Hdk p Hin). reflexivity.
    + right. split; [reflexivity | ]. intros p Hin Hw. apply (Hdk p Hin) in Hw.
      discriminate Hw.
Qed.

(** X8: for every valid Options Model the configuration summary of the
    generated guide says what the same run wrote: PostgreSQL exactly when
    the manifest has the pg driver, Redis exactly when it has ioredis, OVH
    Object Storage exactly when it has the S3 client and otherwise the
    local path that the environment template assigns to STORAGE_PATH, and
    Docker as included exactly when the two container files are written. *)
Theorem X8_guide_summary (a : ProjectAnswers) (w : World) :
  valid_answers a = true ->
  readme_agrees (artifacts (run (Project.generateProject a) w))
  /\ readme_agrees (artifacts (run (Part001.generateProject a) w))
  /\ readme_agrees (artifacts (run (Part002.generateProject a) w)).
Proof.
  intros Hv.
  destruct (Project_texts a w) as (Hm & _ & _ & He & Hg & _).
  destruct (Part001_texts a w) as (Hm1 & _ & _ & He1 & Hg1 & _).
  destruct (Part002_texts a w) as (Hm2 & _ & _ & He2 & Hg2 & _).
  split; [ | split].
  - apply (readme_agrees_of a _ (Project.readmeContent a) "sqlite3" (Project.packageJsonOf a)
             project_fixed_paths project_example_paths); auto.
    + apply Project_manifest_spec, Hv.
    + change (map fst (artifacts ?tr)) with (artifact_paths tr).
      rewrite Project_paths. apply project_paths_gated.
  - apply (readme_agrees_of a _ (Part001.readmeContent a) "better-sqlite3"
             (Part001.packageJsonOf (core_version w) (cli_version w) a)
             part001_fixed_paths part001_example_paths); auto.
    + apply Part001_manifest_spec, Hv.
    + change (map fst (artifacts ?tr)) with (artifact_paths tr).
      rewrite Part001_paths. apply part001_paths_gated.
  - apply (readme_agrees_of a _ (Part002.readmeContent a) "better-sqlite3"
             (Part002.packageJsonOf a) project_fixed_paths part001_example_paths); auto.
    + apply Part002_manifest_spec, Hv.
    + change (map fst (artifacts ?tr)) with (artifact_paths tr).
      rewrite Part002_written_paths. apply part002_paths_gated.
Qed.

Lemma X8_guide_summary_witness :
  valid_answers full_stack = true
  /\ readme_agrees (artifacts (run (Part001.generateProject full_stack) offline)).
Proof.
  split; [reflexivity | ].
  destruct (X8_guide_summary full_stack offline) as (_ & H & _); [reflexivity | exact H].
Defined.

(** ** The commands of the guide *)

Lemma documented_commands_readme (a : ProjectAnswers) :
  single_line_answers a = true ->
  documented_commands (Project.readmeContent a)
  = ["npm run dev"; "npm run build"; "npm start"; "node dt test"; "node dt dev"]
  /\ documented_commands (Part001.readmeContent a)
     = ["npm run dev"; "npm run build"; "npm start"; "node dt test"; "node dt dev"].
Proof.
  intros H. one_line H. unfold documented_commands.
  split; unfold_text; read_lines_after; by_cases.
Qed.

Ltac in_scripts :=
  apply (bool_decide_unpack _); vm_compute; exact I.

Lemma scripts_of_manifests (a : ProjectAnswers) (v1 v2 : option string) (s : string) :
  In s ["dev"; "build"; "start"] ->
  s ∈ dom (scripts (Project.packageJsonOf a))
  /\ s ∈ dom (scripts (Part001.packageJsonOf v1 v2 a))
  /\ s ∈ dom (scripts (Part002.packageJsonOf a)).
Proof.
  intros Hin. unfold Project.packageJsonOf, Part001.packageJsonOf, Part002.packageJsonOf.
  cbv beta iota zeta.
  destruct (String.eqb (database a) "postgresql"), (useRedis a),
    (String.eqb (storage a) "ovh");
    cbv beta iota zeta delta [scripts];
    simpl in Hin; destruct Hin as [<- | [<- | [<- | []]]]; repeat split; in_scripts.
Qed.

Ltac which_command :=
  unfold command_available; cbv zeta;
  match goal with
  | |- context [script_of ?ws] =>
      let r := eval vm_compute in (script_of ws) in
      change (script_of ws) with r; cbv beta iota
  end;
  try match goal with
  | |- context [program_of ?ws] =>
      let r := eval vm_compute in (program_of ws) in
      change (program_of ws) with r; cbv beta iota
  end.

Lemma npm_commands (a : ProjectAnswers) (v1 v2 : option string)
    (paths : list (list string)) (c : string) :
  In c ["npm run dev"; "npm run build"; "npm start"] ->
  command_available paths (Project.packageJsonOf a) c
  /\ command_available paths (Part001.packageJsonOf v1 v2 a) c
  /\ command_available paths (Part002.packageJsonOf a) c.
Proof.
  intros Hin. simpl in Hin.
  destruct Hin as [<- | [<- | [<- | []]]]; repeat split; which_command;
    apply (scripts_of_manifests a v1 v2); simpl; tauto.
Qed.

Lemma dt_commands (examples docker : bool) (pkg : PackageJsonConfig) (c : string) :
  In c ["node dt test"; "node dt dev"] ->
  command_available (part001_paths examples docker) pkg c
  /\ ~ command_available (project_paths examples docker) pkg c
  /\ ~ command_available (part002_paths examples docker) pkg c.
Proof.
  intros Hin. simpl in Hin.
  destruct Hin as [<- | [<- | []]]; repeat split;
    first [ intros H; destruct examples, docker; vm_compute in H; intuition discriminate
          | which_command; destruct examples, docker; right; vm_compute; tauto ].
Qed.

(** X13: the guide of every revision lists the same five commands.  The
    three npm commands run scripts of the manifest of the same run.  The
    two [node dt] commands name a file the run writes in part_001 only
    (dt.js); project.ts and part_002 write neither dt nor dt.js, so their
    guides document two commands that have no file to run. *)
Theorem X13_documented_commands (a : ProjectAnswers) (w : World) :
  single_line_answers a = true ->
  guide_commands (artifacts (run (Part001.generateProject a) w)) with_dt
  /\ guide_commands (artifacts (run (Project.generateProject a) w)) without_dt
  /\ guide_commands (artifacts (run (Part002.generateProject a) w)) without_dt.
Proof.
  intros Hs. destruct (documented_commands_readme a Hs) as [Hc Hc1].
  destruct (Project_texts a w) as (Hm & _ & _ & _ & Hg & _).
  destruct (Part001_texts a w) as (Hm1 & _ & _ & _ & Hg1 & _).
  destruct (Part002_texts a w) as (Hm2 & _ & _ & _ & Hg2 & _).
  pose proof (npm_commands a (core_version w) (cli_version w)) as Hnpm.
  split; [ | split].
  - exists (Part001.readmeContent a),
      (Part001.packageJsonOf (core_version w) (cli_version w) a).
    split; [exact Hg1 | split; [exact Hm1 | ]].
    change (map fst (artifacts ?tr)) with (artifact_paths tr).
    rewrite Part001_paths, Hc1. split; [simpl; tauto | ].
    repeat (apply List.Forall_cons;
            [first [apply Hnpm; simpl; tauto | apply dt_commands; simpl; tauto] | ]).
    apply List.Forall_nil.
  - exists (Project.readmeContent a), (Project.packageJsonOf a).
    split; [exact Hg | split; [exact Hm | ]].
    change (map fst (artifacts ?tr)) with (artifact_paths tr).
    rewrite Project_paths, Hc. split; [ | split; [simpl; tauto | split; [simpl; tauto | ]]].
    + repeat (apply List.Forall_cons;
              [first [left; apply Hnpm; simpl; tauto | right; reflexivity] | ]).
      apply List.Forall_nil.
    + split; apply dt_commands; simpl; tauto.
  - exists (Part002.readmeContent a), (Part002.packageJsonOf a).
    split; [exact Hg2 | split; [exact Hm2 | ]].
    change (map fst (artifacts ?tr)) with (artifact_paths tr).
    rewrite Part002_written_paths. change (Part002.readmeContent a) with (Project.readmeContent a).
    rewrite Hc. split; [ | split; [simpl; tauto | split; [simpl; tauto | ]]].
    + repeat (apply List.Forall_cons;
              [first [left; apply Hnpm; simpl; tauto | right; reflexivity] | ]).
      apply List.Forall_nil.
    + split; apply dt_commands; simpl; tauto.
Qed.

Lemma X13_documented_commands_witness :
  single_line_answers demo = true
  /\ guide_commands (artifacts (run (Project.generateProject demo) offline)) without_dt.
Proof.
  split; [reflexivity | ].
  destruct (X13_documented_commands demo offline) as (_ & H & _); [reflexivity | exact H].
Defined.

(** ** part_002 *)

(** X14: part_002 follows the rules that hold of part_001.  For every valid
    Options Model its manifest declares the core framework, knex and
    commander, pg and its types exactly for postgresql, better-sqlite3
    exactly for sqlite, the S3 client exactly for ovh and ioredis exactly
    with useRedis; the written paths are a function of includeExamples and
    includeDocker; and the environment template assigns the names the
    schema of the entry point declares, then NODE_ENV and LOG_LEVEL. *)
Theorem X14_part002_rules (a : ProjectAnswers) (w : World) :
  valid_answers a = true ->
  (exists pkg,
      manifest_of (artifacts (run (Part002.generateProject a) w)) = Some pkg
      /\ manifest_spec "better-sqlite3" a pkg)
  /\ artifact_paths (run (Part002.generateProject a) w)
     = part002_paths (includeExamples a) (includeDocker a)
  /\ gated a project_fixed_paths part001_example_paths
           (artifact_paths (run (Part002.generateProject a) w))
  /\ env_names (generateEnvFile a)
     = (schema_names (Part002.generateIndexFile a) ++ ["NODE_ENV"; "LOG_LEVEL"])%list.
Proof.
  intros Hv. destruct (Part002_texts a w) as (Hm & _).
  split; [exists (Part002.packageJsonOf a); split;
          [exact Hm | apply Part002_manifest_spec, Hv] | ].
  rewrite Part002_written_paths.
  split; [reflexivity | split; [apply part002_paths_gated | ]].
  apply valid_answers_inv in Hv as (Hn & Hp & _ & _).
  unfold schema_names.
  rewrite (env_names_generateEnvFile a Hn Hp), (schema_entries_Part002 a Hn Hp),
    env_names_expected_schema.
  reflexivity.
Qed.

Lemma X14_part002_rules_witness :
  valid_answers demo = true
  /\ env_names (generateEnvFile demo)
     = (schema_names (Part002.generateIndexFile demo) ++ ["NODE_ENV"; "LOG_LEVEL"])%list.
Proof.
  split; [reflexivity | ].
  destruct (X14_part002_rules demo offline) as (_ & _ & _ & H); [reflexivity | exact H].
Defined.

(** ** What the manifest points at *)

Lemma tsconfig_texts (a : ProjectAnswers) (w : World) :
  text_of (artifacts (run (Project.generateProject a) w)) ["tsconfig.json"]
  = Some Project.generateTsConfig
  /\ text_of (artifacts (run (Part001.generateProject a) w)) ["tsconfig.json"]
     = Some Part001.generateTsConfig
  /\ text_of (artifacts (run (Part002.generateProject a) w)) ["tsconfig.json"]
     = Some Part002.generateTsConfig.
Proof.
  rewrite Project_artifacts, Part001_artifacts, Part002_artifacts.
  unfold project_artifacts, part001_artifacts, part002_artifacts.
  generalize Project.generateTsConfig, Part001.generateTsConfig, Part002.generateTsConfig.
  intros t t1 t2.
  destruct (includeExamples a), (includeDocker a); (split; [ | split]); reflexivity.
Qed.

Lemma compiler_options :
  (compiler_option "outDir" Project.generateTsConfig = ["./dist"]
   /\ compiler_option "rootDir" Project.generateTsConfig = ["./src"])
  /\ (compiler_option "outDir" Part001.generateTsConfig = ["./dist"]
      /\ compiler_option "rootDir" Part001.generateTsConfig = ["./src"]).
Proof. split; split; vm_compute; reflexivity. Qed.

(** The entries of a concrete map, one at a time. *)
Ltac compute_list H :=
  match type of H with
  | In _ ?l =>
      let l' := eval vm_compute in l in
      replace l with l' in H by (vm_compute; reflexivity)
  end;
  simpl In in H;
  repeat match type of H with
  | _ \/ _ => destruct H as [H | H]
  | False => destruct H
  end.

Ltac each_entry H :=
  apply elem_of_map_to_list in H; apply list_elem_of_In in H;
  compute_list H; try (injection H as <- <-).

Ltac manifest_gates :=
  match goal with
  | a : ProjectAnswers |- _ =>
      destruct (String.eqb (database a) "postgresql"), (useRedis a),
        (String.eqb (storage a) "ovh")
  end.

Ltac in_written :=
  match goal with
  | examples : bool, docker : bool |- _ => destruct examples, docker; vm_compute; tauto
  end.

Ltac target_of p :=
  exists p; split; [vm_compute; reflexivity | in_written].

Ltac script_targets :=
  match goal with
  | H : _ !! _ = Some _, Hp : In _ (script_sources _) |- _ =>
      each_entry H; compute_list Hp; subst; in_written
  end.

Lemma Project_manifest_targets (a : ProjectAnswers) (examples docker : bool) :
  (exists p, source_of_output "./dist" "./src" (main (Project.packageJsonOf a)) = Some p
             /\ In p (project_paths examples docker))
  /\ (forall n t, bin (Project.packageJsonOf a) !! n = Some t ->
        exists p, source_of_output "./dist" "./src" t = Some p
                  /\ In p (project_paths examples docker))
  /\ (forall n c, scripts (Project.packageJsonOf a) !! n = Some c ->
        forall p, In p (script_sources c) -> In p (project_paths examples docker)).
Proof.
  unfold Project.packageJsonOf.
  manifest_gates; cbv beta iota zeta delta [main bin scripts];
    (split; [target_of ["src"; "index.ts"] | split];
     [intros n t H; each_entry H; target_of ["src"; "dt-cli.ts"]
     | intros n c H p Hp; script_targets]).
Qed.

Lemma Part001_manifest_targets (a : ProjectAnswers) (v1 v2 : option string)
    (examples docker : bool) :
  (exists p, source_of_output "./dist" "./src" (main (Part001.packageJsonOf v1 v2 a)) = Some p
             /\ In p (part001_paths examples docker))
  /\ (forall n t, bin (Part001.packageJsonOf v1 v2 a) !! n = Some t ->
        exists p, source_of_output "./dist" "./src" t = Some p
                  /\ In p (part001_paths examples docker))
  /\ (forall n c, scripts (Part001.packageJsonOf v1 v2 a) !! n = Some c ->
        forall p, In p (script_sources c) -> In p (part001_paths examples docker)).
Proof.
  unfold Part001.packageJsonOf.
  manifest_gates; cbv beta iota zeta delta [main bin scripts];
    (split; [target_of ["src"; "index.ts"] | split];
     [intros n t H; each_entry H
     | intros n c H p Hp; script_targets]).
Qed.

Lemma Part002_manifest_targets (a : ProjectAnswers) (examples docker : bool) :
  (exists p, source_of_output "./dist" "./src" (main (Part002.packageJsonOf a)) = Some p
             /\ In p (part002_paths examples docker))
  /\ (forall n t, bin (Part002.packageJsonOf a) !! n = Some t ->
        exists p, source_of_output "./dist" "./src" t = Some p
                  /\ In p (part002_paths examples docker))
  /\ (forall n c, scripts (Part002.packageJsonOf a) !! n = Some c ->
        forall p, In p (script_sources c) -> In p (part002_paths examples docker)).
Proof.
  unfold Part002.packageJsonOf.
  manifest_gates; cbv beta iota zeta delta [main bin scripts];
    (split; [target_of ["src"; "index.ts"] | split];
     [intros n t H; each_entry H; target_of ["src"; "dt-cli.ts"]
     | intros n c H p Hp; script_targets]).
Qed.

(** X15: in every revision and for every Options Model the manifest points
    at files of the same run.  With the outDir and rootDir that the written
    tsconfig.json sets, the main entry dist/index.js is the output of the
    written src/index.ts; every bin entry (dt in project.ts and part_002,
    none in part_001) is the output of the written src/dt-cli.ts; and every
    source file that a script names (src/index.ts, src/dt-cli.ts) is
    written. *)
Theorem X15_manifest_targets (a : ProjectAnswers) (w : World) :
  manifest_targets_exist (artifacts (run (Project.generateProject a) w))
  /\ manifest_targets_exist (artifacts (run (Part001.generateProject a) w))
  /\ manifest_targets_exist (artifacts (run (Part002.generateProject a) w)).
Proof.
  destruct (tsconfig_texts a w) as (Ht & Ht1 & Ht2).
  destruct compiler_options as [[Ho Hr] [Ho1 Hr1]].
  destruct (Project_texts a w) as (Hm & _).
  destruct (Part001_texts a w) as (Hm1 & _).
  destruct (Part002_texts a w) as (Hm2 & _).
  unfold manifest_targets_exist.
  change (map fst (artifacts ?tr)) with (artifact_paths tr).
  rewrite Project_paths, Part001_paths, Part002_written_paths.
  split; [ | split].
  - exists (Project.packageJsonOf a), Project.generateTsConfig, "./dist", "./src".
    split; [exact Hm | split; [exact Ht | split; [exact Ho | split; [exact Hr | ]]]].
    apply Project_manifest_targets.
  - exists (Part001.packageJsonOf (core_version w) (cli_version w) a),
      Part001.generateTsConfig, "./dist", "./src".
    split; [exact Hm1 | split; [exact Ht1 | split; [exact Ho1 | split; [exact Hr1 | ]]]].
    apply Part001_manifest_targets.
  - exists (Part002.packageJsonOf a), Part002.generateTsConfig, "./dist", "./src".
    split; [exact Hm2 | split; [exact Ht2 | split; [exact Ho | split; [exact Hr | ]]]].
    apply Part002_manifest_targets.
Qed.
